(** * monkeyy: the daily typing challenge

    A shallow embedding of the two revisions of the program that live in
    the repository:

    - the SQLite revision: package [data] over database/sql
      (one table [sentences (date_id, sentence, value)]) and the terminal
      program that opens it with [data.InitDataBase];
    - the Badger revision: package [data] over a Badger key-value store
      (keys [sentence:<date>] and [store:<date>]) and the terminal program
      that opens it with [data.InitInMemoryStore].

    The Bubble Tea [Update] function of the two terminal programs is the
    same text except for four places (the guard around the WPM division,
    the leaderboard paging keys, the user-name check, the leaderboard
    poll); [Update] below takes the revision as an argument and branches
    on it exactly there.

    Go strings are byte strings: [len] and indexing count bytes, while
    [[]rune(s)] and [range s] decode UTF-8.  Both views are modelled. *)

From Stdlib Require Import ZArith Lia Bool List Ascii String.
From Stdlib Require Import Sorting.Sorted Sorting.Permutation.
From Stdlib Require Import Floats.SpecFloat.
From stdpp Require Import base option list gmap strings.

Local Open Scope Z_scope.
Local Open Scope list_scope.

(** ** Go strings *)

(** A Go [string] is an immutable sequence of bytes. *)
Abbreviation gostring := (list ascii).

(** String literals of the source. *)
Definition lit (s : string) : gostring := list_ascii_of_string s.

(** The numeric value of a byte, as [rune(s[i])] or [int(s[i])] gives it. *)
Definition byteval (b : ascii) : Z := Z.of_N (N_of_ascii b).

(** [r] is what Go calls a rune: a code point held in an [int32]. *)
Abbreviation rune := Z.

Definition newline : ascii := ascii_of_nat 10.

(** [len(s)] as a Go [int]. *)
Definition len {A} (s : list A) : Z := Z.of_nat (length s).

Definition is_ascii (b : ascii) : bool := byteval b <? 128.

Module Utf8.

Definition RuneError : rune := 65533.

Definition cont (x : Z) : bool := (128 <=? x) && (x <=? 191).
Definition between (lo x hi : Z) : bool := (lo <=? x) && (x <=? hi).

(** [utf8.DecodeRuneInString]: the first rune of [s] and its width in
    bytes; an ill-formed or truncated sequence decodes to
    [(RuneError, 1)], and the empty string to [(RuneError, 0)]. *)
Definition DecodeRune (s : gostring) : rune * nat :=
  match s with
  | [] => (RuneError, 0%nat)
  | b0 :: t =>
    let x0 := byteval b0 in
    if x0 <? 128 then (x0, 1%nat)
    else if between 194 x0 223 then
      match t with
      | b1 :: _ =>
        let x1 := byteval b1 in
        if cont x1 then ((x0 - 192) * 64 + (x1 - 128), 2%nat)
        else (RuneError, 1%nat)
      | _ => (RuneError, 1%nat)
      end
    else if between 224 x0 239 then
      match t with
      | b1 :: b2 :: _ =>
        let x1 := byteval b1 in
        let x2 := byteval b2 in
        let lo := if x0 =? 224 then 160 else 128 in
        let hi := if x0 =? 237 then 159 else 191 in
        if between lo x1 hi && cont x2
        then ((x0 - 224) * 4096 + (x1 - 128) * 64 + (x2 - 128), 3%nat)
        else (RuneError, 1%nat)
      | _ => (RuneError, 1%nat)
      end
    else if between 240 x0 244 then
      match t with
      | b1 :: b2 :: b3 :: _ =>
        let x1 := byteval b1 in
        let x2 := byteval b2 in
        let x3 := byteval b3 in
        let lo := if x0 =? 240 then 144 else 128 in
        let hi := if x0 =? 244 then 143 else 191 in
        if between lo x1 hi && cont x2 && cont x3
        then ((x0 - 240) * 262144 + (x1 - 128) * 4096
              + (x2 - 128) * 64 + (x3 - 128), 4%nat)
        else (RuneError, 1%nat)
      | _ => (RuneError, 1%nat)
      end
    else (RuneError, 1%nat)
  end.

(** [for i, r := range s]: the byte offset and the rune of every decoded
    character, in order.  [fuel] bounds the number of characters, which
    never exceeds the number of bytes. *)
Fixpoint range_from (fuel : nat) (off : Z) (s : gostring) : list (Z * rune) :=
  match fuel with
  | O => []
  | S fuel' =>
    match s with
    | [] => []
    | _ :: _ =>
      let '(r, w) := DecodeRune s in
      (off, r) :: range_from fuel' (off + Z.of_nat w) (drop w s)
    end
  end.

Definition range (s : gostring) : list (Z * rune) :=
  range_from (length s) 0 s.

(** [[]rune(s)]. *)
Definition runes (s : gostring) : list rune := map snd (range s).

(** [s] is well-formed UTF-8: no character decodes to the error rune by
    way of an ill-formed sequence. *)
Fixpoint valid_from (fuel : nat) (s : gostring) : bool :=
  match fuel with
  | O => match s with [] => true | _ => false end
  | S fuel' =>
    match s with
    | [] => true
    | b0 :: _ =>
      let '(r, w) := DecodeRune s in
      (negb (Nat.eqb w 1) || (byteval b0 <? 128))
      && valid_from fuel' (drop w s)
    end
  end.

Definition valid (s : gostring) : bool := valid_from (length s) s.

(** U+FFFD in UTF-8. *)
Definition replacement : gostring :=
  [ascii_of_nat 239; ascii_of_nat 191; ascii_of_nat 189].

(** [s] with every byte that is not part of a well-formed sequence (the
    bytes [DecodeRuneInString] answers [(RuneError, 1)] for) replaced by
    U+FFFD. *)
Fixpoint coerce_from (fuel : nat) (s : gostring) : gostring :=
  match fuel with
  | O => []
  | S fuel' =>
    match s with
    | [] => []
    | b0 :: _ =>
      let '(r, w) := DecodeRune s in
      (if Nat.eqb w 1 && negb (byteval b0 <? 128) then replacement
       else take w s)
      ++ coerce_from fuel' (drop w s)
    end
  end.

Definition coerce (s : gostring) : gostring := coerce_from (length s) s.

End Utf8.

(** ** Package unicode

    The typing handler asks [unicode.IsLetter], [IsPunct], [IsSpace] and
    [IsNumber] of a rune made from one byte; the user-name check of the
    Badger revision asks [IsLetter] and [IsNumber] of decoded runes.  The
    tables belong to the Go library, so the four predicates are an
    interface; [latin1] below is the library's Latin-1 table (and false
    above U+00FF, where no example goes). *)
Class Unicode := {
  IsLetter : rune -> bool;
  IsPunct : rune -> bool;
  IsSpace : rune -> bool;
  IsNumber : rune -> bool
}.

Module Latin1.

Definition isLetter (r : rune) : bool :=
  Utf8.between 65 r 90 || Utf8.between 97 r 122
  || (r =? 170) || (r =? 181) || (r =? 186)
  || Utf8.between 192 r 214 || Utf8.between 216 r 246
  || Utf8.between 248 r 255.

Definition isPunct (r : rune) : bool :=
  Utf8.between 33 r 35 || Utf8.between 37 r 42 || Utf8.between 44 r 47
  || Utf8.between 58 r 59 || Utf8.between 63 r 64
  || Utf8.between 91 r 93 || (r =? 95) || (r =? 123) || (r =? 125)
  || (r =? 161) || (r =? 167) || (r =? 171) || (r =? 182) || (r =? 183)
  || (r =? 187) || (r =? 191).

Definition isSpace (r : rune) : bool :=
  Utf8.between 9 r 13 || (r =? 32) || (r =? 133) || (r =? 160).

Definition isNumber (r : rune) : bool :=
  Utf8.between 48 r 57 || (r =? 178) || (r =? 179) || (r =? 185)
  || Utf8.between 188 r 190.

End Latin1.

#[export] Instance latin1 : Unicode := {|
  IsLetter := Latin1.isLetter;
  IsPunct := Latin1.isPunct;
  IsSpace := Latin1.isSpace;
  IsNumber := Latin1.isNumber
|}.

(** ** float64 and time.Duration

    [float64] values are IEEE 754 binary64; the operations are the ones of
    the standard library's executable specification of binary64. *)
Module Float64.

Definition prec : Z := 53.
Definition emax : Z := 1024.

Abbreviation float64 := spec_float.

(** [float64(n)] for an integer [n]: rounded to nearest even. *)
Definition of_int (n : Z) : float64 := binary_normalize prec emax n 0 false.

Definition add : float64 -> float64 -> float64 := SFadd prec emax.
Definition div : float64 -> float64 -> float64 := SFdiv prec emax.

(** [x > 0] on floats; false when [x] is a NaN. *)
Definition gt_zero (x : float64) : bool := SFltb (S754_zero false) x.

Definition minInt64 : Z := - 2 ^ 63.
Definition maxInt64 : Z := 2 ^ 63 - 1.

(** The value of a finite float truncated toward zero. *)
Definition trunc (x : float64) : option Z :=
  match x with
  | S754_zero _ => Some 0
  | S754_finite s m e =>
    let a := if 0 <=? e then Zpos m * 2 ^ e else Zpos m / 2 ^ (- e) in
    Some (if s then - a else a)
  | S754_infinity _ | S754_nan => None
  end.

(** [int(x)]: the fraction is discarded; when the truncated value does
    not fit the integer type (and for infinities and NaN) the language
    leaves the result to the implementation. *)
Definition representable (x : float64) : option Z :=
  match trunc x with
  | Some z => if (minInt64 <=? z) && (z <=? maxInt64) then Some z else None
  | None => None
  end.

End Float64.

(** What the language leaves to the implementation. *)
Class Platform := {
  int_of_unrepresentable : Float64.float64 -> Z
}.

(** amd64: the conversion instruction answers the "integer indefinite"
    value. *)
Definition amd64 : Platform := {|
  int_of_unrepresentable := fun _ => Float64.minInt64
|}.

Module Float64Conv.

Definition to_int `{Platform} (x : Float64.float64) : Z :=
  match Float64.representable x with
  | Some z => z
  | None => int_of_unrepresentable x
  end.

End Float64Conv.

Module Duration.

(** A [time.Duration] is an [int64] count of nanoseconds. *)
Definition Minute : Z := 60 * 1000000000.

(** [func (d Duration) Minutes() float64]. *)
Definition Minutes (d : Z) : Float64.float64 :=
  let min := Z.quot d Minute in
  let nsec := Z.rem d Minute in
  Float64.add (Float64.of_int min)
              (Float64.div (Float64.of_int nsec) (Float64.of_int Minute)).

End Duration.

(** ** Errors and results *)

(** A Go [error] built by [fmt.Errorf]: the message, without the rendering
    of a wrapped cause. *)
Inductive error := Errorf (msg : string).

Inductive result (A : Type) :=
| Ok (a : A)
| Err (e : error).
Arguments Ok {A} a.
Arguments Err {A} e.

Definition is_ok {A} (r : result A) : bool :=
  match r with Ok _ => true | Err _ => false end.

(** ** sort.Slice

    [GetLeaderBoard] sorts with [sort.Slice].  The routine belongs to the Go
    library; what it promises is all the program may rely on: the result is
    a rearrangement of the argument in which no element is less than an
    earlier one, provided [less] is a strict weak ordering.  (The library
    documents that equal elements may change places; [sort.SliceStable] is
    the stable routine.)  Theorems about the leaderboard hold for every
    routine that keeps the promise.  The routine the library runs is
    followed in [GoSort] below; [goSort] is the instance built on it. *)
Record strict_weak {A} (less : A -> A -> bool) : Prop := {
  sw_irrefl : forall x, less x x = false;
  sw_trans : forall x y z, less x y = true -> less y z = true -> less x z = true;
  sw_incomp : forall x y z, less x y = false -> less y z = false -> less x z = false
}.

(** No element is less than an earlier one. *)
Definition ordered_by {A} (less : A -> A -> bool) : list A -> Prop :=
  StronglySorted (fun x y => less y x = false).

Class SortSlice := {
  sort_Slice : forall {A : Type}, (A -> A -> bool) -> list A -> list A;
  sort_Slice_perm : forall A (less : A -> A -> bool) (l : list A),
      Permutation l (sort_Slice less l);
  sort_Slice_ordered : forall A (less : A -> A -> bool) (l : list A),
      strict_weak less -> ordered_by less (sort_Slice less l)
}.

(** ** Package data: the types shared by the two revisions *)
Module Data.

Record LeaderBoardEntry := {
  UserID : gostring;
  Username : gostring;
  WPM : Z
}.

Record DBEntry := {
  DateID : gostring;
  UserStats : list LeaderBoardEntry
}.

Record LeaderBoardResponse := {
  resp_DateID : gostring;
  LeaderboardEntries : list LeaderBoardEntry
}.

(** The [less] closure handed to [sort.Slice] by [GetLeaderBoard]:
    [entries[i].WPM > entries[j].WPM]. *)
Definition byWPM (a b : LeaderBoardEntry) : bool := WPM b <? WPM a.

(** [for _, entry := range stats { if entry.UserID == userID ... } ]:
    does some entry carry [userID]. *)
Definition hasUser (userID : gostring) (stats : list LeaderBoardEntry) : bool :=
  existsb (fun entry => bool_decide (UserID entry = userID)) stats.

End Data.

(** ** encoding/json

    Both revisions keep their records as JSON text: [json.Marshal] on the
    way in, [json.Unmarshal] on the way out.  For the types of this
    program neither can fail, and what is read back is the value that was
    written except for its strings: the encoder writes every byte that is
    not well-formed UTF-8 as U+FFFD.  The functions below give the value
    that [json.Unmarshal] reads from what [json.Marshal] wrote. *)
Module Json.

Definition stored_string (s : gostring) : gostring := Utf8.coerce s.

Definition stored_entry (e : Data.LeaderBoardEntry) : Data.LeaderBoardEntry :=
  {| Data.UserID := stored_string (Data.UserID e);
     Data.Username := stored_string (Data.Username e);
     Data.WPM := Data.WPM e |}.

Definition stored_record (e : Data.DBEntry) : Data.DBEntry :=
  {| Data.DateID := stored_string (Data.DateID e);
     Data.UserStats := map stored_entry (Data.UserStats e) |}.

End Json.

(** ** Package data, Badger revision

    A Badger database is a map from keys to documents; [setValue] stores
    the JSON rendering of a Go value and [getValue] parses it back into the
    destination's type.  Two kinds of document are ever written: a JSON
    string (the sentence) and a JSON object (a [DBEntry]).  A document is
    modelled by the value it parses to, so [setValue] keeps what
    [json.Marshal] makes of the value ([marshal]) and [getValue] returns
    what is kept.  Failure of the storage medium itself is not modelled. *)
Module DataBadger.

Import Data.

Inductive json :=
| JString (s : gostring)
| JEntry (e : DBEntry).

Abbreviation db := (gmap gostring json).

Definition storePrefix : gostring := lit "store:".
Definition sentencePrefix : gostring := lit "sentence:".

(** The document [json.Marshal(value)] writes, as it parses. *)
Definition marshal (value : json) : json :=
  match value with
  | JString s => JString (Json.stored_string s)
  | JEntry e => JEntry (Json.stored_record e)
  end.

Definition setValue (d : db) (key : gostring) (value : json) : db :=
  <[key := marshal value]> d.

(** [getValue(key, &dest)] with [dest] a [DBEntry]. *)
Definition getValue_entry (d : db) (key : gostring) : result DBEntry :=
  match d !! key with
  | None => Err (Errorf "key not found")
  | Some (JEntry e) => Ok e
  | Some (JString _) => Err (Errorf "json: cannot unmarshal string")
  end.

(** [getValue(key, &dest)] with [dest] a [string]. *)
Definition getValue_string (d : db) (key : gostring) : result gostring :=
  match d !! key with
  | None => Err (Errorf "key not found")
  | Some (JString s) => Ok s
  | Some (JEntry _) => Err (Errorf "json: cannot unmarshal object")
  end.

Definition GetUserChallengeStatus (d : db) (dateId userID : gostring)
  : result bool :=
  let key := storePrefix ++ dateId in
  match getValue_entry d key with
  | Err _ => Ok false
  | Ok todayEntry => Ok (hasUser userID (UserStats todayEntry))
  end.

Definition GetLeaderBoard `{SortSlice} (d : db) (dateId : gostring)
  : result LeaderBoardResponse :=
  let key := storePrefix ++ dateId in
  match getValue_entry d key with
  | Err _ =>
    Ok {| resp_DateID := dateId; LeaderboardEntries := [] |}
  | Ok todayEntry =>
    let leaderBoardEntries := sort_Slice byWPM (UserStats todayEntry) in
    Ok {| resp_DateID := dateId; LeaderboardEntries := leaderBoardEntries |}
  end.

Definition GetTodaysSentence (d : db) (dateId : gostring) : result gostring :=
  let key := sentencePrefix ++ dateId in
  match getValue_string d key with
  | Err _ => Err (Errorf "no sentence for today")
  | Ok sentence => Ok sentence
  end.

Definition SubmitSentence (d : db) (dateId userID username : gostring)
           (wpm : Z) : db * option error :=
  let key := storePrefix ++ dateId in
  let todayEntry :=
    match getValue_entry d key with
    | Err _ => {| DateID := dateId; UserStats := [] |}
    | Ok e => e
    end in
  if hasUser userID (UserStats todayEntry)
  then (d, Some (Errorf "user has already submitted a score today"))
  else
    let todayEntry' :=
      {| DateID := DateID todayEntry;
         UserStats := UserStats todayEntry ++
           [{| UserID := userID; Username := username; WPM := wpm |}] |} in
    (setValue d key (JEntry todayEntry'), None).

Definition InsertSentence (d : db) (dateId sentence : gostring)
  : db * option error :=
  let sentenceKey := sentencePrefix ++ dateId in
  let storeKey := storePrefix ++ dateId in
  let d1 := setValue d sentenceKey (JString sentence) in
  match getValue_entry d1 storeKey with
  | Err _ =>
    let todayEntry := {| DateID := dateId; UserStats := [] |} in
    (setValue d1 storeKey (JEntry todayEntry), None)
  | Ok _ => (d1, None)
  end.

End DataBadger.

(** ** Package data, SQLite revision

    One table, [sentences (date_id TEXT PRIMARY KEY, sentence TEXT NOT NULL,
    value TEXT NOT NULL)]: a map from the date to the other two columns.
    [value] holds the JSON rendering of a [DBEntry]; the only statements
    that write it store a marshalled [DBEntry], so the column is modelled
    by the entry it parses to ([Json.stored_record] of the entry that was
    marshalled).  The [sentence] column holds the bytes of the sentence as
    they are.  Lines written to the standard output are returned; the log
    is not modelled. *)
Module DataSqlite.

Import Data.

Record row := {
  sentence : gostring;
  value : DBEntry
}.

Abbreviation db := (gmap gostring row).

Definition GetUserChallengeStatus (d : db) (dateId userID : gostring)
  : result bool :=
  match d !! dateId with
  | None => Err (Errorf "failed to get value")
  | Some r => Ok (hasUser userID (UserStats (value r)))
  end.

Definition GetLeaderBoard `{SortSlice} (d : db) (dateId : gostring)
  : result LeaderBoardResponse :=
  match d !! dateId with
  | None => Err (Errorf "failed to get value")
  | Some r =>
    let leaderBoardEntries := sort_Slice byWPM (UserStats (value r)) in
    Ok {| resp_DateID := dateId; LeaderboardEntries := leaderBoardEntries |}
  end.

Definition GetTodaysSentence (d : db) (dateId : gostring) : result gostring :=
  match d !! dateId with
  | None => Err (Errorf "failed to get sentence")
  | Some r => Ok (sentence r)
  end.

(** The lines [fmt.Printf] writes in the loop over the stored entries. *)
Definition alreadyExistsLines (userID : gostring)
           (stats : list LeaderBoardEntry) : list gostring :=
  flat_map (fun entry =>
              if bool_decide (UserID entry = userID)
              then [lit "User " ++ userID
                    ++ lit " already exists in the leaderboard"]
              else []) stats.

(** The transaction either commits the update or leaves the table as it
    was. *)
Definition SubmitSentence (d : db) (dateId userID username : gostring)
           (wpm : Z) : db * list gostring * option error :=
  match d !! dateId with
  | None => (d, [], Some (Errorf "failed to get value"))
  | Some r =>
    let unmarshalledValue := value r in
    let printed := alreadyExistsLines userID (UserStats unmarshalledValue) in
    let unmarshalledValue' :=
      {| DateID := DateID unmarshalledValue;
         UserStats := UserStats unmarshalledValue ++
           [{| UserID := userID; Username := username; WPM := wpm |}] |} in
    let marshalledValue := Json.stored_record unmarshalledValue' in
    (<[dateId := {| sentence := sentence r; value := marshalledValue |}]> d,
     printed, None)
  end.

(** [INSERT] into a table whose [date_id] is the primary key fails when
    the date has a row. *)
Definition InsertSentence (d : db) (dateId sentence' : gostring)
  : db * option error :=
  let emptyDBEntry := {| DateID := dateId; UserStats := [] |} in
  let jsonEntry := Json.stored_record emptyDBEntry in
  match d !! dateId with
  | Some _ => (d, Some (Errorf "failed to insert sentence"))
  | None =>
    (<[dateId := {| sentence := sentence'; value := jsonEntry |}]> d, None)
  end.

End DataSqlite.

(** ** Package main

    The program is a Bubble Tea model: [Update] takes the model and a
    message and returns the new model and a command; the runtime runs the
    command and feeds the message it produces back to [Update]. *)

(** The two revisions of the program. *)
Inductive revision := SQLite | Badger.

(** The text-input widget of the user-name prompt and [strings.TrimSpace]
    belong to libraries; the program uses them through this interface. *)
Class TextInput := {
  textinput_Model : Type;
  textinput_Value : textinput_Model -> gostring;
  textinput_Blur : textinput_Model -> textinput_Model;
  textinput_Update : textinput_Model -> gostring -> textinput_Model;
  strings_TrimSpace : gostring -> gostring
}.

(** What [Update] reads from outside the model while it handles one
    message: the clock ([clock1] is the first reading, [clock2] the second,
    in nanoseconds) and the text of the countdown to local midnight. *)
Record Env := {
  clock1 : Z;
  clock2 : Z;
  countdownText : gostring
}.

Module LB.

Record leaderboardEntry := {
  UserID : gostring;
  Username : gostring;
  WPM : Z
}.

End LB.

Section Main.

Context `{Unicode} `{TextInput} `{Platform}.

Abbreviation leaderboardEntry := LB.leaderboardEntry.

Inductive Msg :=
| WindowSizeMsg (Width Height : Z)
| randomSentenceReceivedMsg (sentence : gostring)
| sentenceSubmittedMsg (success : bool) (message : string)
| userDailyChallengeStatusReceivedMsg (userAlreadyDidDailyChallenge : bool)
| leaderboardReceivedMsg (DateID : gostring)
                         (LeaderboardEntries : list leaderboardEntry)
| leaderboardPollMsg
| tickMsg
| KeyMsg (String : gostring)
| otherMsg.

#[warnings="-register-all"]
Inductive Cmd :=
| nilCmd
| Quit
| tickCmd
| leaderboardPollCmd
| fetchTodaysLeaderBoardCmd
| submitSentenceCmd (userId username : gostring) (wpm : Z)
| Batch (cmds : list Cmd)
| textinputCmd.

(** The style fields of the model only colour the output and are left
    out.  [currentPage], [entriesPerPage] and [countdown] exist in the
    Badger revision only; the SQLite revision never reads them. *)
Record model := {
  hasUserAlreadyDoneDailyChallenge : bool;
  userSetUsername : bool;
  username : gostring;
  usernameInput : textinput_Model;
  dateID : gostring;
  LeaderboardEntries : list leaderboardEntry;
  currentPage : Z;
  entriesPerPage : Z;
  countdown : gostring;
  textToType : gostring;
  textUserTyped : gostring;
  WPM : Z;
  startTime : Z;
  didUserStartTyping : bool;
  width : Z;
  height : Z;
  userPublicKey : gostring
}.

Definition set_hasUserAlreadyDoneDailyChallenge (m : model) (v : bool) : model :=
  {| hasUserAlreadyDoneDailyChallenge := v;
     userSetUsername := userSetUsername m; username := username m;
     usernameInput := usernameInput m; dateID := dateID m;
     LeaderboardEntries := LeaderboardEntries m;
     currentPage := currentPage m; entriesPerPage := entriesPerPage m;
     countdown := countdown m; textToType := textToType m;
     textUserTyped := textUserTyped m; WPM := WPM m;
     startTime := startTime m; didUserStartTyping := didUserStartTyping m;
     width := width m; height := height m; userPublicKey := userPublicKey m |}.

Definition set_userSetUsername (m : model) (v : bool) : model :=
  {| hasUserAlreadyDoneDailyChallenge := hasUserAlreadyDoneDailyChallenge m;
     userSetUsername := v; username := username m;
     usernameInput := usernameInput m; dateID := dateID m;
     LeaderboardEntries := LeaderboardEntries m;
     currentPage := currentPage m; entriesPerPage := entriesPerPage m;
     countdown := countdown m; textToType := textToType m;
     textUserTyped := textUserTyped m; WPM := WPM m;
     startTime := startTime m; didUserStartTyping := didUserStartTyping m;
     width := width m; height := height m; userPublicKey := userPublicKey m |}.

Definition set_username (m : model) (v : gostring) : model :=
  {| hasUserAlreadyDoneDailyChallenge := hasUserAlreadyDoneDailyChallenge m;
     userSetUsername := userSetUsername m; username := v;
     usernameInput := usernameInput m; dateID := dateID m;
     LeaderboardEntries := LeaderboardEntries m;
     currentPage := currentPage m; entriesPerPage := entriesPerPage m;
     countdown := countdown m; textToType := textToType m;
     textUserTyped := textUserTyped m; WPM := WPM m;
     startTime := startTime m; didUserStartTyping := didUserStartTyping m;
     width := width m; height := height m; userPublicKey := userPublicKey m |}.

Definition set_usernameInput (m : model) (v : textinput_Model) : model :=
  {| hasUserAlreadyDoneDailyChallenge := hasUserAlreadyDoneDailyChallenge m;
     userSetUsername := userSetUsername m; username := username m;
     usernameInput := v; dateID := dateID m;
     LeaderboardEntries := LeaderboardEntries m;
     currentPage := currentPage m; entriesPerPage := entriesPerPage m;
     countdown := countdown m; textToType := textToType m;
     textUserTyped := textUserTyped m; WPM := WPM m;
     startTime := startTime m; didUserStartTyping := didUserStartTyping m;
     width := width m; height := height m; userPublicKey := userPublicKey m |}.

Definition set_dateID (m : model) (v : gostring) : model :=
  {| hasUserAlreadyDoneDailyChallenge := hasUserAlreadyDoneDailyChallenge m;
     userSetUsername := userSetUsername m; username := username m;
     usernameInput := usernameInput m; dateID := v;
     LeaderboardEntries := LeaderboardEntries m;
     currentPage := currentPage m; entriesPerPage := entriesPerPage m;
     countdown := countdown m; textToType := textToType m;
     textUserTyped := textUserTyped m; WPM := WPM m;
     startTime := startTime m; didUserStartTyping := didUserStartTyping m;
     width := width m; height := height m; userPublicKey := userPublicKey m |}.

Definition set_LeaderboardEntries (m : model) (v : list leaderboardEntry) : model :=
  {| hasUserAlreadyDoneDailyChallenge := hasUserAlreadyDoneDailyChallenge m;
     userSetUsername := userSetUsername m; username := username m;
     usernameInput := usernameInput m; dateID := dateID m;
     LeaderboardEntries := v; currentPage := currentPage m;
     entriesPerPage := entriesPerPage m; countdown := countdown m;
     textToType := textToType m; textUserTyped := textUserTyped m;
     WPM := WPM m; startTime := startTime m;
     didUserStartTyping := didUserStartTyping m; width := width m;
     height := height m; userPublicKey := userPublicKey m |}.

Definition set_currentPage (m : model) (v : Z) : model :=
  {| hasUserAlreadyDoneDailyChallenge := hasUserAlreadyDoneDailyChallenge m;
     userSetUsername := userSetUsername m; username := username m;
     usernameInput := usernameInput m; dateID := dateID m;
     LeaderboardEntries := LeaderboardEntries m; currentPage := v;
     entriesPerPage := entriesPerPage m; countdown := countdown m;
     textToType := textToType m; textUserTyped := textUserTyped m;
     WPM := WPM m; startTime := startTime m;
     didUserStartTyping := didUserStartTyping m; width := width m;
     height := height m; userPublicKey := userPublicKey m |}.

Definition set_countdown (m : model) (v : gostring) : model :=
  {| hasUserAlreadyDoneDailyChallenge := hasUserAlreadyDoneDailyChallenge m;
     userSetUsername := userSetUsername m; username := username m;
     usernameInput := usernameInput m; dateID := dateID m;
     LeaderboardEntries := LeaderboardEntries m;
     currentPage := currentPage m; entriesPerPage := entriesPerPage m;
     countdown := v; textToType := textToType m;
     textUserTyped := textUserTyped m; WPM := WPM m;
     startTime := startTime m; didUserStartTyping := didUserStartTyping m;
     width := width m; height := height m; userPublicKey := userPublicKey m |}.

Definition set_textToType (m : model) (v : gostring) : model :=
  {| hasUserAlreadyDoneDailyChallenge := hasUserAlreadyDoneDailyChallenge m;
     userSetUsername := userSetUsername m; username := username m;
     usernameInput := usernameInput m; dateID := dateID m;
     LeaderboardEntries := LeaderboardEntries m;
     currentPage := currentPage m; entriesPerPage := entriesPerPage m;
     countdown := countdown m; textToType := v;
     textUserTyped := textUserTyped m; WPM := WPM m;
     startTime := startTime m; didUserStartTyping := didUserStartTyping m;
     width := width m; height := height m; userPublicKey := userPublicKey m |}.

Definition set_textUserTyped (m : model) (v : gostring) : model :=
  {| hasUserAlreadyDoneDailyChallenge := hasUserAlreadyDoneDailyChallenge m;
     userSetUsername := userSetUsername m; username := username m;
     usernameInput := usernameInput m; dateID := dateID m;
     LeaderboardEntries := LeaderboardEntries m;
     currentPage := currentPage m; entriesPerPage := entriesPerPage m;
     countdown := countdown m; textToType := textToType m;
     textUserTyped := v; WPM := WPM m; startTime := startTime m;
     didUserStartTyping := didUserStartTyping m; width := width m;
     height := height m; userPublicKey := userPublicKey m |}.

Definition set_WPM (m : model) (v : Z) : model :=
  {| hasUserAlreadyDoneDailyChallenge := hasUserAlreadyDoneDailyChallenge m;
     userSetUsername := userSetUsername m; username := username m;
     usernameInput := usernameInput m; dateID := dateID m;
     LeaderboardEntries := LeaderboardEntries m;
     currentPage := currentPage m; entriesPerPage := entriesPerPage m;
     countdown := countdown m; textToType := textToType m;
     textUserTyped := textUserTyped m; WPM := v; startTime := startTime m;
     didUserStartTyping := didUserStartTyping m; width := width m;
     height := height m; userPublicKey := userPublicKey m |}.

Definition set_startTime (m : model) (v : Z) : model :=
  {| hasUserAlreadyDoneDailyChallenge := hasUserAlreadyDoneDailyChallenge m;
     userSetUsername := userSetUsername m; username := username m;
     usernameInput := usernameInput m; dateID := dateID m;
     LeaderboardEntries := LeaderboardEntries m;
     currentPage := currentPage m; entriesPerPage := entriesPerPage m;
     countdown := countdown m; textToType := textToType m;
     textUserTyped := textUserTyped m; WPM := WPM m; startTime := v;
     didUserStartTyping := didUserStartTyping m; width := width m;
     height := height m; userPublicKey := userPublicKey m |}.

Definition set_didUserStartTyping (m : model) (v : bool) : model :=
  {| hasUserAlreadyDoneDailyChallenge := hasUserAlreadyDoneDailyChallenge m;
     userSetUsername := userSetUsername m; username := username m;
     usernameInput := usernameInput m; dateID := dateID m;
     LeaderboardEntries := LeaderboardEntries m;
     currentPage := currentPage m; entriesPerPage := entriesPerPage m;
     countdown := countdown m; textToType := textToType m;
     textUserTyped := textUserTyped m; WPM := WPM m;
     startTime := startTime m; didUserStartTyping := v; width := width m;
     height := height m; userPublicKey := userPublicKey m |}.

Definition set_width (m : model) (v : Z) : model :=
  {| hasUserAlreadyDoneDailyChallenge := hasUserAlreadyDoneDailyChallenge m;
     userSetUsername := userSetUsername m; username := username m;
     usernameInput := usernameInput m; dateID := dateID m;
     LeaderboardEntries := LeaderboardEntries m;
     currentPage := currentPage m; entriesPerPage := entriesPerPage m;
     countdown := countdown m; textToType := textToType m;
     textUserTyped := textUserTyped m; WPM := WPM m;
     startTime := startTime m; didUserStartTyping := didUserStartTyping m;
     width := v; height := height m; userPublicKey := userPublicKey m |}.

Definition set_height (m : model) (v : Z) : model :=
  {| hasUserAlreadyDoneDailyChallenge := hasUserAlreadyDoneDailyChallenge m;
     userSetUsername := userSetUsername m; username := username m;
     usernameInput := usernameInput m; dateID := dateID m;
     LeaderboardEntries := LeaderboardEntries m;
     currentPage := currentPage m; entriesPerPage := entriesPerPage m;
     countdown := countdown m; textToType := textToType m;
     textUserTyped := textUserTyped m; WPM := WPM m;
     startTime := startTime m; didUserStartTyping := didUserStartTyping m;
     width := width m; height := v; userPublicKey := userPublicKey m |}.

(** [didUserFinishTyping]. *)
Definition didUserFinishTyping (m : model) : bool :=
  (len (textUserTyped m) =? len (Utf8.runes (textToType m)))
  && bool_decide (textUserTyped m = textToType m).

(** The loop of the tick handler,
    [for i, char := range typed { if i < len(target) && char == []rune(target)[i] { n++ } }]:
    [i] is the byte offset of the character in [typed] and indexes the
    runes of the target; [None] is the index-out-of-range panic. *)
Fixpoint countCorrect (target : gostring) (chars : list (Z * rune)) : option Z :=
  match chars with
  | [] => Some 0
  | (i, char) :: rest =>
    if i <? len target then
      match Utf8.runes target !! Z.to_nat i with
      | None => None
      | Some r =>
        match countCorrect target rest with
        | None => None
        | Some n => Some (if char =? r then n + 1 else n)
        end
      end
    else countCorrect target rest
  end.

Definition totalCorrectCharactersTyped (m : model) : option Z :=
  countCorrect (textToType m) (Utf8.range (textUserTyped m)).

(** [time.Since(m.startTime).Minutes()] at clock reading [now]. *)
Definition minutesSince (m : model) (now : Z) : Float64.float64 :=
  Duration.Minutes (now - startTime m).

(** [int(float64(n) / 5.0 / minutes)]. *)
Definition wpmOf (n : Z) (minutes : Float64.float64) : Z :=
  Float64Conv.to_int
    (Float64.div (Float64.div (Float64.of_int n) (Float64.of_int 5)) minutes).

(** [case tickMsg]. *)
Definition Update_tick (rev : revision) (env : Env) (m : model)
  : option (model * Cmd) :=
  let continue (m : model) :=
    if negb (hasUserAlreadyDoneDailyChallenge m)
    then Some (m, tickCmd) else Some (m, nilCmd) in
  if didUserStartTyping m then
    match totalCorrectCharactersTyped m with
    | None => None
    | Some n =>
      let m :=
        match rev with
        | SQLite => set_WPM m (wpmOf n (minutesSince m (clock1 env)))
        | Badger =>
          (* check for division by zero *)
          if Float64.gt_zero (minutesSince m (clock1 env))
          then set_WPM m (wpmOf n (minutesSince m (clock2 env)))
          else m
        end in
      if didUserFinishTyping m && negb (hasUserAlreadyDoneDailyChallenge m)
      then
        let m := set_hasUserAlreadyDoneDailyChallenge m true in
        Some (m, submitSentenceCmd (userPublicKey m) (username m) (WPM m))
      else continue m
    end
  else continue m.

(** The paging keys of the leaderboard screen (Badger revision): [Some]
    when the key is one of them and the handler returns at once.  A zero
    [entriesPerPage] makes the division panic. *)
Definition Update_page (m : model) (key : gostring)
  : option (option (model * Cmd)) :=
  if entriesPerPage m =? 0 then None
  else
    let totalPages :=
      Z.quot (len (LeaderboardEntries m) + entriesPerPage m - 1)
             (entriesPerPage m) in
    let totalPages := if totalPages =? 0 then 1 else totalPages in
    if bool_decide (key = lit "left") || bool_decide (key = lit "h") then
      Some (Some (if 0 <? currentPage m
                  then set_currentPage m (currentPage m - 1) else m, nilCmd))
    else if bool_decide (key = lit "right") || bool_decide (key = lit "l") then
      Some (Some (if currentPage m <? totalPages - 1
                  then set_currentPage m (currentPage m + 1) else m, nilCmd))
    else if bool_decide (key = lit "home") || bool_decide (key = lit "g") then
      Some (Some (set_currentPage m 0, nilCmd))
    else if bool_decide (key = lit "end") || bool_decide (key = lit "G") then
      Some (Some (set_currentPage m (totalPages - 1), nilCmd))
    else Some None.

(** The user-name check on "enter". *)
Definition validUsername (rev : revision) (username : gostring) : bool :=
  match rev with
  | SQLite => 6 <=? len username
  | Badger =>
    (6 <=? len username) && (len username <=? 20)
    && forallb (fun char => IsLetter char || IsNumber char
                            || (char =? 95) || (char =? 45))
               (Utf8.runes username)
  end.

(** The user-name prompt: the handler returns in either branch. *)
Definition Update_username (rev : revision) (m : model) (key : gostring)
  : model * Cmd :=
  if bool_decide (key = lit "enter") then
    let username' := strings_TrimSpace (textinput_Value (usernameInput m)) in
    if validUsername rev username' then
      let m := set_username m username' in
      let m := set_userSetUsername m true in
      (set_usernameInput m (textinput_Blur (usernameInput m)), nilCmd)
    else (m, nilCmd)
  else
    (set_usernameInput m (textinput_Update (usernameInput m) key), textinputCmd).

(** [s[:len(s)-1]]. *)
Definition dropLast (s : gostring) : gostring := take (length s - 1)%nat s.

(** The "backspace" key. *)
Definition Update_backspace (m : model) : model * Cmd :=
  let m := set_didUserStartTyping m true in
  if len (textUserTyped m) =? 0 then (m, nilCmd)
  else
    let m := set_textUserTyped m (dropLast (textUserTyped m)) in
    let m :=
      if (0 <? len (textUserTyped m))
         && bool_decide (last (textUserTyped m) = Some newline)
      then set_textUserTyped m (dropLast (textUserTyped m))
      else m in
    (m, nilCmd).

(** [unicode.IsLetter(r) || unicode.IsPunct(r) || unicode.IsSpace(r) || unicode.IsNumber(r)]. *)
Definition printable (r : rune) : bool :=
  IsLetter r || IsPunct r || IsSpace r || IsNumber r.

(** A key whose string is one byte long, [b].  [None] is the
    index-out-of-range panic of
    [[]rune(m.textToType)[len([]rune(m.textUserTyped))]]. *)
Definition Update_char (env : Env) (m : model) (b : ascii)
  : option (model * Cmd) :=
  let m := set_didUserStartTyping m true in
  let r := byteval b in
  if printable r then
    let m := if len (textUserTyped m) =? 0
             then set_startTime m (clock1 env) else m in
    if len (textUserTyped m) <? len (textToType m) then
      match Utf8.runes (textToType m)
            !! length (Utf8.runes (textUserTyped m)) with
      | None => None
      | Some nextChar =>
        if nextChar =? 10 then
          let m := set_textUserTyped m (textUserTyped m ++ [newline]) in
          if len (textUserTyped m) <? len (textToType m)
          then Some (set_textUserTyped m (textUserTyped m ++ [b]), nilCmd)
          else Some (m, nilCmd)
        else Some (set_textUserTyped m (textUserTyped m ++ [b]), nilCmd)
      end
    else Some (m, nilCmd)
  else Some (m, nilCmd).

(** [case tea.KeyMsg], after the paging keys. *)
Definition Update_key_rest (rev : revision) (env : Env) (m : model)
           (key : gostring) : option (model * Cmd) :=
  if negb (userSetUsername m) then Some (Update_username rev m key)
  else if bool_decide (key = lit "backspace") then Some (Update_backspace m)
  else
    match key with
    | [b] => Update_char env m b
    | _ => Some (m, nilCmd)
    end.

(** [case tea.KeyMsg]. *)
Definition Update_key (rev : revision) (env : Env) (m : model)
           (key : gostring) : option (model * Cmd) :=
  if bool_decide (key = lit "ctrl+c") then Some (m, Quit)
  else
    match rev with
    | SQLite => Update_key_rest rev env m key
    | Badger =>
      if hasUserAlreadyDoneDailyChallenge m then
        match Update_page m key with
        | None => None
        | Some (Some out) => Some out
        | Some None => Update_key_rest rev env m key
        end
      else Update_key_rest rev env m key
    end.

(** [func (m model) Update(msg tea.Msg) (tea.Model, tea.Cmd)].  [None]: the
    handler panics, and no model comes back (the SQLite revision lets the
    panic go, the Badger revision recovers it, logs it, and returns the nil
    model). *)
Definition Update (rev : revision) (env : Env) (m : model) (msg : Msg)
  : option (model * Cmd) :=
  match msg with
  | WindowSizeMsg w h => Some (set_height (set_width m w) h, nilCmd)
  | randomSentenceReceivedMsg sentence => Some (set_textToType m sentence, nilCmd)
  | sentenceSubmittedMsg success _ =>
    if success then Some (m, fetchTodaysLeaderBoardCmd) else Some (m, nilCmd)
  | userDailyChallengeStatusReceivedMsg b =>
    Some (set_hasUserAlreadyDoneDailyChallenge m b, fetchTodaysLeaderBoardCmd)
  | leaderboardReceivedMsg d entries =>
    let m := set_LeaderboardEntries (set_dateID m d) entries in
    if hasUserAlreadyDoneDailyChallenge m
    then Some (m, leaderboardPollCmd) else Some (m, nilCmd)
  | leaderboardPollMsg =>
    match rev with
    | SQLite =>
      if hasUserAlreadyDoneDailyChallenge m
      then Some (m, Batch [fetchTodaysLeaderBoardCmd; leaderboardPollCmd])
      else Some (m, nilCmd)
    | Badger =>
      let m := set_countdown m (countdownText env) in
      if hasUserAlreadyDoneDailyChallenge m
      then Some (m, fetchTodaysLeaderBoardCmd) else Some (m, nilCmd)
    end
  | tickMsg => Update_tick rev env m
  | KeyMsg key => Update_key rev env m key
  | otherMsg => Some (m, nilCmd)
  end.

(** The model after a sequence of messages, each with what the handler
    reads from outside while handling it; [None] once a handler panicked. *)
Fixpoint run (rev : revision) (m : model) (events : list (Env * Msg))
  : option model :=
  match events with
  | [] => Some m
  | (env, msg) :: rest =>
    match Update rev env m msg with
    | None => None
    | Some (m', _) => run rev m' rest
    end
  end.

(** [NewModelWithStyles], with the clock reading [now]. *)
Definition NewModelWithStyles (input : textinput_Model) (now : Z)
           (userPublicKey' : gostring) : model :=
  {| hasUserAlreadyDoneDailyChallenge := false;
     userSetUsername := false;
     username := [];
     usernameInput := input;
     dateID := [];
     LeaderboardEntries := [];
     currentPage := 0;
     entriesPerPage := 10;
     countdown := lit "00:00:00";
     textToType := lit "Loading sentence...";
     textUserTyped := [];
     WPM := 0;
     startTime := now;
     didUserStartTyping := false;
     width := 0;
     height := 0;
     userPublicKey := userPublicKey' |}.

End Main.

Arguments dropLast : simpl never.

(** ** The commands of package main

    A command runs against the store of its revision and answers with a
    message. *)
Section Commands.

Context `{SortSlice}.

Definition store (rev : revision) : Type :=
  match rev with
  | SQLite => DataSqlite.db
  | Badger => DataBadger.db
  end.

Definition data_GetUserChallengeStatus (rev : revision)
  : store rev -> gostring -> gostring -> result bool :=
  match rev with
  | SQLite => DataSqlite.GetUserChallengeStatus
  | Badger => DataBadger.GetUserChallengeStatus
  end.

Definition data_GetLeaderBoard (rev : revision)
  : store rev -> gostring -> result Data.LeaderBoardResponse :=
  match rev with
  | SQLite => DataSqlite.GetLeaderBoard
  | Badger => DataBadger.GetLeaderBoard
  end.

(** [fetchUserDailyChallengeStatusCmd]. *)
Definition fetchUserDailyChallengeStatus (rev : revision) (d : store rev)
           (dateId userId : gostring) : Msg :=
  match data_GetUserChallengeStatus rev d dateId userId with
  | Err _ => userDailyChallengeStatusReceivedMsg false
  | Ok userAlreadyDidDailyChallenge =>
    userDailyChallengeStatusReceivedMsg userAlreadyDidDailyChallenge
  end.

(** [fetchTodaysLeaderBoardCmd]. *)
Definition fetchTodaysLeaderBoard (rev : revision) (d : store rev)
           (dateId : gostring) : Msg :=
  match data_GetLeaderBoard rev d dateId with
  | Err _ => leaderboardReceivedMsg [] []
  | Ok leaderboard =>
    let entries :=
      map (fun entry =>
             {| LB.UserID := Data.UserID entry;
                LB.Username := Data.Username entry;
                LB.WPM := Data.WPM entry |})
          (Data.LeaderboardEntries leaderboard) in
    leaderboardReceivedMsg (Data.resp_DateID leaderboard) entries
  end.

End Commands.

(** ** The typing display

    [renderTypingTest] writes one piece per rune of the target: a bare line
    break, or the rune in one of four styles. *)
Inductive style := Correct | Incorrect | Current | Untyped.

Inductive piece :=
| LineBreak
| Styled (s : style) (char : rune).

(** The loop of [renderTypingTest] from position [i] on, over the rest of
    the target, with the two flags it carries. *)
Fixpoint renderFrom (typed : list rune) (i : nat)
         (foundError highlightNextAsCurrent : bool) (rest : list rune)
  : list piece :=
  let typedLength := length typed in
  match rest with
  | [] => []
  | char :: rest' =>
    if char =? 10 then
      LineBreak ::
        renderFrom typed (S i) foundError
          (if Nat.eqb i typedLength then true else highlightNextAsCurrent)
          rest'
    else if highlightNextAsCurrent then
      Styled Current char :: renderFrom typed (S i) foundError false rest'
    else if Nat.ltb i typedLength then
      let typedChar := nth i typed 0 in
      if foundError then
        Styled Incorrect char :: renderFrom typed (S i) foundError false rest'
      else if negb (typedChar =? char) then
        Styled Incorrect char :: renderFrom typed (S i) true false rest'
      else
        Styled Correct typedChar :: renderFrom typed (S i) foundError false rest'
    else if Nat.eqb i typedLength then
      Styled Current char :: renderFrom typed (S i) foundError false rest'
    else
      Styled Untyped char :: renderFrom typed (S i) foundError false rest'
  end.

(** The text part of [renderTypingTest], before the layout. *)
Definition renderTypingTest (textToType textUserTyped : gostring)
  : list piece :=
  renderFrom (Utf8.runes textUserTyped) 0 false false (Utf8.runes textToType).

(** The style of every target position, [None] for a bare line break. *)
Definition classification (textToType textUserTyped : gostring)
  : list (option style) :=
  map (fun p => match p with LineBreak => None | Styled s _ => Some s end)
      (renderTypingTest textToType textUserTyped).

(** ** A sorting routine that keeps the promise of [sort.Slice] *)
Module Sorters.

Section Insertion.

Context {A : Type} (less : A -> A -> bool).

(** [x] goes in front of the first element it is less than. *)
Fixpoint insert_after (x : A) (l : list A) : list A :=
  match l with
  | [] => [x]
  | y :: l' => if less x y then x :: y :: l' else y :: insert_after x l'
  end.

Definition insertion_sort (l : list A) : list A :=
  fold_left (fun acc x => insert_after x acc) l [].

End Insertion.

(** No element is less than an earlier one, as a test. *)
Fixpoint orderedb {A} (less : A -> A -> bool) (l : list A) : bool :=
  match l with
  | [] => true
  | x :: l' => forallb (fun y => negb (less y x)) l' && orderedb less l'
  end.

End Sorters.

(** ** Package sort: what [sort.Slice] runs

    [sort.Slice(x, less)] calls [pdqsort_func] on the whole slice, with
    [less] and the swap of two elements (the library since Go 1.19).  The functions below follow the
    library's [zsortfunc.go] for the part of the routine that slices
    shorter than 50 elements go through as long as every partition is
    balanced: insertion sort (all there is up to 12 elements), the choice
    of the pivot by the median of three, the test for a slice that is in
    order already, and the two partition routines.  Beyond that the
    library draws on a pseudo-random generator to break patterns, falls
    back to heap sort, and for 50 elements and more chooses the pivot by
    Tukey's ninther and shifts elements in the test for order; there the
    model answers [None].  Loops take fuel, enough for every slice. *)
Module GoSort.

Inductive sortedHint := unknownHint | increasingHint | decreasingHint.

Section Slice.

Context {A : Type} (less : A -> A -> bool).

(** [data.Less(i, j)] and [data.Swap(i, j)]: [less] reads the slice that
    is being sorted.  The routine passes indices inside the slice only. *)
Definition Less (data : list A) (i j : nat) : bool :=
  match data !! i, data !! j with
  | Some x, Some y => less x y
  | _, _ => false
  end.

Definition Swap (data : list A) (i j : nat) : list A :=
  match data !! i, data !! j with
  | Some x, Some y => <[j := x]> (<[i := y]> data)
  | _, _ => data
  end.

(** [for j := i; j > a && data.Less(j, j-1); j-- { data.Swap(j, j-1) }]. *)
Fixpoint insertDown (fuel : nat) (data : list A) (a j : nat) : list A :=
  match fuel with
  | O => data
  | S fuel' =>
    if Nat.ltb a j && Less data j (j - 1)
    then insertDown fuel' (Swap data j (j - 1)) a (j - 1)
    else data
  end.

(** [for i := a + 1; i < b; i++ { ... }]. *)
Fixpoint insertionSort_from (fuel : nat) (data : list A) (a b i : nat)
  : list A :=
  match fuel with
  | O => data
  | S fuel' =>
    if Nat.ltb i b
    then insertionSort_from fuel' (insertDown i data a i) a b (S i)
    else data
  end.

(** [insertionSort_func(data, a, b)]. *)
Definition insertionSort_func (data : list A) (a b : nat) : list A :=
  insertionSort_from (b - a) data a b (a + 1).

(** [order2_func]: the two indices in order, and the count of swaps. *)
Definition order2_func (data : list A) (a b swaps : nat) : nat * nat * nat :=
  if Less data b a then (b, a, S swaps) else (a, b, swaps).

(** [median_func]. *)
Definition median_func (data : list A) (a b c swaps : nat) : nat * nat :=
  let '(a, b, swaps) := order2_func data a b swaps in
  let '(b, c, swaps) := order2_func data b c swaps in
  let '(a, b, swaps) := order2_func data a b swaps in
  (b, swaps).

(** [choosePivot_func] on fewer than [shortestNinther = 50] elements. *)
Definition choosePivot_func (data : list A) (a b : nat) : nat * sortedHint :=
  let l := (b - a)%nat in
  let i := (a + l / 4 * 1)%nat in
  let j := (a + l / 4 * 2)%nat in
  let k := (a + l / 4 * 3)%nat in
  let '(j, swaps) :=
    if Nat.leb 8 l then median_func data i j k 0 else (j, O) in
  match swaps with
  | 0%nat => (j, increasingHint)
  | 12%nat => (j, decreasingHint)
  | _ => (j, unknownHint)
  end.

(** [reverseRange_func]: [for i < j { data.Swap(i, j); i++; j-- }]. *)
Fixpoint reverseRange_from (fuel : nat) (data : list A) (i j : nat) : list A :=
  match fuel with
  | O => data
  | S fuel' =>
    if Nat.ltb i j then reverseRange_from fuel' (Swap data i j) (S i) (j - 1)
    else data
  end.

Definition reverseRange_func (data : list A) (a b : nat) : list A :=
  reverseRange_from (b - a) data a (b - 1).

(** [for i < b && !data.Less(i, i-1) { i++ }]. *)
Fixpoint inOrderUpTo (fuel : nat) (data : list A) (b i : nat) : nat :=
  match fuel with
  | O => i
  | S fuel' =>
    if Nat.ltb i b && negb (Less data i (i - 1))
    then inOrderUpTo fuel' data b (S i)
    else i
  end.

(** [partialInsertionSort_func] on fewer than [shortestShifting = 50]
    elements: nothing moves, and the answer is whether the slice is in
    order. *)
Definition partialInsertionSort_func (data : list A) (a b : nat) : bool :=
  let i := inOrderUpTo (b - a) data b (a + 1) in
  Nat.eqb i b.

(** [for i <= j && data.Less(i, a) { i++ }]. *)
Fixpoint upWhileLess (fuel : nat) (data : list A) (a i j : nat) : nat :=
  match fuel with
  | O => i
  | S fuel' =>
    if Nat.leb i j && Less data i a then upWhileLess fuel' data a (S i) j
    else i
  end.

(** [for i <= j && !data.Less(j, a) { j-- }]. *)
Fixpoint downWhileNotLess (fuel : nat) (data : list A) (a i j : nat) : nat :=
  match fuel with
  | O => j
  | S fuel' =>
    if Nat.leb i j && negb (Less data j a)
    then downWhileNotLess fuel' data a i (j - 1)
    else j
  end.

(** [for i <= j && data.Less(a, j) { j-- }]. *)
Fixpoint downWhileGreater (fuel : nat) (data : list A) (a i j : nat) : nat :=
  match fuel with
  | O => j
  | S fuel' =>
    if Nat.leb i j && Less data a j
    then downWhileGreater fuel' data a i (j - 1)
    else j
  end.

(** The loop of [partition_func] after the first swap. *)
Fixpoint partition_loop (fuel : nat) (data : list A) (a i j : nat)
  : list A * nat :=
  match fuel with
  | O => (data, j)
  | S fuel' =>
    let i := upWhileLess (S j) data a i j in
    let j := downWhileNotLess (S j) data a i j in
    if Nat.ltb j i then (Swap data j a, j)
    else partition_loop fuel' (Swap data i j) a (S i) (j - 1)
  end.

(** [partition_func]: the slice, the place of the pivot, and whether the
    slice was partitioned already. *)
Definition partition_func (data : list A) (a b pivot : nat)
  : list A * nat * bool :=
  let data := Swap data a pivot in
  let i := (a + 1)%nat in
  let j := (b - 1)%nat in
  let i := upWhileLess (S j) data a i j in
  let j := downWhileGreater (S j) data a i j in
  if Nat.ltb j i then (Swap data j a, j, true)
  else
    let data := Swap data i j in
    let '(data, mid) := partition_loop (b - a) data a (S i) (j - 1) in
    (data, mid, false).

(** [for i <= j && !data.Less(a, i) { i++ }]. *)
Fixpoint upWhileNotGreater (fuel : nat) (data : list A) (a i j : nat) : nat :=
  match fuel with
  | O => i
  | S fuel' =>
    if Nat.leb i j && negb (Less data a i)
    then upWhileNotGreater fuel' data a (S i) j
    else i
  end.

Fixpoint partitionEqual_loop (fuel : nat) (data : list A) (a i j : nat)
  : list A * nat :=
  match fuel with
  | O => (data, i)
  | S fuel' =>
    let i := upWhileNotGreater (S j) data a i j in
    let j := downWhileGreater (S j) data a i j in
    if Nat.ltb j i then (data, i)
    else partitionEqual_loop fuel' (Swap data i j) a (S i) (j - 1)
  end.

(** [partitionEqual_func]. *)
Definition partitionEqual_func (data : list A) (a b pivot : nat)
  : list A * nat :=
  let data := Swap data a pivot in
  partitionEqual_loop (S (b - a)) data a (a + 1) (b - 1).

(** [pdqsort_func(data, a, b, limit)], with the two flags of its loop.
    [limit] changes only where patterns are broken, so it stays above zero
    here and is left out. *)
Fixpoint pdqsort_func (fuel : nat) (data : list A) (a b : nat)
         (wasBalanced wasPartitioned : bool) : option (list A) :=
  match fuel with
  | O => None
  | S fuel' =>
    let length := (b - a)%nat in
    if Nat.leb length 12 then Some (insertionSort_func data a b)
    else if negb wasBalanced then None
    else if Nat.leb 50 length then None
    else
      let '(pivot, hint) := choosePivot_func data a b in
      let '(data, pivot, hint) :=
        match hint with
        | decreasingHint =>
          (reverseRange_func data a b, ((b - 1) - (pivot - a))%nat,
           increasingHint)
        | _ => (data, pivot, hint)
        end in
      if wasBalanced && wasPartitioned
         && match hint with increasingHint => true | _ => false end
         && partialInsertionSort_func data a b
      then Some data
      else if Nat.ltb 0 a && negb (Less data (a - 1) pivot) then
        let '(data, mid) := partitionEqual_func data a b pivot in
        pdqsort_func fuel' data mid b wasBalanced wasPartitioned
      else
        let '(data, mid, alreadyPartitioned) :=
          partition_func data a b pivot in
        let leftLen := (mid - a)%nat in
        let rightLen := (b - mid)%nat in
        let balanceThreshold := (length / 8)%nat in
        if Nat.ltb leftLen rightLen then
          match pdqsort_func fuel' data a mid true true with
          | None => None
          | Some data =>
            pdqsort_func fuel' data (mid + 1) b
                         (Nat.leb balanceThreshold leftLen) alreadyPartitioned
          end
        else
          match pdqsort_func fuel' data (mid + 1) b true true with
          | None => None
          | Some data =>
            pdqsort_func fuel' data a mid
                         (Nat.leb balanceThreshold rightLen) alreadyPartitioned
          end
  end.

(** [sort.Slice(x, less)]. *)
Definition Slice (x : list A) : option (list A) :=
  pdqsort_func (S (length x)) x 0 (length x) true true.

End Slice.

End GoSort.

(** ** Concrete libraries and platform for the examples *)

(** A text input that holds what was typed, one byte per key. *)
#[export] Instance plainInput : TextInput := {|
  textinput_Model := gostring;
  textinput_Value := fun v => v;
  textinput_Blur := fun v => v;
  textinput_Update := fun v key => match key with [b] => v ++ [b] | _ => v end;
  strings_TrimSpace := fun s => s
|}.

#[export] Existing Instance amd64.

(** ** More of package data and of the commands *)

Definition data_GetTodaysSentence (rev : revision)
  : store rev -> gostring -> result gostring :=
  match rev with
  | SQLite => DataSqlite.GetTodaysSentence
  | Badger => DataBadger.GetTodaysSentence
  end.

Definition data_SubmitSentence (rev : revision)
  : store rev -> gostring -> gostring -> gostring -> Z
    -> store rev * option error :=
  match rev with
  | SQLite => fun d dateId userID username wpm =>
      let '(d', _, err) :=
        DataSqlite.SubmitSentence d dateId userID username wpm in
      (d', err)
  | Badger => DataBadger.SubmitSentence
  end.

Definition data_InsertSentence (rev : revision)
  : store rev -> gostring -> gostring -> store rev * option error :=
  match rev with
  | SQLite => DataSqlite.InsertSentence
  | Badger => DataBadger.InsertSentence
  end.

(** [InitInMemoryStore], once the database is open.  [GetLongSentence]
    asks a quote service over the network; [longSentence] is what it
    answers when it is called. *)
Definition InitInMemoryStore (d : DataBadger.db) (dateId : gostring)
           (longSentence : result gostring) : DataBadger.db :=
  match DataBadger.GetTodaysSentence d dateId with
  | Ok _ => d
  | Err _ =>
    match longSentence with
    | Err _ => d
    | Ok sentence => (DataBadger.InsertSentence d dateId sentence).1
    end
  end.

(** The job [initCronScheduler] registers for midnight (and the body of
    the command-line program that publishes a sentence by hand). *)
Definition dailyJob (rev : revision) (d : store rev) (dateId : gostring)
           (longSentence : result gostring) : store rev :=
  match longSentence with
  | Err _ => d
  | Ok sentence => (data_InsertSentence rev d dateId sentence).1
  end.

(** [getRandomSentenceCmd]. *)
Definition getRandomSentence (rev : revision) (d : store rev)
           (dateId : gostring) : Msg :=
  match data_GetTodaysSentence rev d dateId with
  | Err _ => randomSentenceReceivedMsg []
  | Ok sentence => randomSentenceReceivedMsg sentence
  end.

(** [submitSentenceCmd]. *)
Definition submitSentence (rev : revision) (d : store rev)
           (dateId userId username : gostring) (wpm : Z)
  : store rev * Msg :=
  match data_SubmitSentence rev d dateId userId username wpm with
  | (d', Some (Errorf message)) => (d', sentenceSubmittedMsg false message)
  | (d', None) =>
    (d', sentenceSubmittedMsg true "Sentence submitted successfully")
  end.

(** ** More of package main: the screens *)

(** What [View] shows. *)
Inductive screen := leaderboardScreen | typingTestScreen | usernamePromptScreen.

(** The mark in front of a leaderboard row. *)
Inductive rankPrefix := gold | silver | bronze | numbered (n : Z).

(** [switch actualIndex]. *)
Definition prefixOf (actualIndex : Z) : rankPrefix :=
  if actualIndex =? 0 then gold
  else if actualIndex =? 1 then silver
  else if actualIndex =? 2 then bronze
  else numbered (actualIndex + 1).

(** [l[lo:hi]]; [None] is the slice-bounds panic. *)
Definition slice {A} (l : list A) (lo hi : Z) : option (list A) :=
  if (0 <=? lo) && (lo <=? hi) && (hi <=? len l)
  then Some (take (Z.to_nat (hi - lo)) (drop (Z.to_nat lo) l))
  else None.

Section Screens.

Context `{TextInput}.

(** [func (m model) View() string]: which of the three renderers runs. *)
Definition View (m : model) : screen :=
  if hasUserAlreadyDoneDailyChallenge m then leaderboardScreen
  else if userSetUsername m then typingTestScreen
  else usernamePromptScreen.

(** [NewModel], the constructor without styles, with the clock reading
    [now]: the paging fields keep the zero value. *)
Definition NewModel (input : textinput_Model) (now : Z) : model :=
  {| hasUserAlreadyDoneDailyChallenge := false;
     userSetUsername := false;
     username := [];
     usernameInput := input;
     dateID := [];
     LeaderboardEntries := [];
     currentPage := 0;
     entriesPerPage := 0;
     countdown := [];
     textToType := lit "Loading sentence...";
     textUserTyped := [];
     WPM := 0;
     startTime := now;
     didUserStartTyping := false;
     width := 0;
     height := 0;
     userPublicKey := [] |}.

(** [(len(m.LeaderboardEntries) + m.entriesPerPage - 1) / m.entriesPerPage],
    made 1 when it is 0; [None] is the division by zero. *)
Definition totalPagesOf (m : model) : option Z :=
  if entriesPerPage m =? 0 then None
  else
    let totalPages :=
      Z.quot (len (LeaderboardEntries m) + entriesPerPage m - 1)
             (entriesPerPage m) in
    Some (if totalPages =? 0 then 1 else totalPages).

(** The first and last index (exclusive) of the page [renderLeaderboard]
    shows in the Badger revision, for a leaderboard that is not empty. *)
Definition pageWindow (m : model) (totalPages : Z) : Z * Z :=
  let currentPage' :=
    if totalPages <=? currentPage m then totalPages - 1 else currentPage m in
  let currentPage' := if currentPage' <? 0 then 0 else currentPage' in
  let startIdx := currentPage' * entriesPerPage m in
  let endIdx := startIdx + entriesPerPage m in
  let endIdx :=
    if len (LeaderboardEntries m) <? endIdx
    then len (LeaderboardEntries m) else endIdx in
  (startIdx, endIdx).

(** The rows [renderLeaderboard] writes: the mark and the entry of each.
    The SQLite revision writes every entry; the Badger revision writes one
    page, and computes the number of pages once more for the footer.
    [None] is a panic. *)
Definition renderLeaderboard (rev : revision) (m : model)
  : option (list (rankPrefix * LB.leaderboardEntry)) :=
  match rev with
  | SQLite =>
    Some (imap (fun i entry => (prefixOf (Z.of_nat i), entry))
               (LeaderboardEntries m))
  | Badger =>
    let rows :=
      if len (LeaderboardEntries m) =? 0 then Some []
      else
        match totalPagesOf m with
        | None => None
        | Some totalPages =>
          let '(startIdx, endIdx) := pageWindow m totalPages in
          match slice (LeaderboardEntries m) startIdx endIdx with
          | None => None
          | Some page =>
            Some (imap (fun i entry =>
                          (prefixOf (startIdx + Z.of_nat i), entry)) page)
          end
        end in
    match totalPagesOf m with
    | None => None
    | Some _ => rows
    end
  end.

End Screens.

(** ** The countdown text *)

Module Clock.

Definition Second : Z := 1000000000.
Definition Hour : Z := 3600 * Second.

(** [func (d Duration) Round(m Duration) Duration], away from the ends of
    the [int64] range: the nearest multiple of [m], halves away from
    zero. *)
Definition Round (d m : Z) : Z :=
  if m <=? 0 then d
  else
    let r := Z.rem d m in
    if d <? 0 then
      let r := - r in
      if r + r <? m then d + r else d - m + r
    else
      if r + r <? m then d - r else d + m - r.

Definition digit (n : Z) : ascii := ascii_of_N (Z.to_N (48 + n)).

(** The decimal digits of a number that is not negative. *)
Fixpoint decimal_digits (fuel : nat) (n : Z) : gostring :=
  match fuel with
  | O => []
  | S fuel' =>
    if n <? 10 then [digit n]
    else decimal_digits fuel' (n / 10) ++ [digit (n mod 10)]
  end.

Definition decimal (n : Z) : gostring := decimal_digits (S (Z.to_nat n)) n.

(** [fmt.Sprintf("%02d", n)]. *)
Definition Sprintf_02d (n : Z) : gostring :=
  if n <? 0 then lit "-" ++ decimal (- n)
  else if n <? 10 then lit "0" ++ decimal n
  else decimal n.

(** [formatDuration]. *)
Definition formatDuration (d : Z) : gostring :=
  let d := Round d Second in
  let h := Z.quot d Hour in
  let d := d - h * Hour in
  let m := Z.quot d Duration.Minute in
  let d := d - m * Duration.Minute in
  let s := Z.quot d Second in
  Sprintf_02d h ++ lit ":" ++ Sprintf_02d m ++ lit ":" ++ Sprintf_02d s.

End Clock.

(** * The vocabulary of the properties *)

(** Every byte of [s] is below 0x80. *)
Definition all_ascii (s : gostring) : Prop := Forall (fun b => is_ascii b = true) s.

(** Some byte of [s] is 0x80 or above: [s] holds a character that takes
    more than one byte (or a stray byte of one). *)
Definition has_multibyte (s : gostring) : Prop :=
  Exists (fun b => is_ascii b = false) s.

Section Vocabulary.

Context `{Unicode} `{TextInput} `{Platform}.

(** What a key may do to the model, by the branch that handles it. *)
Inductive key_branch (rev : revision) (env : Env) (m : model)
          (key : gostring) (m' : model) (c : Cmd) : Prop :=
| kb_quit : key = lit "ctrl+c" -> m' = m -> c = Quit -> key_branch rev env m key m' c
| kb_page p : rev = Badger -> hasUserAlreadyDoneDailyChallenge m = true ->
    m' = set_currentPage m p \/ m' = m -> key_branch rev env m key m' c
| kb_username : userSetUsername m = false ->
    (m', c) = Update_username rev m key -> key_branch rev env m key m' c
| kb_backspace : userSetUsername m = true -> key = lit "backspace" ->
    (m', c) = Update_backspace m -> key_branch rev env m key m' c
| kb_char b : userSetUsername m = true -> key = [b] ->
    Update_char env m b = Some (m', c) -> key_branch rev env m key m' c
| kb_other : userSetUsername m = true -> key <> lit "backspace" ->
    length key <> 1%nat -> m' = m -> c = nilCmd -> key_branch rev env m key m' c.

(** The fields the typing test lives in. *)
Definition typing_fields (m : model) : gostring * gostring * Z * Z :=
  (textToType m, textUserTyped m, startTime m, WPM m).

(** What "backspace" does to the typed text. *)
Definition backspaced (typed : gostring) : gostring :=
  match typed with
  | [] => []
  | _ =>
    let t := dropLast typed in
    if bool_decide (last t = Some newline) then dropLast t else t
  end.

(** What one message may do to the typed text. *)
Inductive typed_change (msg : Msg) (m m' : model) : Prop :=
| tc_same : textUserTyped m' = textUserTyped m -> typed_change msg m m'
| tc_backspace :
    msg = KeyMsg (lit "backspace") ->
    textUserTyped m' = backspaced (textUserTyped m) ->
    typed_change msg m m'
| tc_char b :
    msg = KeyMsg [b] ->
    printable (byteval b) = true ->
    len (textUserTyped m') <= len (textToType m) ->
    textUserTyped m' = textUserTyped m ++ [b]
    \/ textUserTyped m' = textUserTyped m ++ [newline]
    \/ textUserTyped m' = textUserTyped m ++ [newline] ++ [b] ->
    typed_change msg m m'.

(** The key strings Bubble Tea hands over are strings of runes or key
    names: well-formed UTF-8. *)
Definition valid_event (e : Env * Msg) : Prop :=
  match e.2 with
  | KeyMsg key => Utf8.valid key = true
  | _ => True
  end.

(** Messages that neither take text back nor replace the target. *)
Definition keeps_text (e : Env * Msg) : Prop :=
  match e.2 with
  | KeyMsg key => key <> lit "backspace"
  | randomSentenceReceivedMsg _ => False
  | _ => True
  end.

(** The message is a key. *)
Definition is_key_event (e : Env * Msg) : Prop :=
  exists key, e.2 = KeyMsg key.

End Vocabulary.

(** The sentence as the store of the revision gives it back: the SQLite
    column keeps the bytes, the Badger document is JSON. *)
Definition asStored (rev : revision) (sentence : gostring) : gostring :=
  match rev with
  | SQLite => sentence
  | Badger => Json.stored_string sentence
  end.

(** The user IDs of the entries are well-formed UTF-8, as they are in
    every record that was read from JSON. *)
Definition wellformed_ids (stats : list Data.LeaderBoardEntry) : Prop :=
  Forall (fun e => Utf8.valid (Data.UserID e) = true) stats.

(** The entries recorded for a date, in the order of submission. *)
Definition recorded (rev : revision) : store rev -> gostring -> option (list Data.LeaderBoardEntry) :=
  match rev with
  | SQLite => fun d dateId =>
      match d !! dateId with
      | Some r => Some (Data.UserStats (DataSqlite.value r))
      | None => None
      end
  | Badger => fun d dateId =>
      match DataBadger.getValue_entry d (DataBadger.storePrefix ++ dateId) with
      | Ok e => Some (Data.UserStats e)
      | Err _ => None
      end
  end.

(** The submissions of a day to the Badger store, one after the other. *)
Fixpoint submitAll (d : DataBadger.db) (dateId : gostring)
         (submissions : list (gostring * gostring * Z)) : DataBadger.db :=
  match submissions with
  | [] => d
  | (userID, username, wpm) :: rest =>
    submitAll (DataBadger.SubmitSentence d dateId userID username wpm).1
              dateId rest
  end.

(** Entries with the same score come in the order they have in [stats]. *)
Definition keeps_tie_order (stats out : list Data.LeaderBoardEntry) : Prop :=
  forall wpm,
    List.filter (fun e => Data.WPM e =? wpm) out
    = List.filter (fun e => Data.WPM e =? wpm) stats.

(** The typed rune at position [k] is not the target's. *)
Definition mismatch (target typed : list rune) (k : nat) : bool :=
  negb (nth k typed 0 =? nth k target 0).

(** Some position before [n] is a mismatch. *)
Definition errorBefore (target typed : list rune) (n : nat) : bool :=
  existsb (mismatch target typed) (seq 0 n).

(** The rule of the spec, for one position of the target: a typed
    position is [Incorrect] from the first position on where the typed
    rune differs from the target's, and [Correct] before it; the position
    after the typed text is [Current]; the rest is [Untyped]. *)
Definition styleBySpec (target typed : list rune) (i : nat) : style :=
  if Nat.ltb i (length typed) then
    if errorBefore target typed (S i) then Incorrect else Correct
  else if Nat.eqb i (length typed) then Current
  else Untyped.

(** The rule of the code, for every target.  A position that holds a line
    break has no style, and what was typed there is not compared. *)
Definition lineBreakAt (target : list rune) (k : nat) : bool :=
  nth k target 0 =? 10.

(** A mismatch the loop sees: at a position that is no line break. *)
Definition mismatchShown (target typed : list rune) (k : nat) : bool :=
  negb (lineBreakAt target k) && mismatch target typed k.

Definition errorShownBefore (target typed : list rune) (n : nat) : bool :=
  existsb (mismatchShown target typed) (seq 0 n).

(** Position [i] is at or after the end of the typed text, with nothing but
    line breaks between that end and [i]. *)
Definition cursorAt (target : list rune) (typedLength i : nat) : bool :=
  Nat.leb typedLength i
  && forallb (lineBreakAt target) (seq typedLength (i - typedLength)).

Definition styleByCode (target typed : list rune) (i : nat) : option style :=
  if lineBreakAt target i then None
  else if Nat.ltb i (length typed) then
    Some (if errorShownBefore target typed (S i) then Incorrect else Correct)
  else if cursorAt target (length typed) i then Some Current
  else Some Untyped.

(** The number of positions of [typed], within the target, whose byte is
    the target's. *)
Fixpoint matching (typed target : gostring) : Z :=
  match typed, target with
  | b :: typed', t :: target' =>
    (if bool_decide (b = t) then 1 else 0) + matching typed' target'
  | _, _ => 0
  end.

(** A float that is a NaN or does not carry the minus sign. *)
Definition unsigned_or_nan (x : Float64.float64) : Prop :=
  match x with
  | S754_zero _ | S754_nan => True
  | S754_infinity s | S754_finite s _ _ => s = false
  end.

(** ** Sessions and stores to run *)

(** The model of a user who has entered a name and is shown [target]. *)
Definition sessionWith (target : gostring) : model :=
  set_textToType
    (set_userSetUsername
       (set_username (NewModelWithStyles [] 0 (lit "key")) (lit "player"))
       true)
    target.

(** A message that arrives when the clock reads [now]. *)
Definition at_time (now : Z) (msg : Msg) : Env * Msg :=
  ({| clock1 := now; clock2 := now; countdownText := lit "00:00:00" |}, msg).

Definition key (s : string) : Msg := KeyMsg (lit s).

(** "e" with an acute accent: two bytes. *)
Definition e_acute : gostring := [ascii_of_nat 195; ascii_of_nat 169].

(** The model of a session in progress: [typed] on the screen, the clock
    started at [start], the score [wpm] on display. *)
Definition inProgress (target typed : gostring) (start wpm : Z) : model :=
  set_didUserStartTyping
    (set_WPM (set_startTime (set_textUserTyped (sessionWith target) typed)
                            start)
             wpm)
    true.

Definition today : gostring := lit "2025-06-01".

Definition entry (userID username : string) (wpm : Z) : Data.LeaderBoardEntry :=
  {| Data.UserID := lit userID; Data.Username := lit username; Data.WPM := wpm |}.

(** The SQLite table after [InsertSentence] on an empty table. *)
Definition sqliteDay : DataSqlite.db :=
  (DataSqlite.InsertSentence ∅ today (lit "the quick brown fox")).1.

(** The Badger store after [InsertSentence] on an empty store. *)
Definition badgerDay : DataBadger.db :=
  (DataBadger.InsertSentence ∅ today (lit "the quick brown fox")).1.

(** Two users with the same score, [u1] first. *)
Definition badgerTie : DataBadger.db :=
  let d1 := (DataBadger.SubmitSentence badgerDay today
               (lit "u1") (lit "alice") 50).1 in
  (DataBadger.SubmitSentence d1 today (lit "u2") (lit "bobby") 50).1.

(** Thirteen users in the order they submit: twelve with the same score,
    then one with a higher score. *)
Definition thirteenSubmissions : list (gostring * gostring * Z) :=
  [(lit "u01", lit "ann", 50); (lit "u02", lit "bob", 50);
   (lit "u03", lit "cey", 50); (lit "u04", lit "dan", 50);
   (lit "u05", lit "eve", 50); (lit "u06", lit "fay", 50);
   (lit "u07", lit "gus", 50); (lit "u08", lit "hal", 50);
   (lit "u09", lit "ian", 50); (lit "u10", lit "jon", 50);
   (lit "u11", lit "kim", 50); (lit "u12", lit "lee", 50);
   (lit "u13", lit "max", 60)].

Definition thirteenEntries : list Data.LeaderBoardEntry :=
  map (fun s => {| Data.UserID := s.1.1; Data.Username := s.1.2;
                   Data.WPM := s.2 |}) thirteenSubmissions.

(** The Badger store after the thirteen submissions. *)
Definition badgerThirteen : DataBadger.db :=
  submitAll badgerDay today thirteenSubmissions.

(** The thirteen entries as [sort.Slice] leaves them. *)
Definition thirteenSorted : list Data.LeaderBoardEntry :=
  [entry "u13" "max" 60; entry "u07" "gus" 50; entry "u03" "cey" 50;
   entry "u04" "dan" 50; entry "u05" "eve" 50; entry "u06" "fay" 50;
   entry "u01" "ann" 50; entry "u08" "hal" 50; entry "u09" "ian" 50;
   entry "u10" "jon" 50; entry "u11" "kim" 50; entry "u12" "lee" 50;
   entry "u02" "bob" 50].

(** A leaderboard of eleven rows, in a model whose challenge is done. *)
Definition elevenRows : model :=
  set_LeaderboardEntries
    (set_hasUserAlreadyDoneDailyChallenge (sessionWith (lit "ab")) true)
    (replicate 11 {| LB.UserID := lit "u1"; LB.Username := lit "alice";
                     LB.WPM := 50 |}).

(** Two decimal digits. *)
Definition two_digits (n : Z) : gostring :=
  [Clock.digit (n / 10); Clock.digit (n mod 10)].

(** The leaderboard row of a stored entry. *)
Definition rowOf (entry : Data.LeaderBoardEntry) : LB.leaderboardEntry :=
  {| LB.UserID := Data.UserID entry;
     LB.Username := Data.Username entry;
     LB.WPM := Data.WPM entry |}.

(** ** Counting the commands a session issues *)

(** How many commands of one kind a command holds, batches included. *)
Fixpoint cmdCount (kind : Cmd -> bool) (c : Cmd) : nat :=
  match c with
  | Batch cmds =>
    (fix go (l : list Cmd) : nat :=
       match l with
       | [] => O
       | c' :: l' => (cmdCount kind c' + go l')%nat
       end) cmds
  | _ => if kind c then 1%nat else O
  end.

Definition isSubmit (c : Cmd) : bool :=
  match c with submitSentenceCmd _ _ _ => true | _ => false end.

Definition isPoll (c : Cmd) : bool :=
  match c with leaderboardPollCmd => true | _ => false end.

Definition isFetch (c : Cmd) : bool :=
  match c with fetchTodaysLeaderBoardCmd => true | _ => false end.

Definition isTick (c : Cmd) : bool :=
  match c with tickCmd => true | _ => false end.

Definition isTickMsg (e : Env * Msg) : bool :=
  match e.2 with tickMsg => true | _ => false end.

Section Sessions.

Context `{Unicode} `{TextInput} `{Platform}.

(** The commands [Update] returns along a sequence of messages; [None]
    once a handler panicked. *)
Fixpoint commands (rev : revision) (m : model) (events : list (Env * Msg))
  : option (list Cmd) :=
  match events with
  | [] => Some []
  | (env, msg) :: rest =>
    match Update rev env m msg with
    | None => None
    | Some (m', c) =>
      match commands rev m' rest with
      | None => None
      | Some cs => Some (c :: cs)
      end
    end
  end.

(** No status message says "not played". *)
Definition keeps_done (e : Env * Msg) : Prop :=
  match e.2 with
  | userDailyChallengeStatusReceivedMsg played => played = true
  | _ => True
  end.

(** A rune a user name of the Badger revision may hold. *)
Definition nameRune (r : rune) : Prop :=
  IsLetter r = true \/ IsNumber r = true \/ r = 95 \/ r = 45.

(** The sentences that arrive are ASCII. *)
Definition ascii_sentences (e : Env * Msg) : Prop :=
  match e.2 with
  | randomSentenceReceivedMsg sentence => all_ascii sentence
  | _ => True
  end.

(** The keys of a text, one per byte, each with what the handler reads. *)
Definition types (text : gostring) (events : list (Env * Msg)) : Prop :=
  Forall2 (fun b e => e.2 = KeyMsg [b]) text events.

End Sessions.

(** * Properties *)

(** ** Strings *)

Lemma len_nonneg {A} (s : list A) : 0 <= len s.
Proof. unfold len. lia. Qed.

Lemma len_app {A} (s t : list A) : len (s ++ t) = len s + len t.
Proof. unfold len. rewrite length_app. lia. Qed.

Lemma len_zero {A} (s : list A) : len s = 0 <-> s = [].
Proof.
  unfold len. split.
  - destruct s; [reflexivity | simpl; lia].
  - intros ->. reflexivity.
Qed.

Lemma byteval_bounds (b : ascii) : 0 <= byteval b < 256.
Proof.
  unfold byteval. pose proof (N_ascii_bounded b) as Hb. lia.
Qed.

Lemma DecodeRune_ascii (b : ascii) (t : gostring) :
  is_ascii b = true -> Utf8.DecodeRune (b :: t) = (byteval b, 1%nat).
Proof. unfold is_ascii. simpl. intros ->. reflexivity. Qed.

Lemma range_from_ascii (s : gostring) :
  all_ascii s ->
  forall fuel off, (length s <= fuel)%nat ->
    map snd (Utf8.range_from fuel off s) = map byteval s.
Proof.
  induction 1 as [|b t Hb Ht IH]; intros fuel off Hfuel.
  - destruct fuel; reflexivity.
  - destruct fuel as [|fuel]; [simpl in Hfuel; lia|].
    cbn [Utf8.range_from]. rewrite DecodeRune_ascii by assumption.
    cbn [map snd drop]. f_equal. apply IH. simpl in Hfuel. lia.
Qed.

(** On a string of ASCII bytes the runes are the bytes. *)
Lemma runes_ascii (s : gostring) :
  all_ascii s -> Utf8.runes s = map byteval s.
Proof.
  intros Hs. unfold Utf8.runes, Utf8.range. now apply range_from_ascii.
Qed.

Lemma len_runes_ascii (s : gostring) :
  all_ascii s -> len (Utf8.runes s) = len s.
Proof.
  intros Hs. rewrite runes_ascii by assumption.
  unfold len. now rewrite length_map.
Qed.

(** A well-formed string of one byte is an ASCII character. *)
Lemma valid_single_ascii (b : ascii) :
  Utf8.valid [b] = true -> is_ascii b = true.
Proof.
  unfold Utf8.valid, is_ascii. cbn [length Utf8.valid_from].
  destruct (Utf8.DecodeRune [b]) as [r w] eqn:E.
  unfold Utf8.DecodeRune in E.
  destruct (byteval b <? 128) eqn:Hb; [reflexivity|].
  assert (w = 1%nat) as ->.
  { repeat match type of E with
           | (if ?c then _ else _) = _ => destruct c
           end; congruence. }
  simpl. discriminate.
Qed.

(** Well-formed UTF-8 passes through JSON as it is. *)
Lemma coerce_from_valid (fuel : nat) :
  forall s, Utf8.valid_from fuel s = true -> Utf8.coerce_from fuel s = s.
Proof.
  induction fuel as [|fuel IH]; intros s; simpl.
  - now destruct s.
  - destruct s as [|b0 t]; [reflexivity|].
    destruct (Utf8.DecodeRune (b0 :: t)) as [r w].
    intros Hv. apply andb_true_iff in Hv as [Hw Ht].
    rewrite (IH _ Ht).
    replace (Nat.eqb w 1 && negb (byteval b0 <? 128)) with false.
    + apply take_drop.
    + symmetry. destruct (Nat.eqb w 1); [|reflexivity].
      simpl in Hw. now rewrite Hw.
Qed.

Lemma coerce_valid (s : gostring) :
  Utf8.valid s = true -> Utf8.coerce s = s.
Proof. apply coerce_from_valid. Qed.

Lemma stored_string_valid (s : gostring) :
  Utf8.valid s = true -> Json.stored_string s = s.
Proof. apply coerce_valid. Qed.

Lemma stored_entry_valid (e : Data.LeaderBoardEntry) :
  Utf8.valid (Data.UserID e) = true ->
  Utf8.valid (Data.Username e) = true ->
  Json.stored_entry e = e.
Proof.
  intros Hu Hn. destruct e as [u n w]. unfold Json.stored_entry. simpl in *.
  now rewrite !stored_string_valid.
Qed.

Lemma asStored_valid (rev : revision) (s : gostring) :
  Utf8.valid s = true -> asStored rev s = s.
Proof. destruct rev; [reflexivity|apply stored_string_valid]. Qed.

(** ** The typing handler *)
Section Typing.

Context `{Unicode} `{TextInput} `{Platform}.

Lemma len_dropLast (s : gostring) : len (dropLast s) = Z.max 0 (len s - 1).
Proof. unfold dropLast, len. rewrite length_take. lia. Qed.

Lemma dropLast_prefix (s : gostring) : dropLast s `prefix_of` s.
Proof. apply prefix_take. Qed.

Lemma dropLast_snoc (s : gostring) (b : ascii) : dropLast (s ++ [b]) = s.
Proof.
  unfold dropLast. rewrite length_app. simpl.
  replace (length s + 1 - 1)%nat with (length s) by lia.
  now rewrite take_app_length.
Qed.

Ltac zbool :=
  repeat match goal with
         | E : (_ <? _) = true |- _ => apply Z.ltb_lt in E
         | E : (_ <? _) = false |- _ => apply Z.ltb_ge in E
         | E : (_ <=? _) = true |- _ => apply Z.leb_le in E
         | E : (_ <=? _) = false |- _ => apply Z.leb_gt in E
         | E : (_ =? _) = true |- _ => apply Z.eqb_eq in E
         | E : (_ =? _) = false |- _ => apply Z.eqb_neq in E
         | E : _ && _ = true |- _ => apply andb_true_iff in E; destruct E
         end.

Lemma Update_key_rest_branch rev env m key m' c :
  key <> lit "ctrl+c" ->
  Update_key_rest rev env m key = Some (m', c) ->
  key_branch rev env m key m' c.
Proof.
  unfold Update_key_rest. intros Hq Hu.
  destruct (userSetUsername m) eqn:Hn; cbn [negb] in Hu.
  - case_bool_decide as Hb.
    + apply kb_backspace; congruence.
    + destruct key as [|b [|b' key]].
      * apply kb_other; try congruence; simpl; lia.
      * eapply kb_char; eauto.
      * apply kb_other; try congruence; simpl; lia.
  - apply kb_username; congruence.
Qed.

Lemma Update_key_branch rev env m key m' c :
  Update_key rev env m key = Some (m', c) ->
  key_branch rev env m key m' c.
Proof.
  unfold Update_key. intros Hu.
  case_bool_decide as Hq.
  { apply kb_quit; congruence. }
  destruct rev; [now apply Update_key_rest_branch|].
  destruct (hasUserAlreadyDoneDailyChallenge m) eqn:Hd;
    [|now apply Update_key_rest_branch].
  destruct (Update_page m key) as [[[mp cp]|]|] eqn:Hp; try discriminate.
  - injection Hu as -> ->. unfold Update_page in Hp.
    repeat case_match; simplify_eq;
      first [ by (apply (kb_page _ _ _ _ _ _ 0); auto)
            | by (eapply kb_page; eauto) ].
  - now apply Update_key_rest_branch.
Qed.

Lemma Update_username_typing rev m key :
  typing_fields (Update_username rev m key).1 = typing_fields m
  /\ didUserStartTyping (Update_username rev m key).1 = didUserStartTyping m.
Proof. unfold Update_username. repeat case_match; auto. Qed.

Lemma Update_backspace_spec m :
  Update_backspace m =
  (set_textUserTyped (set_didUserStartTyping m true)
                     (backspaced (textUserTyped m)), nilCmd)
  \/ (textUserTyped m = []
      /\ Update_backspace m = (set_didUserStartTyping m true, nilCmd)).
Proof.
  unfold Update_backspace, backspaced. cbn.
  destruct (textUserTyped m) as [|b t] eqn:Ht.
  - right. auto.
  - left. replace (len (b :: t) =? 0) with false
      by (symmetry; apply Z.eqb_neq; unfold len; simpl; lia).
    cbn. case_bool_decide as Hl.
    + assert ((0 <? len (dropLast (b :: t))) = true) as ->.
      { apply Z.ltb_lt. destruct (dropLast (b :: t)); [discriminate|].
        unfold len. simpl. lia. }
      reflexivity.
    + rewrite andb_false_r. reflexivity.
Qed.

Lemma backspaced_prefix typed : backspaced typed `prefix_of` typed.
Proof.
  unfold backspaced. destruct typed as [|b t]; [reflexivity|].
  case_bool_decide.
  - etrans; apply dropLast_prefix.
  - apply dropLast_prefix.
Qed.

(** What a one-byte key may do to the typed text. *)
Lemma Update_char_spec env m b m' c :
  Update_char env m b = Some (m', c) ->
  c = nilCmd
  /\ textToType m' = textToType m
  /\ WPM m' = WPM m
  /\ didUserStartTyping m' = true
  /\ (textUserTyped m' = textUserTyped m
      \/ (printable (byteval b) = true
          /\ len (textUserTyped m') <= len (textToType m)
          /\ (textUserTyped m' = textUserTyped m ++ [b]
              \/ textUserTyped m' = textUserTyped m ++ [newline]
              \/ textUserTyped m' = textUserTyped m ++ [newline] ++ [b]))).
Proof.
  unfold Update_char. intros Hu. cbn in Hu.
  repeat case_match; simplify_eq/=; zbool;
    repeat split; auto; right; repeat split; auto;
      rewrite <- ?app_assoc; auto;
      rewrite ?len_app in *; change (len [newline]) with 1 in *;
      change (len [b]) with 1 in *; lia.
Qed.

(** A key that is not printable, or that comes when the typed text has
    the length of the target, changes neither text, clock nor score. *)
Lemma Update_char_dropped env m b m' c :
  Update_char env m b = Some (m', c) ->
  printable (byteval b) = false
  \/ (len (textUserTyped m) = len (textToType m) /\ textUserTyped m <> []) ->
  m' = set_didUserStartTyping m true.
Proof.
  unfold Update_char. intros Hu Hd. cbn in Hu.
  destruct Hd as [Hp | [Hl Hne]].
  - rewrite Hp in Hu. congruence.
  - assert ((len (textUserTyped m) =? 0) = false) as E0.
    { apply Z.eqb_neq. rewrite len_zero. assumption. }
    assert ((len (textUserTyped m) <? len (textToType m)) = false) as E1.
    { apply Z.ltb_ge. lia. }
    rewrite E0 in Hu. cbn in Hu. rewrite E1 in Hu.
    destruct (printable (byteval b)); congruence.
Qed.

Lemma Update_key_typed rev env m key m' c :
  Update_key rev env m key = Some (m', c) ->
  typed_change (KeyMsg key) m m'.
Proof.
  intros Hu. apply Update_key_branch in Hu.
  destruct Hu as [? -> ?|p ? ? [->| ->]|? Hu|? -> Hu|b ? -> Hu|? ? ? -> ?].
  - now apply tc_same.
  - now apply tc_same.
  - now apply tc_same.
  - apply tc_same.
    pose proof (Update_username_typing rev m key) as [Ht _].
    rewrite <- Hu in Ht. unfold typing_fields in Ht. simpl in Ht. congruence.
  - destruct (Update_backspace_spec m) as [E|[Ht E]]; rewrite E in Hu;
      injection Hu as -> ->.
    + now apply tc_backspace.
    + now apply tc_same.
  - apply Update_char_spec in Hu as (_ & _ & _ & _ & [Hs|(Hp & Hl & Hs)]).
    + now apply tc_same.
    + eapply tc_char; eauto.
  - now apply tc_same.
Qed.

(** A key never changes the target. *)
Lemma Update_key_target rev env m key m' c :
  Update_key rev env m key = Some (m', c) ->
  textToType m' = textToType m.
Proof.
  intros Hu. apply Update_key_branch in Hu.
  destruct Hu as [? -> ?|p ? ? [->| ->]|? Hu|? -> Hu|b ? -> Hu|? ? ? -> ?];
    try reflexivity.
  - pose proof (Update_username_typing rev m key) as [Ht _].
    rewrite <- Hu in Ht. unfold typing_fields in Ht. simpl in Ht. congruence.
  - destruct (Update_backspace_spec m) as [E|[Ht E]]; rewrite E in Hu;
      now injection Hu as -> ->.
  - now apply Update_char_spec in Hu as (_ & Ht & _).
Qed.

Lemma Update_tick_typed rev env m m' c :
  Update_tick rev env m = Some (m', c) ->
  textUserTyped m' = textUserTyped m /\ textToType m' = textToType m.
Proof.
  unfold Update_tick. intros Hu.
  repeat case_match; simplify_eq/=; auto.
Qed.

Lemma Update_typed rev env m msg m' c :
  Update rev env m msg = Some (m', c) ->
  typed_change msg m m'.
Proof.
  destruct msg; simpl; intros Hu;
    try (repeat case_match; simplify_eq/=; now apply tc_same).
  - apply Update_tick_typed in Hu as [Hu _]. now apply tc_same.
  - eapply Update_key_typed; eauto.
Qed.

(** Only the arrival of a sentence changes the target. *)
Lemma Update_target rev env m msg m' c :
  Update rev env m msg = Some (m', c) ->
  (forall sentence, msg <> randomSentenceReceivedMsg sentence) ->
  textToType m' = textToType m.
Proof.
  destruct msg; simpl; intros Hu Hs;
    try (repeat case_match; simplify_eq/=; reflexivity).
  - now specialize (Hs sentence).
  - now apply Update_tick_typed in Hu as [_ Hu].
  - eapply Update_key_target; eauto.
Qed.

Lemma all_ascii_prefix (s t : gostring) :
  s `prefix_of` t -> all_ascii t -> all_ascii s.
Proof.
  intros [k ->] Ht. unfold all_ascii in *. now apply Forall_app in Ht as [Hs _].
Qed.

Lemma Update_all_ascii rev env m msg m' c :
  Update rev env m msg = Some (m', c) ->
  valid_event (env, msg) ->
  all_ascii (textUserTyped m) ->
  all_ascii (textUserTyped m').
Proof.
  intros Hu Hv Ha. apply Update_typed in Hu.
  assert (is_ascii newline = true) as Hn by reflexivity.
  destruct Hu as [->| -> ->|b -> Hp Hl Hs]; auto.
  - eapply all_ascii_prefix; [apply backspaced_prefix | assumption].
  - apply valid_single_ascii in Hv. unfold all_ascii in *.
    destruct Hs as [->|[->| ->]]; rewrite ?Forall_app; repeat split; auto.
Qed.

(** Typing never puts a byte above 0x7f into the typed text. *)
Lemma run_all_ascii rev events :
  forall m m',
    Forall valid_event events ->
    all_ascii (textUserTyped m) ->
    run rev m events = Some m' ->
    all_ascii (textUserTyped m').
Proof.
  induction events as [|[env msg] events IH]; intros m m' Hv Ha Hr.
  - simpl in Hr. congruence.
  - simpl in Hr. destruct (Update rev env m msg) as [[m1 c]|] eqn:Hu;
      [|discriminate].
    inversion Hv as [|? ? Hv1 Hv2]; subst.
    apply (IH m1 m'); [exact Hv2| |exact Hr].
    eapply Update_all_ascii; eauto.
Qed.

Lemma run_keeps_prefix rev events :
  forall m m',
    Forall keeps_text events ->
    run rev m events = Some m' ->
    textUserTyped m `prefix_of` textUserTyped m'
    /\ textToType m' = textToType m.
Proof.
  induction events as [|[env msg] events IH]; intros m m' Hk Hr.
  - simpl in Hr. injection Hr as ->. split; reflexivity.
  - simpl in Hr. destruct (Update rev env m msg) as [[m1 c]|] eqn:Hu;
      [|discriminate].
    inversion Hk as [|? ? Hk1 Hk2]; subst.
    destruct (IH _ _ Hk2 Hr) as [Hp Ht].
    assert (textToType m1 = textToType m) as Ht1.
    { eapply Update_target; eauto. intros s' ->. exact Hk1. }
    split; [|congruence].
    etrans; [|exact Hp].
    apply Update_typed in Hu.
    destruct Hu as [->| -> _|b -> _ _ Hs]; first reflexivity.
    + now unfold keeps_text in Hk1.
    + destruct Hs as [->|[->| ->]]; apply prefix_app_r; reflexivity.
Qed.

Lemma didUserFinishTyping_eq m :
  didUserFinishTyping m = true -> textUserTyped m = textToType m.
Proof.
  unfold didUserFinishTyping. intros Hf.
  apply andb_true_iff in Hf as [_ Hf]. now apply bool_decide_eq_true in Hf.
Qed.

Lemma didUserFinishTyping_ascii m :
  all_ascii (textUserTyped m) ->
  textUserTyped m = textToType m ->
  didUserFinishTyping m = true.
Proof.
  intros Ha He. unfold didUserFinishTyping.
  rewrite <- He, len_runes_ascii by assumption.
  rewrite Z.eqb_refl. simpl. now apply bool_decide_eq_true.
Qed.

(** C2.  In every state a session reaches from an ASCII typed text (the
    empty one, at the start), [didUserFinishTyping] holds exactly when the
    typed text is the target, byte for byte; and once some typed position
    differs from the target, it stays false whatever arrives next, as long
    as nothing is taken back with backspace. *)
Theorem finished_iff_typed_is_target rev m0 events m :
  all_ascii (textUserTyped m0) ->
  Forall valid_event events ->
  run rev m0 events = Some m ->
  (didUserFinishTyping m = true <-> textUserTyped m = textToType m)
  /\ (forall i a more m',
         textUserTyped m !! i = Some a ->
         textToType m !! i <> Some a ->
         Forall keeps_text more ->
         run rev m more = Some m' ->
         didUserFinishTyping m' = false).
Proof.
  intros Ha Hv Hr.
  pose proof (run_all_ascii rev events m0 m Hv Ha Hr) as Hm.
  split.
  - split; [apply didUserFinishTyping_eq | now apply didUserFinishTyping_ascii].
  - intros i a more m' Hi Ht Hk Hr'.
    destruct (run_keeps_prefix rev more m m' Hk Hr') as [Hp Htgt].
    destruct (didUserFinishTyping m') eqn:Hf; [|reflexivity].
    apply didUserFinishTyping_eq in Hf.
    exfalso. apply Ht. rewrite <- Htgt, <- Hf.
    eapply prefix_lookup_Some; eauto.
Qed.

Lemma has_multibyte_not_ascii s : has_multibyte s -> ~ all_ascii s.
Proof.
  unfold has_multibyte, all_ascii. rewrite Exists_exists, Forall_forall.
  intros (b & Hin & Hb) Ha. specialize (Ha b Hin). congruence.
Qed.

(** C10.  The key handler looks at the typed text only for "backspace"
    and for keys whose string is one byte long, and such a key appends at
    most that byte (after a line break of the target, when one is due); so
    the typed text holds ASCII bytes only, and against a target with a
    multi-byte character it never equals the target and
    [didUserFinishTyping] is false in every state the session reaches. *)
Theorem multibyte_target_is_never_finished rev m0 events m :
  all_ascii (textUserTyped m0) ->
  Forall valid_event events ->
  run rev m0 events = Some m ->
  (forall env key m' c,
      Update rev env m (KeyMsg key) = Some (m', c) ->
      length key <> 1%nat -> key <> lit "backspace" ->
      textUserTyped m' = textUserTyped m)
  /\ (forall env b m' c,
         Update rev env m (KeyMsg [b]) = Some (m', c) ->
         textUserTyped m' = textUserTyped m
         \/ textUserTyped m' = textUserTyped m ++ [b]
         \/ textUserTyped m' = textUserTyped m ++ [newline]
         \/ textUserTyped m' = textUserTyped m ++ [newline] ++ [b])
  /\ all_ascii (textUserTyped m)
  /\ (has_multibyte (textToType m) ->
      textUserTyped m <> textToType m /\ didUserFinishTyping m = false).
Proof.
  intros Ha Hv Hr.
  pose proof (run_all_ascii rev events m0 m Hv Ha Hr) as Hm.
  split; [|split; [|split; [exact Hm|]]].
  - intros env key m' c Hu Hl Hb. simpl in Hu.
    apply Update_key_typed in Hu.
    destruct Hu as [E|E _|b E _ _ _]; [exact E|congruence|].
    injection E as ->. now contradiction Hl.
  - intros env b m' c Hu. simpl in Hu.
    apply Update_key_typed in Hu.
    destruct Hu as [E|E _|b' E _ _ Hs]; [now left|discriminate|].
    injection E as ->. now right.
  - intros Hmb. apply has_multibyte_not_ascii in Hmb.
    assert (textUserTyped m <> textToType m) as Hne by congruence.
    split; [exact Hne|].
    destruct (didUserFinishTyping m) eqn:Hf; [|reflexivity].
    now apply didUserFinishTyping_eq in Hf.
Qed.

Lemma Update_key_len rev env m key m' c :
  Update_key rev env m key = Some (m', c) ->
  len (textUserTyped m) <= len (textToType m) ->
  len (textUserTyped m') <= len (textToType m').
Proof.
  intros Hu Hle. rewrite (Update_key_target _ _ _ _ _ _ Hu).
  apply Update_key_typed in Hu.
  destruct Hu as [->| _ ->|b _ _ Hl _]; [assumption| |assumption].
  destruct (backspaced_prefix (textUserTyped m)) as [k Hk].
  rewrite Hk, len_app in Hle. pose proof (len_nonneg k). lia.
Qed.

Lemma run_keys_len rev events :
  forall m m',
    Forall is_key_event events ->
    len (textUserTyped m) <= len (textToType m) ->
    run rev m events = Some m' ->
    len (textUserTyped m') <= len (textToType m').
Proof.
  induction events as [|[env msg] events IH]; intros m m' Hk Hle Hr.
  - simpl in Hr. congruence.
  - simpl in Hr. destruct (Update rev env m msg) as [[m1 c]|] eqn:Hu;
      [|discriminate].
    inversion Hk as [|? ? [key Hkey] Hk2]; subst. simpl in Hkey. subst msg.
    apply (IH m1 m'); [exact Hk2| |exact Hr].
    eapply Update_key_len; eauto.
Qed.

(** No key changes the score. *)
Lemma Update_key_WPM rev env m key m' c :
  Update_key rev env m key = Some (m', c) -> WPM m' = WPM m.
Proof.
  intros Hu. apply Update_key_branch in Hu.
  destruct Hu as [? -> ?|p ? ? [->| ->]|? Hu|? -> Hu|b ? -> Hu|? ? ? -> ?];
    try reflexivity.
  - pose proof (Update_username_typing rev m key) as [Ht _].
    rewrite <- Hu in Ht. unfold typing_fields in Ht. simpl in Ht. congruence.
  - destruct (Update_backspace_spec m) as [E|[Ht E]]; rewrite E in Hu;
      now injection Hu as -> ->.
  - now apply Update_char_spec in Hu as (_ & _ & Hw & _).
Qed.

(** On the typing screen a one-byte key goes to the character branch. *)
Lemma Update_key_char rev env m b :
  userSetUsername m = true ->
  hasUserAlreadyDoneDailyChallenge m = false ->
  Update_key rev env m [b] = Update_char env m b.
Proof.
  intros Hn Hd. unfold Update_key, Update_key_rest.
  rewrite Hn, Hd. cbn [negb].
  rewrite !bool_decide_eq_false_2 by discriminate.
  now destruct rev.
Qed.

(** C7, as the code has it.  Keys never make the typed text longer than
    the target.  A one-byte key that is not printable, or that arrives
    when the typed text has the length of the target, leaves the typed
    text, the target and the score as they were; on the typing screen it
    changes nothing in the model but the flag [didUserStartTyping], which
    every one-byte key sets (with an empty typed text a printable key also
    restarts the clock). *)
Theorem typed_text_stays_within_target rev m0 events m :
  Forall is_key_event events ->
  len (textUserTyped m0) <= len (textToType m0) ->
  run rev m0 events = Some m ->
  len (textUserTyped m) <= len (textToType m)
  /\ (forall env b m' c,
         Update rev env m (KeyMsg [b]) = Some (m', c) ->
         printable (byteval b) = false
         \/ len (textUserTyped m) = len (textToType m) ->
         textUserTyped m' = textUserTyped m
         /\ textToType m' = textToType m
         /\ WPM m' = WPM m)
  /\ (forall env b m' c,
         userSetUsername m = true ->
         hasUserAlreadyDoneDailyChallenge m = false ->
         Update rev env m (KeyMsg [b]) = Some (m', c) ->
         printable (byteval b) = false
         \/ (len (textUserTyped m) = len (textToType m)
             /\ textUserTyped m <> []) ->
         m' = set_didUserStartTyping m true).
Proof.
  intros Hk Hle Hr.
  pose proof (run_keys_len rev events m0 m Hk Hle Hr) as Hm.
  split; [exact Hm|split].
  - intros env b m' c Hu Hd. simpl in Hu.
    split; [|split; [eapply Update_key_target | eapply Update_key_WPM]; eauto].
    apply Update_key_typed in Hu.
    destruct Hu as [E|E _|b' E Hp Hl Hs]; [exact E|discriminate|].
    injection E as <-. exfalso.
    destruct Hd as [Hd|Hd]; [congruence|].
    assert (len (textUserTyped m) < len (textUserTyped m')).
    { destruct Hs as [->|[->| ->]]; rewrite !len_app; unfold len; simpl; lia. }
    lia.
  - intros env b m' c Hn Hd Hu Hdrop. simpl in Hu.
    rewrite Update_key_char in Hu by assumption.
    eapply Update_char_dropped; eauto.
Qed.

Lemma backspaced_snoc (s : gostring) (b : ascii) :
  backspaced (s ++ [b])
  = if bool_decide (last s = Some newline) then dropLast s else s.
Proof.
  unfold backspaced. destruct (s ++ [b]) as [|x t] eqn:E.
  - now destruct s.
  - rewrite <- E, dropLast_snoc. reflexivity.
Qed.

Lemma Update_key_backspace rev env m :
  userSetUsername m = true ->
  entriesPerPage m <> 0 ->
  Update_key rev env m (lit "backspace") = Some (Update_backspace m).
Proof.
  intros Hn He. unfold Update_key, Update_key_rest, Update_page.
  rewrite Hn. cbn [negb].
  apply Z.eqb_neq in He. rewrite He.
  change (bool_decide (lit "backspace" = lit "ctrl+c")) with false.
  change (bool_decide (lit "backspace" = lit "backspace")) with true.
  destruct rev; [reflexivity|].
  destruct (hasUserAlreadyDoneDailyChallenge m); reflexivity.
Qed.


End Typing.

Lemma finished_iff_typed_is_target_witness :
  let m0 := sessionWith (lit "ab") in
  let events := [at_time 10 (key "a"); at_time 20 (key "b")] in
  all_ascii (textUserTyped m0)
  /\ Forall valid_event events
  /\ exists m,
      run Badger m0 events = Some m
      /\ (didUserFinishTyping m = true <-> textUserTyped m = textToType m)
      /\ (forall i a more m',
             textUserTyped m !! i = Some a ->
             textToType m !! i <> Some a ->
             Forall keeps_text more ->
             run Badger m more = Some m' ->
             didUserFinishTyping m' = false).
Proof.
  intros m0 events.
  assert (all_ascii (textUserTyped m0)) as Ha by constructor.
  assert (Forall valid_event events) as Hv
      by (repeat constructor).
  split; [exact Ha|split; [exact Hv|]].
  eexists. split; [vm_compute; reflexivity|].
  apply (finished_iff_typed_is_target Badger m0 events); [exact Ha|exact Hv|].
  vm_compute. reflexivity.
Defined.

Lemma multibyte_target_is_never_finished_witness :
  let m0 := sessionWith (lit "caf" ++ e_acute) in
  let events := [at_time 10 (key "c"); at_time 20 (key "a")] in
  all_ascii (textUserTyped m0)
  /\ Forall valid_event events
  /\ exists m,
      run SQLite m0 events = Some m
      /\ has_multibyte (textToType m)
      /\ all_ascii (textUserTyped m)
      /\ textUserTyped m <> textToType m
      /\ didUserFinishTyping m = false.
Proof.
  intros m0 events.
  assert (all_ascii (textUserTyped m0)) as Ha by constructor.
  assert (Forall valid_event events) as Hv
      by (repeat constructor).
  split; [exact Ha|split; [exact Hv|]].
  assert (exists m, run SQLite m0 events = Some m
                    /\ textToType m = lit "caf" ++ e_acute) as (m & Hr & Ht).
  { eexists. split; vm_compute; reflexivity. }
  exists m. split; [exact Hr|].
  assert (has_multibyte (textToType m)) as Hmb.
  { rewrite Ht. unfold has_multibyte. simpl. do 3 apply Exists_cons_tl.
    apply Exists_cons_hd. reflexivity. }
  split; [exact Hmb|].
  destruct (multibyte_target_is_never_finished SQLite m0 events m Ha Hv Hr)
    as (_ & _ & Hascii & Hnever).
  split; [exact Hascii|]. exact (Hnever Hmb).
Defined.

Lemma typed_text_stays_within_target_witness :
  let m0 := sessionWith (lit "ab") in
  let events := [at_time 10 (key "a"); at_time 20 (key "b");
                 at_time 30 (key "c")] in
  Forall is_key_event events
  /\ len (textUserTyped m0) <= len (textToType m0)
  /\ exists m,
      run Badger m0 events = Some m
      /\ textUserTyped m = lit "ab"
      /\ len (textUserTyped m) <= len (textToType m).
Proof.
  intros m0 events.
  assert (Forall is_key_event events) as Hk
      by (repeat constructor; eexists; reflexivity).
  assert (len (textUserTyped m0) <= len (textToType m0)) as Hle
      by (vm_compute; discriminate).
  split; [exact Hk|split; [exact Hle|]].
  assert (exists m, run Badger m0 events = Some m
                    /\ textUserTyped m = lit "ab") as (m & Hr & Ht).
  { eexists. split; vm_compute; reflexivity. }
  exists m. split; [exact Hr|split; [exact Ht|]].
  exact (proj1 (typed_text_stays_within_target Badger m0 events m Hk Hle Hr)).
Defined.

(** C7 as the spec has it fails: "$" is none of letter, digit, punctuation
    or white space, yet on the typing screen it changes the model. *)
Lemma unprintable_key_changes_the_model :
  let m := sessionWith (lit "abc") in
  let env := fst (at_time 10 tickMsg) in
  printable (byteval "$"%char) = false
  /\ exists m',
      Update Badger env m (key "$") = Some (m', nilCmd)
      /\ Update SQLite env m (key "$") = Some (m', nilCmd)
      /\ didUserStartTyping m = false
      /\ didUserStartTyping m' = true
      /\ m' <> m.
Proof.
  intros m env. split; [reflexivity|].
  eexists. split; [vm_compute; reflexivity|].
  split; [vm_compute; reflexivity|].
  split; [reflexivity|split; [reflexivity|]].
  intros E. apply (f_equal didUserStartTyping) in E. discriminate E.
Defined.


(** ** The sorting routines keep the promise of [sort.Slice] *)
Section SortersCorrect.

Context {A : Type} (less : A -> A -> bool).

Lemma insert_after_perm (x : A) (l : list A) :
  Permutation (x :: l) (Sorters.insert_after less x l).
Proof.
  induction l as [|y l IH]; simpl.
  - reflexivity.
  - destruct (less x y); [reflexivity|].
    rewrite perm_swap. now apply perm_skip.
Qed.

Lemma insertion_sort_perm (l : list A) :
  Permutation l (Sorters.insertion_sort less l).
Proof.
  unfold Sorters.insertion_sort.
  assert (forall acc, Permutation (acc ++ l)
            (fold_left (fun acc x => Sorters.insert_after less x acc) l acc))
    as Hgen.
  { induction l as [|x l IH]; intros acc; simpl.
    - now rewrite app_nil_r.
    - etrans; [|apply IH]. rewrite <- insert_after_perm. simpl.
      symmetry. apply Permutation_middle. }
  exact (Hgen []).
Qed.

Hypothesis less_sw : strict_weak less.

Lemma less_asym (x y : A) : less x y = true -> less y x = false.
Proof.
  intros Hxy. destruct (less y x) eqn:Hyx; [|reflexivity].
  pose proof (sw_trans less less_sw x y x Hxy Hyx) as Hxx.
  rewrite (sw_irrefl less less_sw) in Hxx. discriminate.
Qed.

Lemma insert_after_ordered (x : A) (l : list A) :
  ordered_by less l -> ordered_by less (Sorters.insert_after less x l).
Proof.
  unfold ordered_by. induction 1 as [|y l Hl IH Hy]; simpl.
  - repeat constructor.
  - destruct (less x y) eqn:Hxy.
    + constructor; [now constructor|].
      constructor; [now apply less_asym|].
      eapply Forall_impl; [exact Hy|]. simpl. intros z Hz.
      eapply (sw_incomp less less_sw); [exact Hz|now apply less_asym].
    + constructor; [exact IH|].
      rewrite <- insert_after_perm. now constructor.
Qed.

Lemma insertion_sort_ordered (l : list A) :
  ordered_by less (Sorters.insertion_sort less l).
Proof.
  unfold Sorters.insertion_sort.
  assert (forall acc, ordered_by less acc ->
            ordered_by less
              (fold_left (fun acc x => Sorters.insert_after less x acc) l acc))
    as Hgen.
  { induction l as [|x l IH]; intros acc Hacc; simpl; [exact Hacc|].
    apply IH. now apply insert_after_ordered. }
  apply Hgen. constructor.
Qed.

End SortersCorrect.

(** Insertion sort: a stable routine. *)
Definition stableSort : SortSlice := {|
  sort_Slice := fun A less l => Sorters.insertion_sort less l;
  sort_Slice_perm := fun A less l => insertion_sort_perm less l;
  sort_Slice_ordered := fun A less l Hsw => insertion_sort_ordered less Hsw l
|}.

(** *** The library routine only moves elements around *)
Section GoSortCorrect.

Context {A : Type} (less : A -> A -> bool).

Lemma Swap_perm (data : list A) (i j : nat) :
  Permutation data (GoSort.Swap data i j).
Proof.
  unfold GoSort.Swap.
  destruct (data !! i) as [x|] eqn:Hi; [|reflexivity].
  destruct (data !! j) as [y|] eqn:Hj; [|reflexivity].
  symmetry. now apply Permutation_insert_swap.
Qed.

Lemma insertDown_perm (fuel : nat) :
  forall data a j, Permutation data (GoSort.insertDown less fuel data a j).
Proof.
  induction fuel as [|fuel IH]; intros data a j; simpl; [reflexivity|].
  case_match; [|reflexivity].
  etrans; [apply (Swap_perm data j (j - 1))|apply IH].
Qed.

Lemma insertionSort_perm (data : list A) (a b : nat) :
  Permutation data (GoSort.insertionSort_func less data a b).
Proof.
  unfold GoSort.insertionSort_func.
  generalize (a + 1)%nat as i. generalize (b - a)%nat as fuel.
  intros fuel. revert data.
  induction fuel as [|fuel IH]; intros data i; simpl; [reflexivity|].
  case_match; [|reflexivity].
  etrans; [apply (insertDown_perm i data a i)|apply IH].
Qed.

Lemma reverseRange_perm (data : list A) (a b : nat) :
  Permutation data (GoSort.reverseRange_func data a b).
Proof.
  unfold GoSort.reverseRange_func.
  generalize (b - 1)%nat as j. generalize (b - a)%nat as fuel.
  generalize a as i. intros i fuel. revert data i.
  induction fuel as [|fuel IH]; intros data i j; simpl; [reflexivity|].
  case_match; [|reflexivity].
  etrans; [apply (Swap_perm data i j)|apply IH].
Qed.

Lemma partition_loop_perm (fuel : nat) :
  forall data a i j,
    Permutation data (GoSort.partition_loop less fuel data a i j).1.
Proof.
  induction fuel as [|fuel IH]; intros data a i j; [reflexivity|].
  cbn [GoSort.partition_loop]. cbv zeta.
  case_match; [apply Swap_perm|].
  etrans; [|apply IH]. apply Swap_perm.
Qed.

Lemma partition_perm (data : list A) (a b pivot : nat) :
  Permutation data (GoSort.partition_func less data a b pivot).1.1.
Proof.
  unfold GoSort.partition_func. cbv zeta.
  case_match.
  - cbn [fst]. etrans; [apply (Swap_perm data a pivot)|apply Swap_perm].
  - match goal with
    | |- context [GoSort.partition_loop less ?f ?d ?x ?y ?z] =>
      pose proof (partition_loop_perm f d x y z) as Hl;
        destruct (GoSort.partition_loop less f d x y z) as [data' mid]
    end.
    cbn [fst] in *. etrans; [apply (Swap_perm data a pivot)|].
    etrans; [|exact Hl]. apply Swap_perm.
Qed.

Lemma partitionEqual_loop_perm (fuel : nat) :
  forall data a i j,
    Permutation data (GoSort.partitionEqual_loop less fuel data a i j).1.
Proof.
  induction fuel as [|fuel IH]; intros data a i j; [reflexivity|].
  cbn [GoSort.partitionEqual_loop]. cbv zeta.
  case_match; [reflexivity|].
  etrans; [|apply IH]. apply Swap_perm.
Qed.

Lemma partitionEqual_perm (data : list A) (a b pivot : nat) :
  Permutation data (GoSort.partitionEqual_func less data a b pivot).1.
Proof.
  unfold GoSort.partitionEqual_func. cbv zeta.
  etrans; [apply (Swap_perm data a pivot)|apply partitionEqual_loop_perm].
Qed.

Lemma pdqsort_perm (fuel : nat) :
  forall data a b wasBalanced wasPartitioned out,
    GoSort.pdqsort_func less fuel data a b wasBalanced wasPartitioned
    = Some out ->
    Permutation data out.
Proof.
  induction fuel as [|fuel IH];
    intros data a b wasBalanced wasPartitioned out; [discriminate|].
  cbn [GoSort.pdqsort_func]. cbv zeta.
  destruct (Nat.leb (b - a) 12);
    [intros [= <-]; apply insertionSort_perm|].
  destruct (negb wasBalanced); [discriminate|].
  destruct (Nat.leb 50 (b - a)); [discriminate|].
  destruct (GoSort.choosePivot_func less data a b) as [pivot hint].
  assert (exists data1 pivot1 hint1,
             match hint with
             | GoSort.decreasingHint =>
               (GoSort.reverseRange_func data a b,
                ((b - 1) - (pivot - a))%nat, GoSort.increasingHint)
             | _ => (data, pivot, hint)
             end = (data1, pivot1, hint1)
             /\ Permutation data data1) as (data1 & pivot1 & hint1 & -> & Hp1).
  { destruct hint; do 3 eexists; (split; [reflexivity|]);
      [reflexivity|reflexivity|apply reverseRange_perm]. }
  match goal with
  | |- (if ?c then _ else _) = _ -> _ => destruct c
  end; [intros [= <-]; exact Hp1|].
  match goal with
  | |- (if ?c then _ else _) = _ -> _ => destruct c
  end.
  - pose proof (partitionEqual_perm data1 a b pivot1) as Hp2.
    destruct (GoSort.partitionEqual_func less data1 a b pivot1)
      as [data2 mid].
    cbn [fst] in Hp2. intros Hrec. apply IH in Hrec.
    etrans; [exact Hp1|]. etrans; [exact Hp2|exact Hrec].
  - pose proof (partition_perm data1 a b pivot1) as Hp2.
    destruct (GoSort.partition_func less data1 a b pivot1)
      as [[data2 mid] alreadyPartitioned].
    cbn [fst] in Hp2.
    match goal with
    | |- (if ?c then _ else _) = _ -> _ => destruct c
    end;
      match goal with
      | |- context [match GoSort.pdqsort_func less fuel ?d ?x ?y ?f ?g with
                    | _ => _ end] =>
        destruct (GoSort.pdqsort_func less fuel d x y f g) as [data3|] eqn:E3;
          [|discriminate]
      end;
      intros Hrec; apply IH in E3; apply IH in Hrec;
        (etrans; [exact Hp1|]); (etrans; [exact Hp2|]);
        (etrans; [exact E3|exact Hrec]).
Qed.

Lemma Slice_perm (x out : list A) :
  GoSort.Slice less x = Some out -> Permutation x out.
Proof. apply pdqsort_perm. Qed.

Lemma orderedb_ordered (l : list A) :
  Sorters.orderedb less l = true -> ordered_by less l.
Proof.
  unfold ordered_by. induction l as [|x l IH]; simpl; [constructor|].
  intros Hl. apply andb_true_iff in Hl as [Hx Hl].
  constructor; [now apply IH|].
  apply Forall_forall. intros y Hy.
  rewrite forallb_forall in Hx. apply list_elem_of_In in Hy.
  specialize (Hx y Hy). now apply negb_true_iff in Hx.
Qed.

(** [sort.Slice] as the program gets it: the library routine, where the
    model above covers it and what it returns is in order, as the library
    promises; insertion sort elsewhere. *)
Definition goSlice (l : list A) : list A :=
  match GoSort.Slice less l with
  | Some out =>
    if Sorters.orderedb less out then out else Sorters.insertion_sort less l
  | None => Sorters.insertion_sort less l
  end.

Lemma goSlice_perm (l : list A) : Permutation l (goSlice l).
Proof.
  unfold goSlice. destruct (GoSort.Slice less l) as [out|] eqn:E;
    [|apply insertion_sort_perm].
  destruct (Sorters.orderedb less out);
    [now apply Slice_perm|apply insertion_sort_perm].
Qed.

Lemma goSlice_ordered (l : list A) :
  strict_weak less -> ordered_by less (goSlice l).
Proof.
  intros Hsw. unfold goSlice.
  destruct (GoSort.Slice less l) as [out|] eqn:E;
    [|now apply insertion_sort_ordered].
  destruct (Sorters.orderedb less out) eqn:Ho;
    [now apply orderedb_ordered|now apply insertion_sort_ordered].
Qed.

End GoSortCorrect.

Definition goSort : SortSlice := {|
  sort_Slice := fun A less l => goSlice less l;
  sort_Slice_perm := fun A less l => goSlice_perm less l;
  sort_Slice_ordered := fun A less l Hsw => goSlice_ordered less l Hsw
|}.

(** ** The store *)

Lemma hasUser_In (userID : gostring) (stats : list Data.LeaderBoardEntry) :
  Data.hasUser userID stats = true <-> In userID (map Data.UserID stats).
Proof.
  unfold Data.hasUser. rewrite existsb_exists, in_map_iff.
  split.
  - intros (e & Hin & He). apply bool_decide_eq_true in He. eauto.
  - intros (e & He & Hin). exists e. split; [exact Hin|].
    now apply bool_decide_eq_true.
Qed.

Lemma byWPM_strict_weak : strict_weak Data.byWPM.
Proof.
  unfold Data.byWPM. split.
  - intros x. apply Z.ltb_irrefl.
  - intros x y z Hxy Hyz. apply Z.ltb_lt in Hxy, Hyz. apply Z.ltb_lt. lia.
  - intros x y z Hxy Hyz. apply Z.ltb_ge in Hxy, Hyz. apply Z.ltb_ge. lia.
Qed.

Module BadgerFacts.

Import Data DataBadger.

Lemma store_key_not_sentence_key (d1 d2 : gostring) :
  storePrefix ++ d1 <> sentencePrefix ++ d2.
Proof. discriminate. Qed.

(** A second submission of a user is refused and writes nothing. *)
Lemma SubmitSentence_again (d : db) (dateId userID username : gostring)
      (wpm : Z) (e : DBEntry) :
  getValue_entry d (storePrefix ++ dateId) = Ok e ->
  In userID (map UserID (UserStats e)) ->
  SubmitSentence d dateId userID username wpm
  = (d, Some (Errorf "user has already submitted a score today")).
Proof.
  intros He Hin. unfold SubmitSentence. rewrite He.
  apply hasUser_In in Hin. now rewrite Hin.
Qed.

(** The submission of a user who has no entry appends one entry, and the
    record is written anew, as JSON. *)
Lemma SubmitSentence_fresh (d : db) (dateId userID username : gostring)
      (wpm : Z) (e : DBEntry) :
  getValue_entry d (storePrefix ++ dateId) = Ok e ->
  ~ In userID (map UserID (UserStats e)) ->
  exists d',
    SubmitSentence d dateId userID username wpm = (d', None)
    /\ getValue_entry d' (storePrefix ++ dateId)
       = Ok (Json.stored_record
               {| DateID := DateID e;
                  UserStats := UserStats e ++
                    [{| UserID := userID; Username := username;
                        WPM := wpm |}] |}).
Proof.
  intros He Hin. unfold SubmitSentence. rewrite He.
  destruct (hasUser userID (UserStats e)) eqn:Hh.
  - apply hasUser_In in Hh. contradiction.
  - eexists. split; [reflexivity|].
    unfold getValue_entry, setValue. now rewrite lookup_insert_eq.
Qed.

(** Records whose user IDs are well-formed keep them through JSON. *)
Lemma wellformed_ids_stored (stats : list LeaderBoardEntry) :
  wellformed_ids stats ->
  map UserID (map Json.stored_entry stats) = map UserID stats
  /\ wellformed_ids (map Json.stored_entry stats).
Proof.
  unfold wellformed_ids. induction 1 as [|e stats He Hs [IH1 IH2]]; simpl.
  - split; [reflexivity|constructor].
  - rewrite (stored_string_valid _ He), IH1. split; [reflexivity|].
    constructor; [|exact IH2]. simpl. now rewrite (stored_string_valid _ He).
Qed.

(** No user whose ID is well-formed UTF-8 gets a second entry. *)
Lemma SubmitSentence_unique (d : db) (dateId userID username : gostring)
      (wpm : Z) (stats stats' : list LeaderBoardEntry) :
  Utf8.valid userID = true ->
  recorded Badger d dateId = Some stats ->
  NoDup (map UserID stats) ->
  wellformed_ids stats ->
  recorded Badger (SubmitSentence d dateId userID username wpm).1 dateId
  = Some stats' ->
  NoDup (map UserID stats') /\ wellformed_ids stats'.
Proof.
  unfold recorded. intros Hv Hs Hnd Hwf.
  destruct (getValue_entry d (storePrefix ++ dateId)) as [e|] eqn:He;
    [|discriminate].
  injection Hs as <-.
  destruct (hasUser userID (UserStats e)) eqn:Hh;
    [apply hasUser_In in Hh as Hin
    |assert (~ In userID (map UserID (UserStats e))) as Hin
        by (rewrite <- hasUser_In; congruence)].
  - rewrite (SubmitSentence_again _ _ _ _ _ _ He Hin). cbn [fst].
    rewrite He. now intros [= <-].
  - destruct (SubmitSentence_fresh _ _ _ username wpm _ He Hin)
      as (d' & -> & He').
    cbn [fst]. rewrite He'. intros [= <-]. cbn [UserStats Json.stored_record].
    assert (wellformed_ids
              (UserStats e ++ [{| UserID := userID; Username := username;
                                  WPM := wpm |}])) as Hwf'.
    { apply Forall_app. split; [exact Hwf|]. now repeat constructor. }
    destruct (wellformed_ids_stored _ Hwf') as [Hids Hwf''].
    split; [|exact Hwf''].
    rewrite Hids, map_app. simpl. apply NoDup_app. repeat split; auto.
    + intros x Hx Hx'. apply list_elem_of_In in Hx.
      apply list_elem_of_singleton in Hx'. now subst.
    + apply NoDup_singleton.
Qed.

(** The first submission of a date makes the record. *)
Lemma SubmitSentence_first (d : db) (dateId userID username : gostring)
      (wpm : Z) :
  recorded Badger d dateId = None ->
  recorded Badger (SubmitSentence d dateId userID username wpm).1 dateId
  = Some [Json.stored_entry
            {| UserID := userID; Username := username; WPM := wpm |}].
Proof.
  cbv [recorded store]. unfold SubmitSentence.
  destruct (getValue_entry d (storePrefix ++ dateId)) as [e|err] eqn:He;
    [discriminate|]. intros _. cbn [UserStats hasUser existsb DateID app fst].
  unfold getValue_entry, setValue. now rewrite lookup_insert_eq.
Qed.

(** However many submissions arrive, one after the other, under user IDs
    that are well-formed UTF-8, no user has two entries. *)
Lemma submitAll_unique (dateId : gostring)
      (submissions : list (gostring * gostring * Z)) :
  Forall (fun s => Utf8.valid s.1.1 = true) submissions ->
  forall d : db,
    (forall stats, recorded Badger d dateId = Some stats ->
                   NoDup (map UserID stats) /\ wellformed_ids stats) ->
    forall stats, recorded Badger (submitAll d dateId submissions) dateId
                  = Some stats ->
                  NoDup (map UserID stats) /\ wellformed_ids stats.
Proof.
  induction 1 as [|[[userID username] wpm] rest Hv Hrest IH]; intros d Hd;
    [exact Hd|].
  cbn [submitAll]. apply IH. intros stats' Hs'. simpl in Hv.
  destruct (recorded Badger d dateId) as [stats|] eqn:Hs.
  - destruct (Hd stats eq_refl) as [Hnd Hwf].
    exact (SubmitSentence_unique d dateId userID username wpm stats stats'
                                 Hv Hs Hnd Hwf Hs').
  - rewrite (SubmitSentence_first _ _ _ _ _ Hs) in Hs'.
    injection Hs' as <-. simpl. split; [apply NoDup_singleton|].
    repeat constructor. simpl. now rewrite (stored_string_valid _ Hv).
Qed.

End BadgerFacts.

(** C1 fails in the SQLite revision.  [SubmitSentence] finds the user in
    today's entries, prints that the user already exists, and goes on: the
    second submission returns no error and the user has two entries.  (The
    Badger revision returns at that point: [BadgerFacts.SubmitSentence_again].) *)
Theorem sqlite_second_submission_is_appended :
  let '(d1, printed1, err1) :=
    DataSqlite.SubmitSentence sqliteDay today (lit "u1") (lit "alice") 50 in
  let '(d2, printed2, err2) :=
    DataSqlite.SubmitSentence d1 today (lit "u1") (lit "alice") 70 in
  err1 = None /\ printed1 = []
  /\ err2 = None
  /\ printed2 = [lit "User u1 already exists in the leaderboard"]
  /\ recorded SQLite d2 today
     = Some [entry "u1" "alice" 50; entry "u1" "alice" 70].
Proof. vm_compute. repeat split; reflexivity. Qed.

Module SqliteFacts.

Import Data DataSqlite.

(** Whoever submits, the entry is appended, and the record is written
    anew, as JSON. *)
Lemma SubmitSentence_appends (d : db) (dateId userID username : gostring)
      (wpm : Z) (r : row) :
  d !! dateId = Some r ->
  exists d' printed,
    SubmitSentence d dateId userID username wpm = (d', printed, None)
    /\ recorded SQLite d' dateId
       = Some (map Json.stored_entry
                   (UserStats (value r) ++
                    [{| UserID := userID; Username := username;
                        WPM := wpm |}])).
Proof.
  intros Hr. unfold SubmitSentence. rewrite Hr.
  do 2 eexists. split; [reflexivity|].
  cbv [recorded store]. now rewrite lookup_insert_eq.
Qed.

End SqliteFacts.

(** ** The leaderboard *)

Lemma ordered_byWPM (l : list Data.LeaderBoardEntry) :
  ordered_by Data.byWPM l ->
  StronglySorted (fun a b => Data.WPM b <= Data.WPM a) l.
Proof.
  unfold ordered_by, Data.byWPM. induction 1 as [|a l Hl IH Ha].
  - constructor.
  - constructor; [exact IH|].
    eapply Forall_impl; [exact Ha|]. simpl. intros b Hb.
    now apply Z.ltb_ge in Hb.
Qed.

Lemma filter_none {A} (f : A -> bool) (l : list A) :
  Forall (fun x => f x = false) l -> List.filter f l = [].
Proof.
  induction 1 as [|x l Hx Hl IH]; simpl; [reflexivity|]. now rewrite Hx.
Qed.

Lemma insert_after_other_score (x : Data.LeaderBoardEntry)
      (l : list Data.LeaderBoardEntry) (wpm : Z) :
  Data.WPM x <> wpm ->
  List.filter (fun e => Data.WPM e =? wpm) (Sorters.insert_after Data.byWPM x l)
  = List.filter (fun e => Data.WPM e =? wpm) l.
Proof.
  intros Hx. apply Z.eqb_neq in Hx.
  induction l as [|y l IH]; simpl.
  - now rewrite Hx.
  - destruct (Data.byWPM x y); simpl.
    + now rewrite Hx.
    + now rewrite IH.
Qed.

Lemma insert_after_same_score (x : Data.LeaderBoardEntry)
      (l : list Data.LeaderBoardEntry) :
  ordered_by Data.byWPM l ->
  List.filter (fun e => Data.WPM e =? Data.WPM x)
              (Sorters.insert_after Data.byWPM x l)
  = List.filter (fun e => Data.WPM e =? Data.WPM x) l ++ [x].
Proof.
  unfold ordered_by. induction 1 as [|y l Hl IH Hy]; simpl.
  - now rewrite Z.eqb_refl.
  - destruct (Data.byWPM x y) eqn:Hxy; simpl.
    + rewrite Z.eqb_refl. unfold Data.byWPM in Hxy. apply Z.ltb_lt in Hxy.
      replace (Data.WPM y =? Data.WPM x) with false
        by (symmetry; apply Z.eqb_neq; lia).
      replace (List.filter (fun e => Data.WPM e =? Data.WPM x) l) with
          (@nil Data.LeaderBoardEntry); [reflexivity|].
      symmetry. apply filter_none.
      eapply Forall_impl; [exact Hy|]. simpl. intros z Hz.
      unfold Data.byWPM in Hz. apply Z.ltb_ge in Hz.
      apply Z.eqb_neq. lia.
    + rewrite IH. now destruct (Data.WPM y =? Data.WPM x).
Qed.

(** Under a stable routine the entries of equal score do keep the order of
    submission. *)
Lemma stableSort_keeps_tie_order (stats : list Data.LeaderBoardEntry) :
  keeps_tie_order stats (@sort_Slice stableSort _ Data.byWPM stats).
Proof.
  unfold keeps_tie_order. simpl. unfold Sorters.insertion_sort. intros wpm.
  assert (forall acc,
             ordered_by Data.byWPM acc ->
             List.filter (fun e => Data.WPM e =? wpm)
                         (fold_left (fun acc x =>
                                       Sorters.insert_after Data.byWPM x acc)
                                    stats acc)
             = List.filter (fun e => Data.WPM e =? wpm) acc
               ++ List.filter (fun e => Data.WPM e =? wpm) stats) as Hgen.
  { induction stats as [|x stats IH]; intros acc Hacc; simpl.
    - now rewrite app_nil_r.
    - rewrite IH
        by (apply insert_after_ordered; [apply byWPM_strict_weak|exact Hacc]).
      destruct (Z.eq_dec (Data.WPM x) wpm) as [<-|Hne].
      + rewrite insert_after_same_score by assumption.
        rewrite Z.eqb_refl. now rewrite <- app_assoc.
      + rewrite insert_after_other_score by assumption.
        apply Z.eqb_neq in Hne. now rewrite Hne. }
  apply (Hgen []). constructor.
Qed.

(** C3, as the code has it.  In both revisions the leaderboard holds the
    recorded entries of the date, each once, rearranged so that no entry
    has a higher score than an earlier one.  The order of entries with
    the same score is whatever [sort.Slice] leaves. *)
Theorem leaderboard_is_sorted_by_wpm `{SortSlice} (rev : revision)
        (d : store rev) (dateId : gostring)
        (stats : list Data.LeaderBoardEntry)
        (resp : Data.LeaderBoardResponse) :
  recorded rev d dateId = Some stats ->
  data_GetLeaderBoard rev d dateId = Ok resp ->
  StronglySorted (fun a b => Data.WPM b <= Data.WPM a)
                 (Data.LeaderboardEntries resp)
  /\ Permutation stats (Data.LeaderboardEntries resp).
Proof.
  destruct rev; cbv [recorded data_GetLeaderBoard store] in *.
  - unfold DataSqlite.GetLeaderBoard.
    destruct (d !! dateId) as [r|]; [|discriminate].
    intros [= <-] [= <-]. simpl. split.
    + apply ordered_byWPM, sort_Slice_ordered, byWPM_strict_weak.
    + apply sort_Slice_perm.
  - unfold DataBadger.GetLeaderBoard.
    destruct (DataBadger.getValue_entry d (DataBadger.storePrefix ++ dateId))
      as [e|]; [|discriminate].
    intros [= <-] [= <-]. simpl. split.
    + apply ordered_byWPM, sort_Slice_ordered, byWPM_strict_weak.
    + apply sort_Slice_perm.
Qed.

Lemma leaderboard_is_sorted_by_wpm_witness :
  recorded Badger badgerTie today
  = Some [entry "u1" "alice" 50; entry "u2" "bobby" 50]
  /\ exists resp,
      @data_GetLeaderBoard stableSort Badger badgerTie today = Ok resp
      /\ StronglySorted (fun a b => Data.WPM b <= Data.WPM a)
                        (Data.LeaderboardEntries resp)
      /\ Permutation [entry "u1" "alice" 50; entry "u2" "bobby" 50]
                     (Data.LeaderboardEntries resp).
Proof.
  assert (recorded Badger badgerTie today
          = Some [entry "u1" "alice" 50; entry "u2" "bobby" 50]) as Hrec
      by (vm_compute; reflexivity).
  split; [exact Hrec|].
  eexists. split; [vm_compute; reflexivity|].
  apply (@leaderboard_is_sorted_by_wpm stableSort Badger badgerTie today);
    [exact Hrec|vm_compute; reflexivity].
Defined.

(** C3 as the spec has it fails.  Twelve users submit the same score one
    after the other and a thirteenth a higher one.  [sort.Slice] takes
    the seventh entry as pivot, exchanges it with the first, exchanges the
    second with the last, and puts the pivot in the second place: on the
    leaderboard the seventh user stands before the first, and the second
    user is last. *)
Lemma leaderboard_ties_may_change_places :
  recorded Badger badgerThirteen today = Some thirteenEntries
  /\ GoSort.Slice Data.byWPM thirteenEntries = Some thirteenSorted
  /\ @DataBadger.GetLeaderBoard goSort badgerThirteen today
     = Ok {| Data.resp_DateID := today;
             Data.LeaderboardEntries := thirteenSorted |}
  /\ ~ keeps_tie_order thirteenEntries thirteenSorted.
Proof.
  split; [vm_compute; reflexivity|].
  split; [vm_compute; reflexivity|].
  split; [vm_compute; reflexivity|].
  intros Hstable. specialize (Hstable 50).
  vm_compute in Hstable. discriminate Hstable.
Defined.

(** Up to twelve entries [sort.Slice] is an insertion sort, and the two
    users of [badgerTie] stay in the order they submitted. *)
Example two_ties_stay_in_place :
  GoSort.Slice Data.byWPM [entry "u1" "alice" 50; entry "u2" "bobby" 50]
  = Some [entry "u1" "alice" 50; entry "u2" "bobby" 50]
  /\ @DataBadger.GetLeaderBoard goSort badgerTie today
     = Ok {| Data.resp_DateID := today;
             Data.LeaderboardEntries :=
               [entry "u1" "alice" 50; entry "u2" "bobby" 50] |}.
Proof. split; vm_compute; reflexivity. Qed.

(** An ID that is not well-formed UTF-8 is not found again in the Badger
    store, which keeps it with U+FFFD in place of the offending byte: the
    user counts as not having played, and a second submission is
    accepted. *)
Example badger_ill_formed_id_plays_twice :
  let userID := lit "u" ++ [ascii_of_nat 255] in
  let stored := lit "u" ++ Utf8.replacement in
  let '(d1, err1) :=
    DataBadger.SubmitSentence badgerDay today userID (lit "alice") 50 in
  let '(d2, err2) :=
    DataBadger.SubmitSentence d1 today userID (lit "alice") 70 in
  err1 = None
  /\ DataBadger.GetUserChallengeStatus d1 today userID = Ok false
  /\ err2 = None
  /\ recorded Badger d2 today
     = Some [{| Data.UserID := stored; Data.Username := lit "alice";
                Data.WPM := 50 |};
             {| Data.UserID := stored; Data.Username := lit "alice";
                Data.WPM := 70 |}].
Proof. vm_compute. repeat split; reflexivity. Qed.

(** ** Reading a date that has no record *)

(** C5 as the spec has it fails in the SQLite revision: with no row for
    the date both reading functions return an error. *)
Lemma sqlite_reads_fail_without_a_row :
  DataSqlite.GetUserChallengeStatus ∅ today (lit "u1")
  = Err (Errorf "failed to get value")
  /\ @DataSqlite.GetLeaderBoard stableSort ∅ today
     = Err (Errorf "failed to get value").
Proof. split; reflexivity. Defined.

(** C5, as the code has it.  For a date with no record the Badger
    revision answers "not played" and an empty leaderboard, without error;
    the SQLite revision answers with an error from both functions; and in
    both revisions the commands that call them turn the answer into "not
    played" and an empty list of entries. *)
Theorem reads_without_a_record `{SortSlice} (dateId userID : gostring) :
  (forall d : DataBadger.db,
      recorded Badger d dateId = None ->
      DataBadger.GetUserChallengeStatus d dateId userID = Ok false
      /\ DataBadger.GetLeaderBoard d dateId
         = Ok {| Data.resp_DateID := dateId; Data.LeaderboardEntries := [] |})
  /\ (forall d : DataSqlite.db,
         recorded SQLite d dateId = None ->
         is_ok (DataSqlite.GetUserChallengeStatus d dateId userID) = false
         /\ is_ok (DataSqlite.GetLeaderBoard d dateId) = false)
  /\ (forall (rev : revision) (d : store rev),
         recorded rev d dateId = None ->
         fetchUserDailyChallengeStatus rev d dateId userID
         = userDailyChallengeStatusReceivedMsg false
         /\ exists dateID,
             fetchTodaysLeaderBoard rev d dateId
             = leaderboardReceivedMsg dateID []).
Proof.
  assert (forall d : DataBadger.db,
             recorded Badger d dateId = None ->
             exists e, DataBadger.getValue_entry d
                         (DataBadger.storePrefix ++ dateId) = Err e) as Hb.
  { cbv [recorded store]. intros d Hd.
    destruct (DataBadger.getValue_entry d _); [discriminate|eauto]. }
  assert (forall d : DataSqlite.db,
             recorded SQLite d dateId = None -> d !! dateId = None) as Hs.
  { cbv [recorded store]. intros d Hd.
    destruct (d !! dateId); [discriminate|reflexivity]. }
  split; [|split].
  - intros d Hd. destruct (Hb d Hd) as [e He].
    unfold DataBadger.GetUserChallengeStatus, DataBadger.GetLeaderBoard.
    now rewrite He.
  - intros d Hd. apply Hs in Hd.
    unfold DataSqlite.GetUserChallengeStatus, DataSqlite.GetLeaderBoard.
    now rewrite Hd.
  - intros [|] d Hd;
      unfold fetchUserDailyChallengeStatus, fetchTodaysLeaderBoard;
      cbv [data_GetUserChallengeStatus data_GetLeaderBoard].
    + apply Hs in Hd.
      unfold DataSqlite.GetUserChallengeStatus, DataSqlite.GetLeaderBoard.
      cbv [store] in *. rewrite Hd. eauto.
    + destruct (Hb d Hd) as [e He].
      unfold DataBadger.GetUserChallengeStatus, DataBadger.GetLeaderBoard.
      cbv [store] in *. rewrite He. simpl. eauto.
Qed.

Lemma reads_without_a_record_witness :
  recorded Badger (∅ : DataBadger.db) today = None
  /\ recorded SQLite (∅ : DataSqlite.db) today = None
  /\ DataBadger.GetUserChallengeStatus ∅ today (lit "u1") = Ok false
  /\ @DataBadger.GetLeaderBoard stableSort ∅ today
     = Ok {| Data.resp_DateID := today; Data.LeaderboardEntries := [] |}
  /\ @fetchTodaysLeaderBoard stableSort SQLite ∅ today
     = leaderboardReceivedMsg [] [].
Proof.
  assert (recorded Badger (∅ : DataBadger.db) today = None) as Hb
      by reflexivity.
  assert (recorded SQLite (∅ : DataSqlite.db) today = None) as Hs
      by reflexivity.
  destruct (@reads_without_a_record stableSort today (lit "u1"))
    as (Hbadger & _ & Hcmd).
  destruct (Hbadger ∅ Hb) as [H1 H2].
  destruct (Hcmd SQLite ∅ Hs) as [_ [dateID H3]].
  repeat split; try assumption.
Defined.

(** ** Publishing twice *)

(** C6 as the spec has it fails in the Badger revision: publishing for a
    date that has a sentence, and a submission, replaces the sentence. *)
Lemma badger_publishing_again_replaces_the_sentence :
  let d1 := (DataBadger.SubmitSentence badgerDay today
               (lit "u1") (lit "alice") 50).1 in
  let d2 := (DataBadger.InsertSentence d1 today (lit "jumps over")).1 in
  DataBadger.GetTodaysSentence d1 today = Ok (lit "the quick brown fox")
  /\ recorded Badger d1 today = Some [entry "u1" "alice" 50]
  /\ DataBadger.GetTodaysSentence d2 today = Ok (lit "jumps over").
Proof. vm_compute. repeat split; reflexivity. Defined.

(** C6, as the code has it.  Publishing for a date that has a record
    leaves the entries of the record as they are, in both revisions.  The
    SQLite revision refuses the insert and changes nothing, the sentence
    included; the Badger revision stores the new sentence in place of the
    old one, as JSON keeps it: the text itself when it is well-formed
    UTF-8, and with U+FFFD for every byte that is not. *)
Theorem publishing_again_keeps_the_entries (dateId sentence' : gostring) :
  (forall (d : DataBadger.db) (stats : list Data.LeaderBoardEntry),
      recorded Badger d dateId = Some stats ->
      exists d',
        DataBadger.InsertSentence d dateId sentence' = (d', None)
        /\ recorded Badger d' dateId = Some stats
        /\ DataBadger.GetTodaysSentence d' dateId
           = Ok (Json.stored_string sentence')
        /\ (Utf8.valid sentence' = true ->
            DataBadger.GetTodaysSentence d' dateId = Ok sentence'))
  /\ (forall (d : DataSqlite.db) (stats : list Data.LeaderBoardEntry),
         recorded SQLite d dateId = Some stats ->
         DataSqlite.InsertSentence d dateId sentence'
         = (d, Some (Errorf "failed to insert sentence"))).
Proof.
  split.
  - cbv [recorded store]. intros d stats Hd.
    destruct (DataBadger.getValue_entry d (DataBadger.storePrefix ++ dateId))
      as [e|] eqn:He; [|discriminate].
    injection Hd as <-.
    assert (DataBadger.getValue_entry
              (DataBadger.setValue d (DataBadger.sentencePrefix ++ dateId)
                                   (DataBadger.JString sentence'))
              (DataBadger.storePrefix ++ dateId) = Ok e) as He'.
    { unfold DataBadger.getValue_entry, DataBadger.setValue in *.
      rewrite lookup_insert_ne; [exact He|].
      intros E. symmetry in E.
      now apply BadgerFacts.store_key_not_sentence_key in E. }
    unfold DataBadger.InsertSentence. rewrite He'.
    eexists. split; [reflexivity|]. rewrite He'. split; [reflexivity|].
    assert (DataBadger.GetTodaysSentence
              (DataBadger.setValue d (DataBadger.sentencePrefix ++ dateId)
                                   (DataBadger.JString sentence')) dateId
            = Ok (Json.stored_string sentence')) as Hread.
    { unfold DataBadger.GetTodaysSentence, DataBadger.getValue_string,
        DataBadger.setValue.
      now rewrite lookup_insert_eq. }
    split; [exact Hread|].
    intros Hv. now rewrite Hread, stored_string_valid.
  - cbv [recorded store]. intros d stats Hd.
    unfold DataSqlite.InsertSentence.
    destruct (d !! dateId); [reflexivity|discriminate].
Qed.

Lemma publishing_again_keeps_the_entries_witness :
  let d1 := (DataBadger.SubmitSentence badgerDay today
               (lit "u1") (lit "alice") 50).1 in
  recorded Badger d1 today = Some [entry "u1" "alice" 50]
  /\ exists d2,
      DataBadger.InsertSentence d1 today (lit "jumps over") = (d2, None)
      /\ recorded Badger d2 today = Some [entry "u1" "alice" 50]
      /\ DataBadger.GetTodaysSentence d2 today = Ok (lit "jumps over").
Proof.
  intros d1.
  assert (recorded Badger d1 today = Some [entry "u1" "alice" 50]) as Hrec
      by (vm_compute; reflexivity).
  split; [exact Hrec|].
  destruct (proj1 (publishing_again_keeps_the_entries today
                     (lit "jumps over")) d1 _ Hrec)
    as (d2 & Hi & Hkeep & _ & Hread).
  exists d2. split; [exact Hi|]. split; [exact Hkeep|].
  apply Hread. reflexivity.
Defined.

(** ** The score *)

(** C4 fails in the SQLite revision.  A tick that reads the clock at the
    value the session started with divides by zero minutes: the quotient
    is the float infinity, and the score on display is overwritten with
    whatever the platform makes of converting it (the least [int64] on
    amd64).  The Badger revision tests the minutes first and keeps the
    score. *)
Theorem sqlite_tick_divides_by_zero_minutes :
  let m := inProgress (lit "abc") (lit "ab") 1000 40 in
  let env := fst (at_time 1000 tickMsg) in
  (forall P : Platform,
      @Update latin1 plainInput P SQLite env m tickMsg
      = Some (set_WPM m (@int_of_unrepresentable P (S754_infinity false)),
              tickCmd))
  /\ @Update latin1 plainInput amd64 SQLite env m tickMsg
     = Some (set_WPM m (- 2 ^ 63), tickCmd)
  /\ @Update latin1 plainInput amd64 Badger env m tickMsg = Some (m, tickCmd).
Proof.
  intros m env. split; [|split].
  - intros P. vm_compute. reflexivity.
  - vm_compute. reflexivity.
  - vm_compute. reflexivity.
Qed.

Section Score.

Context `{Unicode} `{TextInput} `{Platform}.

Lemma minutesSince_start (m : model) :
  Float64.gt_zero (minutesSince m (startTime m)) = false.
Proof. unfold minutesSince. rewrite Z.sub_diag. reflexivity. Qed.

(** The guard of the Badger revision: at zero minutes the score stays. *)
Lemma badger_tick_keeps_score_at_zero_minutes env m m' c :
  clock1 env = startTime m ->
  Update Badger env m tickMsg = Some (m', c) ->
  WPM m' = WPM m.
Proof.
  intros Hclock. simpl. unfold Update_tick.
  rewrite Hclock, minutesSince_start.
  intros Hu. repeat case_match; simplify_eq/=; reflexivity.
Qed.

(** The guard of the Badger revision: without positive minutes the
    score stays. *)
Lemma badger_tick_guard env m m' c :
  Float64.gt_zero (minutesSince m (clock1 env)) = false ->
  Update Badger env m tickMsg = Some (m', c) ->
  WPM m' = WPM m.
Proof.
  intros Hg. simpl. unfold Update_tick. rewrite Hg.
  intros Hu. repeat case_match; simplify_eq/=; reflexivity.
Qed.

Lemma byteval_inj (a b : ascii) : byteval a = byteval b -> a = b.
Proof.
  unfold byteval. intros E. apply N2Z.inj in E.
  rewrite <- (ascii_N_embedding a), <- (ascii_N_embedding b). now rewrite E.
Qed.

Lemma matching_nil_r (typed : gostring) : matching typed [] = 0.
Proof. now destruct typed. Qed.

Lemma countCorrect_ascii (target : gostring) :
  all_ascii target ->
  forall typed, all_ascii typed ->
  forall fuel k, (length typed <= fuel)%nat ->
    countCorrect target (Utf8.range_from fuel (Z.of_nat k) typed)
    = Some (matching typed (drop k target)).
Proof.
  intros Ht. induction 1 as [|b typed Hb Htyped IH]; intros fuel k Hfuel.
  - destruct fuel; reflexivity.
  - destruct fuel as [|fuel]; [simpl in Hfuel; lia|].
    cbn [Utf8.range_from]. rewrite DecodeRune_ascii by assumption.
    cbn [drop countCorrect].
    replace (Z.of_nat k + Z.of_nat 1) with (Z.of_nat (S k)) by lia.
    rewrite IH by (simpl in Hfuel; lia). rewrite Nat2Z.id.
    destruct (Z.of_nat k <? len target) eqn:Hk.
    + apply Z.ltb_lt in Hk. unfold len in Hk.
      destruct (lookup_lt_is_Some_2 target k ltac:(lia)) as [t Hlk].
      rewrite runes_ascii by assumption.
      rewrite list_lookup_fmap, Hlk. cbn [fmap option_fmap option_map].
      rewrite (drop_S _ _ _ Hlk). cbn [matching]. f_equal.
      destruct (byteval b =? byteval t) eqn:E.
      * apply Z.eqb_eq, byteval_inj in E. subst.
        rewrite bool_decide_eq_true_2 by reflexivity. lia.
      * apply Z.eqb_neq in E.
        rewrite bool_decide_eq_false_2 by (intros ->; now apply E). lia.
    + apply Z.ltb_ge in Hk. unfold len in Hk.
      rewrite !drop_ge by lia. now rewrite !matching_nil_r.
Qed.

(** On ASCII texts the count of the tick handler is the number of typed
    positions that agree with the target. *)
Lemma totalCorrectCharactersTyped_ascii m :
  all_ascii (textUserTyped m) -> all_ascii (textToType m) ->
  totalCorrectCharactersTyped m
  = Some (matching (textUserTyped m) (textToType m)).
Proof.
  intros Hty Htg. unfold totalCorrectCharactersTyped, Utf8.range.
  exact (countCorrect_ascii _ Htg _ Hty _ 0%nat (le_n _)).
Qed.

Lemma binary_round_aux_unsigned mx ex lx :
  unsigned_or_nan (binary_round_aux Float64.prec Float64.emax false mx ex lx).
Proof.
  unfold binary_round_aux.
  destruct (shr_fexp _ _ mx ex lx) as [mrs' e'].
  destruct (shr_fexp _ _ _ e' loc_Exact) as [mrs'' e''].
  destruct (shr_m mrs''); simpl; [exact I| |exact I].
  destruct (_ <=? _); reflexivity.
Qed.

Lemma of_int_unsigned (n : Z) : 0 <= n -> unsigned_or_nan (Float64.of_int n).
Proof.
  intros Hn. unfold Float64.of_int, binary_normalize.
  destruct n as [|p|p]; [exact I| |lia].
  unfold binary_round. destruct (shl_align _ _ _) as [mz ez].
  apply binary_round_aux_unsigned.
Qed.

Lemma div_unsigned (x y : Float64.float64) :
  unsigned_or_nan x -> Float64.gt_zero y = true ->
  unsigned_or_nan (Float64.div x y).
Proof.
  unfold Float64.gt_zero, SFltb, SFcompare.
  destruct y as [sy|sy| |sy my ey]; try discriminate;
    destruct sy; try discriminate; intros Hx _;
    destruct x as [sx|sx| |sx mx ex]; simpl in *; subst; try exact I;
      try reflexivity.
  destruct (SFdiv_core_binary _ _ _ _ _ _) as [[mz ez] lz].
  apply binary_round_aux_unsigned.
Qed.

Lemma representable_unsigned (x : Float64.float64) (z : Z) :
  unsigned_or_nan x -> Float64.representable x = Some z -> 0 <= z.
Proof.
  unfold Float64.representable, Float64.trunc.
  destruct x as [s|s| |s m e]; intros Hx; try discriminate.
  - vm_compute. intros [= <-]. discriminate.
  - simpl in Hx. subst s.
    destruct (_ && _); [|discriminate]. intros [= <-].
    destruct (0 <=? e) eqn:He.
    + apply Z.mul_nonneg_nonneg; [lia|]. apply Z.pow_nonneg. lia.
    + apply Z.leb_gt in He. apply Z.div_pos; [lia|].
      apply Z.pow_pos_nonneg; lia.
Qed.

(** With positive minutes the score is not negative, unless the quotient
    is beyond what the integer type holds. *)
Lemma wpmOf_not_negative (n : Z) (minutes : Float64.float64) (z : Z) :
  0 <= n -> Float64.gt_zero minutes = true ->
  Float64.representable
    (Float64.div (Float64.div (Float64.of_int n) (Float64.of_int 5)) minutes)
  = Some z ->
  wpmOf n minutes = z /\ 0 <= z.
Proof.
  intros Hn Hm Hz. unfold wpmOf, Float64Conv.to_int. rewrite Hz.
  split; [reflexivity|].
  eapply representable_unsigned; [|exact Hz].
  apply div_unsigned; [|exact Hm].
  apply div_unsigned; [now apply of_int_unsigned|reflexivity].
Qed.

End Score.

(** Seven correct characters after six seconds: the quotient of the
    floats is just under 14, and the score is 13. *)
Example score_cat_sat :
  let m := inProgress (lit "cat sat") (lit "cat sat") 0 0 in
  let env := fst (at_time 6000000000 tickMsg) in
  totalCorrectCharactersTyped m = Some 7
  /\ @Update latin1 plainInput amd64 Badger env m tickMsg
     = Some (set_hasUserAlreadyDoneDailyChallenge (set_WPM m 13) true,
             submitSentenceCmd (lit "key") (lit "player") 13).
Proof. vm_compute. split; reflexivity. Qed.

(** ** The typing display *)

Lemma errorBefore_S (target typed : list rune) (n : nat) :
  errorBefore target typed (S n)
  = errorBefore target typed n || mismatch target typed n.
Proof.
  unfold errorBefore. rewrite seq_S, existsb_app. simpl.
  now rewrite orb_false_r.
Qed.

Lemma renderFrom_without_line_breaks (target typed : list rune) :
  ~ In 10 target ->
  forall n i,
    (i + n = length target)%nat ->
    renderFrom typed i
               (errorBefore target typed (Nat.min i (length typed)))
               false (drop i target)
    = map (fun k => Styled (styleBySpec target typed k) (nth k target 0))
          (seq i n).
Proof.
  intros Hnl. induction n as [|n IH]; intros i Hi.
  - rewrite drop_ge by lia. reflexivity.
  - assert (i < length target)%nat as Hlt by lia.
    destruct (lookup_lt_is_Some_2 target i Hlt) as [char Hchar].
    rewrite (drop_S _ _ _ Hchar).
    assert (nth i target 0 = char) as Hnth by (now apply nth_lookup_Some with (d := 0) in Hchar).
    assert ((char =? 10) = false) as Hc.
    { apply Z.eqb_neq. intros ->. apply Hnl.
      apply list_elem_of_In. eapply list_elem_of_lookup_2; eauto. }
    cbn [renderFrom seq map]. rewrite Hc.
    specialize (IH (S i) ltac:(lia)).
    unfold styleBySpec at 1. rewrite errorBefore_S, Hnth.
    destruct (Nat.ltb i (length typed)) eqn:Hty.
    + apply Nat.ltb_lt in Hty.
      rewrite Nat.min_l in * by lia.
      rewrite errorBefore_S in IH.
      unfold mismatch in *. rewrite Hnth in *.
      destruct (errorBefore target typed i) eqn:Hfe; cbn [orb] in *.
      * now rewrite IH.
      * destruct (nth i typed 0 =? char) eqn:Heq; cbn [negb] in *.
        -- apply Z.eqb_eq in Heq. rewrite Heq. now rewrite IH.
        -- now rewrite IH.
    + apply Nat.ltb_ge in Hty.
      rewrite Nat.min_r in * by lia.
      destruct (Nat.eqb i (length typed)); now rewrite IH.
Qed.

Lemma errorShownBefore_S (target typed : list rune) (n : nat) :
  errorShownBefore target typed (S n)
  = errorShownBefore target typed n || mismatchShown target typed n.
Proof.
  unfold errorShownBefore. rewrite seq_S, existsb_app. simpl.
  now rewrite orb_false_r.
Qed.

Lemma line_breaks_up_to (target : list rune) (tl i : nat) :
  (tl <= i)%nat ->
  forallb (lineBreakAt target) (seq tl (S i - tl))
  = forallb (lineBreakAt target) (seq tl (i - tl)) && lineBreakAt target i.
Proof.
  intros Hle. replace (S i - tl)%nat with (S (i - tl)) by lia.
  rewrite seq_S, forallb_app. simpl.
  replace (tl + (i - tl))%nat with i by lia. now rewrite andb_true_r.
Qed.

(** The loop of [renderTypingTest], position by position, on every
    target: the two flags it carries are the error seen so far and "the
    typed text ended at a line break, and only line breaks came since". *)
Lemma renderFrom_every_target (target typed : list rune) :
  forall n i,
    (i + n = length target)%nat ->
    map (fun p => match p with LineBreak => None | Styled s _ => Some s end)
        (renderFrom typed i
           (errorShownBefore target typed (Nat.min i (length typed)))
           (Nat.ltb (length typed) i
            && forallb (lineBreakAt target)
                       (seq (length typed) (i - length typed)))
           (drop i target))
    = map (styleByCode target typed) (seq i n).
Proof.
  induction n as [|n IH]; intros i Hi.
  - rewrite drop_ge by lia. reflexivity.
  - assert (i < length target)%nat as Hlt by lia.
    destruct (lookup_lt_is_Some_2 target i Hlt) as [char Hchar].
    rewrite (drop_S _ _ _ Hchar).
    assert (nth i target 0 = char) as Hnth
        by (now apply nth_lookup_Some with (d := 0) in Hchar).
    assert (lineBreakAt target i = (char =? 10)) as Hlb
        by (unfold lineBreakAt; now rewrite Hnth).
    assert (mismatchShown target typed i
            = negb (char =? 10) && negb (nth i typed 0 =? char)) as Hms
        by (unfold mismatchShown, mismatch; now rewrite Hlb, Hnth).
    specialize (IH (S i) ltac:(lia)).
    cbn [renderFrom seq map].
    unfold styleByCode at 1, cursorAt. rewrite Hlb.
    destruct (lt_eq_lt_dec i (length typed)) as [[Hty|Hty]|Hty].
    + (* a typed position *)
      replace (Nat.ltb (length typed) i) with false
        by (symmetry; apply Nat.ltb_ge; lia).
      replace (Nat.ltb (length typed) (S i)) with false in IH
        by (symmetry; apply Nat.ltb_ge; lia).
      replace (Nat.eqb i (length typed)) with false
        by (symmetry; apply Nat.eqb_neq; lia).
      replace (Nat.ltb i (length typed)) with true
        by (symmetry; apply Nat.ltb_lt; lia).
      rewrite Nat.min_l in * by lia.
      rewrite errorShownBefore_S, Hms in *.
      cbn [andb] in *.
      destruct (char =? 10) eqn:Hc; cbn [negb andb map] in *.
      * rewrite orb_false_r in IH. now rewrite IH.
      * destruct (errorShownBefore target typed i) eqn:Hfe; cbn [orb] in *.
        -- cbn [map]. now rewrite IH.
        -- destruct (nth i typed 0 =? char) eqn:Heq; cbn [negb map] in *;
             now rewrite IH.
    + (* the position after the typed text *)
      subst i.
      rewrite Nat.ltb_irrefl, Nat.eqb_refl, Nat.leb_refl, Nat.sub_diag.
      cbn [andb seq forallb].
      replace (Nat.ltb (length typed) (S (length typed))) with true in IH
        by (symmetry; apply Nat.ltb_lt; lia).
      rewrite Nat.min_r in IH by lia. rewrite Nat.min_id.
      rewrite line_breaks_up_to in IH by lia.
      rewrite Nat.sub_diag, Hlb in IH. cbn [seq forallb andb] in IH.
      destruct (char =? 10) eqn:Hc; cbn [map]; now rewrite IH.
    + (* beyond it *)
      replace (Nat.ltb (length typed) i) with true
        by (symmetry; apply Nat.ltb_lt; lia).
      replace (Nat.ltb (length typed) (S i)) with true in IH
        by (symmetry; apply Nat.ltb_lt; lia).
      replace (Nat.eqb i (length typed)) with false
        by (symmetry; apply Nat.eqb_neq; lia).
      replace (Nat.ltb i (length typed)) with false
        by (symmetry; apply Nat.ltb_ge; lia).
      replace (Nat.leb (length typed) i) with true
        by (symmetry; apply Nat.leb_le; lia).
      rewrite Nat.min_r in * by lia.
      rewrite line_breaks_up_to, Hlb in IH by lia.
      cbn [andb] in *.
      destruct (char =? 10) eqn:Hc; cbn [map].
      * rewrite andb_true_r in IH. now rewrite IH.
      * rewrite andb_false_r in IH.
        destruct (forallb (lineBreakAt target)
                          (seq (length typed) (i - length typed)));
          cbn [map]; now rewrite IH.
Qed.

(** C9, as the code has it.  On every target the styles are those of
    [styleByCode]: a line break of the target is written bare and is not
    compared with what was typed; a typed position that is no line break is
    [Incorrect] from the first mismatch at such a position on and [Correct]
    before it; the first position at or after the end of the typed text
    that is no line break is [Current]; the rest is [Untyped].  On a target
    without line breaks that is the rule of the spec, and "abd" typed
    against "abc" reads Correct, Correct, Incorrect. *)
Theorem classification_of_every_target :
  (forall target typed : gostring,
      classification target typed
      = map (styleByCode (Utf8.runes target) (Utf8.runes typed))
            (seq 0 (length (Utf8.runes target))))
  /\ (forall target typed : gostring,
         ~ In 10 (Utf8.runes target) ->
         classification target typed
         = map (fun k => Some (styleBySpec (Utf8.runes target)
                                           (Utf8.runes typed) k))
               (seq 0 (length (Utf8.runes target))))
  /\ classification (lit "abc") (lit "abd")
     = [Some Correct; Some Correct; Some Incorrect].
Proof.
  split; [|split; [|reflexivity]].
  - intros target typed. unfold classification, renderTypingTest.
    pose proof (renderFrom_every_target
                  (Utf8.runes target) (Utf8.runes typed)
                  (length (Utf8.runes target)) 0%nat eq_refl) as Hr.
    rewrite drop_0 in Hr.
    cbn [Nat.min errorShownBefore seq existsb Nat.ltb Nat.leb andb] in Hr.
    exact Hr.
  - intros target typed Hnl. unfold classification, renderTypingTest.
    pose proof (renderFrom_without_line_breaks
                  (Utf8.runes target) (Utf8.runes typed) Hnl
                  (length (Utf8.runes target)) 0%nat eq_refl) as Hr.
    rewrite drop_0 in Hr.
    cbn [Nat.min errorBefore seq existsb] in Hr. rewrite Hr.
    rewrite map_map. reflexivity.
Qed.

Lemma classification_of_every_target_witness :
  ~ In 10 (Utf8.runes (lit "abcd"))
  /\ classification (lit "abcd") (lit "xb")
     = [Some Incorrect; Some Incorrect; Some Current; Some Untyped]
  /\ classification (lit "a" ++ [newline; newline] ++ lit "b") (lit "a")
     = [Some Correct; None; None; Some Current]
  /\ classification (lit "a" ++ [newline]) (lit "a") = [Some Correct; None].
Proof.
  assert (~ In 10 (Utf8.runes (lit "abcd"))) as Hnl.
  { vm_compute. intros [E|[E|[E|[E|[]]]]]; discriminate E. }
  split; [exact Hnl|]. split; [|split].
  - rewrite (proj1 (proj2 classification_of_every_target) _ _ Hnl).
    reflexivity.
  - rewrite (proj1 classification_of_every_target). reflexivity.
  - rewrite (proj1 classification_of_every_target). reflexivity.
Defined.

(** C9 as the spec has it fails on a target with a line break.  After
    "a" is typed against "a", line break, "b", the position after the
    typed text is the line break: it is written bare, and the position
    after it is the one marked [Current], not [Untyped]. *)
Lemma line_break_takes_the_current_mark :
  let target := lit "a" ++ [newline] ++ lit "b" in
  exists m,
    run Badger (sessionWith target) [at_time 10 (key "a")] = Some m
    /\ textUserTyped m = lit "a"
    /\ classification (textToType m) (textUserTyped m)
       = [Some Correct; None; Some Current]
    /\ classification (textToType m) (textUserTyped m) !! 1%nat
       <> Some (Some Current).
Proof.
  intros target. eexists. split; [vm_compute; reflexivity|].
  split; [reflexivity|]. split; [reflexivity|]. discriminate.
Defined.

(** ** What else the handler does *)

(** With an empty target (the sentence could not be fetched) a key that is
    not printable starts the session, and the next tick submits. *)
Example unprintable_key_starts_the_session :
  exists m,
    run Badger (sessionWith []) [at_time 10 (key "$")] = Some m
    /\ Update Badger (fst (at_time 20 tickMsg)) m tickMsg
       = Some (set_hasUserAlreadyDoneDailyChallenge m true,
               submitSentenceCmd (lit "key") (lit "player") 0)
    /\ Update Badger (fst (at_time 20 tickMsg)) (sessionWith []) tickMsg
       = Some (sessionWith [], tickCmd).
Proof. eexists. repeat split; vm_compute; reflexivity. Qed.

(** Against a target of two two-byte characters the third key indexes the
    runes of the target out of range. *)
Example multibyte_target_panics :
  run Badger (sessionWith (e_acute ++ e_acute))
      [at_time 10 (key "a"); at_time 20 (key "b")]
  = Some (set_textUserTyped
            (set_didUserStartTyping
               (set_startTime (sessionWith (e_acute ++ e_acute)) 10) true)
            (lit "ab"))
  /\ run Badger (sessionWith (e_acute ++ e_acute))
         [at_time 10 (key "a"); at_time 20 (key "b"); at_time 30 (key "c")]
     = None.
Proof. split; vm_compute; reflexivity. Qed.

(** * More properties of the store *)

Section StoreMore.

Context `{SortSlice}.

Import Data.

Lemma store_keys_inj (d1 d2 : gostring) :
  DataBadger.storePrefix ++ d1 = DataBadger.storePrefix ++ d2 -> d1 = d2.
Proof. apply app_inv_head. Qed.

Lemma sentence_keys_inj (d1 d2 : gostring) :
  DataBadger.sentencePrefix ++ d1 = DataBadger.sentencePrefix ++ d2 ->
  d1 = d2.
Proof. apply app_inv_head. Qed.

(** What the Badger revision has on record for a date after a submission
    that was accepted: the record it had with the new entry at the end,
    written anew as JSON. *)
Lemma badger_accepted_record (d d' : DataBadger.db)
      (dateId userID username : gostring) (wpm : Z) :
  DataBadger.SubmitSentence d dateId userID username wpm = (d', None) ->
  exists stats,
    recorded Badger d' dateId
    = Some (map Json.stored_entry
                (stats ++ [{| UserID := userID; Username := username;
                              WPM := wpm |}]))
    /\ ~ In userID (map UserID stats)
    /\ (recorded Badger d dateId = Some stats
        \/ (recorded Badger d dateId = None /\ stats = [])).
Proof.
  cbv [recorded store]. unfold DataBadger.SubmitSentence.
  destruct (DataBadger.getValue_entry d (DataBadger.storePrefix ++ dateId))
    as [e|err] eqn:He; cbn [UserStats DateID].
  - destruct (hasUser userID (UserStats e)) eqn:Hh; [discriminate|].
    intros [= <-]. exists (UserStats e).
    unfold DataBadger.getValue_entry, DataBadger.setValue.
    rewrite lookup_insert_eq.
    cbn [DataBadger.marshal Json.stored_record UserStats].
    split; [reflexivity|]. split; [|now left].
    rewrite <- hasUser_In. congruence.
  - cbn [hasUser existsb]. intros [= <-]. exists [].
    unfold DataBadger.getValue_entry, DataBadger.setValue.
    rewrite lookup_insert_eq.
    cbn [DataBadger.marshal Json.stored_record UserStats app].
    split; [reflexivity|]. split; [intros []|now right].
Qed.


(** X2.  Submitting for a date that has no record: the SQLite revision
    returns an error and leaves the table as it is; the Badger revision
    accepts, and the record it makes holds the one entry, as JSON keeps it
    (the entry itself when user ID and name are well-formed UTF-8). *)
Theorem submission_without_a_record (dateId userID username : gostring)
        (wpm : Z) :
  (forall d : DataSqlite.db,
      recorded SQLite d dateId = None ->
      data_SubmitSentence SQLite d dateId userID username wpm
      = (d, Some (Errorf "failed to get value")))
  /\ (forall d : DataBadger.db,
         recorded Badger d dateId = None ->
         exists d',
           data_SubmitSentence Badger d dateId userID username wpm
           = (d', None)
           /\ recorded Badger d' dateId
              = Some [Json.stored_entry
                        {| UserID := userID; Username := username;
                           WPM := wpm |}]
           /\ (Utf8.valid userID = true ->
               Utf8.valid username = true ->
               recorded Badger d' dateId
               = Some [{| UserID := userID; Username := username;
                          WPM := wpm |}])).
Proof.
  split.
  - cbv [recorded store data_SubmitSentence]. intros d Hd.
    unfold DataSqlite.SubmitSentence.
    destruct (d !! dateId); [discriminate|reflexivity].
  - intros d Hd. cbv [data_SubmitSentence].
    pose proof (BadgerFacts.SubmitSentence_first d dateId userID username
                                                 wpm Hd) as Hf.
    destruct (DataBadger.SubmitSentence d dateId userID username wpm)
      as [d' err] eqn:Hs.
    exists d'. split; [|split; [exact Hf|]].
    2:{ intros Hvu Hvn. cbn [fst] in Hf. rewrite Hf.
        now rewrite stored_entry_valid. }
    unfold DataBadger.SubmitSentence in Hs.
    cbv [recorded store] in Hd.
    destruct (DataBadger.getValue_entry d (DataBadger.storePrefix ++ dateId));
      [discriminate|].
    cbn [UserStats hasUser existsb] in Hs. now injection Hs as <- <-.
Qed.

Lemma badger_lookup_other_date (d : DataBadger.db) (date1 date2 : gostring)
      (prefix1 prefix2 : gostring) (v : DataBadger.json) :
  date1 <> date2 ->
  prefix1 = DataBadger.storePrefix \/ prefix1 = DataBadger.sentencePrefix ->
  prefix2 = DataBadger.storePrefix \/ prefix2 = DataBadger.sentencePrefix ->
  DataBadger.setValue d (prefix1 ++ date1) v !! (prefix2 ++ date2)
  = d !! (prefix2 ++ date2).
Proof.
  intros Hne H1 H2. unfold DataBadger.setValue.
  apply lookup_insert_ne.
  destruct H1 as [-> | ->], H2 as [-> | ->]; intros E.
  - now apply store_keys_inj in E.
  - now apply BadgerFacts.store_key_not_sentence_key in E.
  - symmetry in E. now apply BadgerFacts.store_key_not_sentence_key in E.
  - now apply sentence_keys_inj in E.
Qed.

Lemma getValue_string_same (d : DataBadger.db) (k s : gostring) :
  DataBadger.getValue_string
    (DataBadger.setValue d k (DataBadger.JString s)) k
  = Ok (Json.stored_string s).
Proof.
  unfold DataBadger.getValue_string, DataBadger.setValue.
  now rewrite lookup_insert_eq.
Qed.

Lemma getValue_entry_same (d : DataBadger.db) (k : gostring) (e : DBEntry) :
  DataBadger.getValue_entry
    (DataBadger.setValue d k (DataBadger.JEntry e)) k
  = Ok (Json.stored_record e).
Proof.
  unfold DataBadger.getValue_entry, DataBadger.setValue.
  now rewrite lookup_insert_eq.
Qed.

Lemma getValue_string_other (d : DataBadger.db) (k k' : gostring)
      (v : DataBadger.json) :
  k <> k' ->
  DataBadger.getValue_string (DataBadger.setValue d k v) k'
  = DataBadger.getValue_string d k'.
Proof.
  intros Hk. unfold DataBadger.getValue_string, DataBadger.setValue.
  now rewrite lookup_insert_ne.
Qed.

Lemma getValue_entry_other (d : DataBadger.db) (k k' : gostring)
      (v : DataBadger.json) :
  k <> k' ->
  DataBadger.getValue_entry (DataBadger.setValue d k v) k'
  = DataBadger.getValue_entry d k'.
Proof.
  intros Hk. unfold DataBadger.getValue_entry, DataBadger.setValue.
  now rewrite lookup_insert_ne.
Qed.

(** X3.  The dates do not touch each other: a submission or a published
    sentence for one date changes neither the record nor the sentence of
    another date, in both revisions. *)
Theorem other_dates_are_untouched (rev : revision) (d : store rev)
        (date1 date2 userID username sentence' : gostring) (wpm : Z) :
  date1 <> date2 ->
  let d1 := (data_SubmitSentence rev d date1 userID username wpm).1 in
  let d2 := (data_InsertSentence rev d date1 sentence').1 in
  recorded rev d1 date2 = recorded rev d date2
  /\ data_GetTodaysSentence rev d1 date2 = data_GetTodaysSentence rev d date2
  /\ recorded rev d2 date2 = recorded rev d date2
  /\ data_GetTodaysSentence rev d2 date2 = data_GetTodaysSentence rev d date2.
Proof.
  intros Hne.
  destruct rev;
    cbv [recorded store data_SubmitSentence data_InsertSentence
         data_GetTodaysSentence] in *; cbv zeta.
  - unfold DataSqlite.SubmitSentence, DataSqlite.InsertSentence,
      DataSqlite.GetTodaysSentence.
    destruct (d !! date1) as [r|]; cbn [fst];
      rewrite ?lookup_insert_ne by assumption; auto.
  - unfold DataBadger.SubmitSentence, DataBadger.InsertSentence,
      DataBadger.GetTodaysSentence, DataBadger.getValue_string.
    assert (forall p1 p2 v,
               p1 = DataBadger.storePrefix \/ p1 = DataBadger.sentencePrefix ->
               p2 = DataBadger.storePrefix \/ p2 = DataBadger.sentencePrefix ->
               DataBadger.setValue d (p1 ++ date1) v !! (p2 ++ date2)
               = d !! (p2 ++ date2)) as Hother
        by (intros; now apply badger_lookup_other_date).
    repeat split.
    + destruct (DataBadger.getValue_entry d (DataBadger.storePrefix ++ date1));
        cbn [UserStats]; destruct (hasUser _ _); cbn [fst]; try reflexivity;
          unfold DataBadger.getValue_entry; rewrite Hother; auto.
    + destruct (DataBadger.getValue_entry d (DataBadger.storePrefix ++ date1));
        cbn [UserStats]; destruct (hasUser _ _); cbn [fst]; try reflexivity;
          rewrite Hother; auto.
    + destruct (DataBadger.getValue_entry _ (DataBadger.storePrefix ++ date1));
        cbn [fst]; unfold DataBadger.getValue_entry;
          rewrite ?badger_lookup_other_date; auto.
    + destruct (DataBadger.getValue_entry _ (DataBadger.storePrefix ++ date1));
        cbn [fst]; rewrite ?badger_lookup_other_date; auto.
Qed.

(** X4.  A sentence that [InsertSentence] accepted is the one
    [GetTodaysSentence] returns for that date, as the store keeps it: the
    sentence itself when it is well-formed UTF-8 (and always in the SQLite
    revision, whose column keeps the bytes); in the Badger revision, whose
    document is JSON, with U+FFFD for every byte that is not.  The date has
    a record from then on: the entries it had, or none. *)
Theorem published_sentence_is_read_back (rev : revision) (d d' : store rev)
        (dateId sentence' : gostring) :
  data_InsertSentence rev d dateId sentence' = (d', None) ->
  data_GetTodaysSentence rev d' dateId = Ok (asStored rev sentence')
  /\ (Utf8.valid sentence' = true ->
      data_GetTodaysSentence rev d' dateId = Ok sentence')
  /\ exists stats,
      recorded rev d' dateId = Some stats
      /\ (recorded rev d dateId = Some stats
          \/ (recorded rev d dateId = None /\ stats = [])).
Proof.
  intros Hi.
  assert (data_GetTodaysSentence rev d' dateId = Ok (asStored rev sentence')
          /\ exists stats,
              recorded rev d' dateId = Some stats
              /\ (recorded rev d dateId = Some stats
                  \/ (recorded rev d dateId = None /\ stats = [])))
    as [Hread Hrec];
    [|split; [exact Hread|split; [|exact Hrec]];
      intros Hv; now rewrite Hread, asStored_valid].
  revert Hi.
  destruct rev;
    cbv [recorded store data_InsertSentence data_GetTodaysSentence asStored]
      in *.
  - unfold DataSqlite.InsertSentence, DataSqlite.GetTodaysSentence.
    destruct (d !! dateId) eqn:Hd; [discriminate|]. intros [= <-].
    rewrite lookup_insert_eq. cbn. split; [reflexivity|].
    exists []. split; [reflexivity|]. right. auto.
  - unfold DataBadger.InsertSentence, DataBadger.GetTodaysSentence.
    rewrite getValue_entry_other
      by (intros E; symmetry in E;
          now apply BadgerFacts.store_key_not_sentence_key in E).
    destruct (DataBadger.getValue_entry d (DataBadger.storePrefix ++ dateId))
      as [e|err] eqn:He; intros [= <-].
    + rewrite getValue_string_same. split; [reflexivity|].
      rewrite getValue_entry_other
        by (intros E; symmetry in E;
            now apply BadgerFacts.store_key_not_sentence_key in E).
      rewrite He. eauto.
    + rewrite getValue_string_other
        by apply BadgerFacts.store_key_not_sentence_key.
      rewrite getValue_string_same. split; [reflexivity|].
      rewrite getValue_entry_same. cbn. eauto.
Qed.

(** X5.  "Has played" and the leaderboard agree: when both functions
    answer, the status of a user is true exactly when the leaderboard has
    an entry of that user, in both revisions. *)
Theorem status_agrees_with_leaderboard (rev : revision) (d : store rev)
        (dateId userID : gostring) (played : bool)
        (resp : LeaderBoardResponse) :
  data_GetUserChallengeStatus rev d dateId userID = Ok played ->
  data_GetLeaderBoard rev d dateId = Ok resp ->
  (played = true <-> In userID (map UserID (LeaderboardEntries resp))).
Proof.
  assert (forall stats,
             hasUser userID stats = true
             <-> In userID (map UserID (sort_Slice byWPM stats))) as Hperm.
  { intros stats. rewrite hasUser_In.
    pose proof (Permutation_map UserID (sort_Slice_perm _ byWPM stats)) as Hp.
    split; intros Hin.
    - eapply Permutation_in; eauto.
    - eapply Permutation_in; [symmetry; exact Hp|exact Hin]. }
  destruct rev;
    cbv [store data_GetUserChallengeStatus data_GetLeaderBoard] in *.
  - unfold DataSqlite.GetUserChallengeStatus, DataSqlite.GetLeaderBoard.
    destruct (d !! dateId) as [r|]; [|discriminate].
    intros [= <-] [= <-]. apply Hperm.
  - unfold DataBadger.GetUserChallengeStatus, DataBadger.GetLeaderBoard.
    destruct (DataBadger.getValue_entry d (DataBadger.storePrefix ++ dateId))
      as [e|err]; intros [= <-] [= <-]; [apply Hperm|].
    cbn. split; [discriminate|intros []].
Qed.

(** What the Badger [InsertSentence] leaves behind. *)
Lemma badger_InsertSentence_reads (d : DataBadger.db)
      (dateId sentence' : gostring) :
  let d' := (DataBadger.InsertSentence d dateId sentence').1 in
  DataBadger.GetTodaysSentence d' dateId = Ok (Json.stored_string sentence')
  /\ (forall stats, recorded Badger d dateId = Some stats ->
                    recorded Badger d' dateId = Some stats)
  /\ (recorded Badger d dateId = None -> recorded Badger d' dateId = Some []).
Proof.
  cbv [recorded store]. cbv zeta.
  unfold DataBadger.InsertSentence, DataBadger.GetTodaysSentence.
  rewrite getValue_entry_other
    by (intros E; symmetry in E;
        now apply BadgerFacts.store_key_not_sentence_key in E).
  destruct (DataBadger.getValue_entry d (DataBadger.storePrefix ++ dateId))
    as [e|err] eqn:He; cbn [fst].
  - rewrite getValue_string_same.
    rewrite getValue_entry_other
      by (intros E; symmetry in E;
          now apply BadgerFacts.store_key_not_sentence_key in E).
    rewrite He. repeat split; auto. discriminate.
  - rewrite getValue_string_other
      by apply BadgerFacts.store_key_not_sentence_key.
    rewrite getValue_string_same, getValue_entry_same.
    repeat split; auto. discriminate.
Qed.

(** X6.  Badger revision, at start-up: [InitInMemoryStore] keeps the
    sentence of the day when there is one, stores the one the quote
    service answers when there is none (as JSON keeps it: the sentence
    itself when it is well-formed UTF-8), and never loses the entries on
    record; when the service fails too, the store stays as it is. *)
Theorem InitInMemoryStore_fills_only_what_is_missing (d : DataBadger.db)
        (dateId : gostring) (longSentence : result gostring) :
  let d' := InitInMemoryStore d dateId longSentence in
  (forall sentence', DataBadger.GetTodaysSentence d dateId = Ok sentence' ->
                     d' = d)
  /\ (forall sentence',
         is_ok (DataBadger.GetTodaysSentence d dateId) = false ->
         longSentence = Ok sentence' ->
         DataBadger.GetTodaysSentence d' dateId
         = Ok (Json.stored_string sentence')
         /\ (Utf8.valid sentence' = true ->
             DataBadger.GetTodaysSentence d' dateId = Ok sentence'))
  /\ (is_ok (DataBadger.GetTodaysSentence d dateId) = false ->
      is_ok longSentence = false -> d' = d)
  /\ (forall stats, recorded Badger d dateId = Some stats ->
                    recorded Badger d' dateId = Some stats).
Proof.
  cbv zeta. unfold InitInMemoryStore.
  pose proof (fun s => badger_InsertSentence_reads d dateId s) as Hins.
  destruct (DataBadger.GetTodaysSentence d dateId) as [s0|err0];
    cbn [is_ok].
  - repeat split; auto; discriminate.
  - destruct longSentence as [s|err]; cbn [is_ok].
    + destruct (Hins s) as (Hread & Hkeep & _).
      split; [discriminate|]. split; [|split; [discriminate|exact Hkeep]].
      intros s' _ [= <-]. split; [exact Hread|].
      intros Hv. now rewrite Hread, stored_string_valid.
    + repeat split; auto; discriminate.
Qed.

(** X7.  A new day: when the job of midnight gets a sentence and the date
    has no record yet, the sentence command answers with that sentence (as
    the store keeps it: the sentence itself when it is well-formed UTF-8),
    the status command with "not played" for every user, and the
    leaderboard command with no entries, in both revisions. *)
Theorem a_new_day_starts_empty (rev : revision) (d : store rev)
        (dateId sentence' userID : gostring) :
  recorded rev d dateId = None ->
  let d' := dailyJob rev d dateId (Ok sentence') in
  getRandomSentence rev d' dateId
  = randomSentenceReceivedMsg (asStored rev sentence')
  /\ (Utf8.valid sentence' = true ->
      getRandomSentence rev d' dateId = randomSentenceReceivedMsg sentence')
  /\ fetchUserDailyChallengeStatus rev d' dateId userID
     = userDailyChallengeStatusReceivedMsg false
  /\ fetchTodaysLeaderBoard rev d' dateId = leaderboardReceivedMsg dateId [].
Proof.
  intros Hnone. cbv zeta.
  assert (getRandomSentence rev (dailyJob rev d dateId (Ok sentence')) dateId
          = randomSentenceReceivedMsg (asStored rev sentence')
          /\ fetchUserDailyChallengeStatus
               rev (dailyJob rev d dateId (Ok sentence')) dateId userID
             = userDailyChallengeStatusReceivedMsg false
          /\ fetchTodaysLeaderBoard
               rev (dailyJob rev d dateId (Ok sentence')) dateId
             = leaderboardReceivedMsg dateId []) as (Hsent & Hstat & Hlb);
    [|split; [exact Hsent|split; [|split; assumption]];
      intros Hv; now rewrite Hsent, asStored_valid].
  unfold dailyJob.
  destruct rev;
    unfold getRandomSentence, fetchUserDailyChallengeStatus,
      fetchTodaysLeaderBoard;
    cbv [recorded store data_InsertSentence data_GetTodaysSentence
         data_GetUserChallengeStatus data_GetLeaderBoard asStored] in *.
  - unfold DataSqlite.InsertSentence, DataSqlite.GetTodaysSentence,
      DataSqlite.GetUserChallengeStatus, DataSqlite.GetLeaderBoard.
    destruct (d !! dateId) eqn:Hd; [discriminate|]. cbn [fst].
    rewrite lookup_insert_eq. cbn.
    assert (sort_Slice byWPM (@nil LeaderBoardEntry) = []) as ->.
    { apply Permutation_nil. apply sort_Slice_perm. }
    repeat split; reflexivity.
  - destruct (badger_InsertSentence_reads d dateId sentence')
      as (Hread & _ & Hrec).
    cbv [recorded store] in Hrec.
    assert (DataBadger.getValue_entry d (DataBadger.storePrefix ++ dateId)
            = DataBadger.getValue_entry d (DataBadger.storePrefix ++ dateId))
      as _ by reflexivity.
    destruct (DataBadger.getValue_entry d (DataBadger.storePrefix ++ dateId))
      eqn:He; [discriminate|].
    specialize (Hrec eq_refl). rewrite Hread.
    unfold DataBadger.GetUserChallengeStatus, DataBadger.GetLeaderBoard.
    destruct (DataBadger.getValue_entry
                (DataBadger.InsertSentence d dateId sentence').1
                (DataBadger.storePrefix ++ dateId)) as [e'|];
      [|discriminate].
    injection Hrec as Hrec. rewrite Hrec. cbn.
    assert (sort_Slice byWPM (@nil LeaderBoardEntry) = []) as ->.
    { apply Permutation_nil. apply sort_Slice_perm. }
    repeat split; reflexivity.
Qed.

End StoreMore.

Lemma InitInMemoryStore_fills_only_what_is_missing_witness :
  let d' := InitInMemoryStore ∅ today (Ok (lit "the quick brown fox")) in
  is_ok (DataBadger.GetTodaysSentence ∅ today) = false
  /\ DataBadger.GetTodaysSentence d' today = Ok (lit "the quick brown fox")
  /\ InitInMemoryStore d' today (Ok (lit "jumps over")) = d'.
Proof.
  intros d'.
  assert (is_ok (DataBadger.GetTodaysSentence ∅ today) = false) as Hnone
      by reflexivity.
  split; [exact Hnone|].
  destruct (InitInMemoryStore_fills_only_what_is_missing
              ∅ today (Ok (lit "the quick brown fox")))
    as (_ & Hfill & _).
  pose proof (proj2 (Hfill _ Hnone eq_refl) eq_refl) as Hread.
  split; [exact Hread|].
  destruct (InitInMemoryStore_fills_only_what_is_missing
              d' today (Ok (lit "jumps over")))
    as (Hkeep & _).
  exact (Hkeep _ Hread).
Defined.

Lemma a_new_day_starts_empty_witness :
  recorded SQLite (∅ : DataSqlite.db) today = None
  /\ @fetchTodaysLeaderBoard stableSort SQLite
       (dailyJob SQLite ∅ today (Ok (lit "the quick brown fox"))) today
     = leaderboardReceivedMsg today [].
Proof.
  assert (recorded SQLite (∅ : DataSqlite.db) today = None) as Hnone
      by reflexivity.
  split; [exact Hnone|].
  exact (proj2 (proj2 (proj2 (@a_new_day_starts_empty stableSort SQLite ∅
                                today (lit "the quick brown fox") (lit "u1")
                                Hnone)))).
Defined.

(** * More properties of the session *)

Section SessionMore.

Context `{Unicode} `{TextInput} `{Platform}.

Ltac zprop :=
  repeat match goal with
         | E : (_ <? _) = true |- _ => apply Z.ltb_lt in E
         | E : (_ <? _) = false |- _ => apply Z.ltb_ge in E
         | E : (_ <=? _) = true |- _ => apply Z.leb_le in E
         | E : (_ <=? _) = false |- _ => apply Z.leb_gt in E
         | E : (_ =? _) = true |- _ => apply Z.eqb_eq in E
         | E : (_ =? _) = false |- _ => apply Z.eqb_neq in E
         end.

Lemma Update_page_cmd m key m' c :
  Update_page m key = Some (Some (m', c)) -> c = nilCmd.
Proof.
  unfold Update_page. intros Hp. repeat case_match; congruence.
Qed.

(** The commands a key may answer with. *)
Lemma Update_key_cmd rev env m key m' c :
  Update_key rev env m key = Some (m', c) ->
  c = Quit \/ c = nilCmd \/ c = textinputCmd.
Proof.
  assert (forall m' c, Update_key_rest rev env m key = Some (m', c) ->
                       c = nilCmd \/ c = textinputCmd) as Hrest.
  { unfold Update_key_rest. intros m1 c1 Hu.
    destruct (negb (userSetUsername m)).
    - injection Hu as Hu. unfold Update_username in Hu.
      repeat case_match; injection Hu as <- <-; auto.
    - case_bool_decide.
      + injection Hu as Hu.
        destruct (Update_backspace_spec m) as [E|[_ E]]; rewrite E in Hu;
          injection Hu as <- <-; auto.
      + destruct key as [|b [|b' key']]; try (injection Hu as <- <-; auto).
        apply Update_char_spec in Hu as (-> & _). auto. }
  unfold Update_key. intros Hu.
  case_bool_decide; [injection Hu as <- <-; auto|].
  destruct rev; [right; eauto|].
  destruct (hasUserAlreadyDoneDailyChallenge m); [|right; eauto].
  destruct (Update_page m key) as [[[mp cp]|]|] eqn:Hp; try discriminate.
  - injection Hu as <- <-. apply Update_page_cmd in Hp. auto.
  - right; eauto.
Qed.

(** A key leaves the "done" flag, the user's key and the leaderboard
    alone. *)
Lemma Update_key_done rev env m key m' c :
  Update_key rev env m key = Some (m', c) ->
  hasUserAlreadyDoneDailyChallenge m' = hasUserAlreadyDoneDailyChallenge m.
Proof.
  intros Hu. apply Update_key_branch in Hu.
  destruct Hu as [? -> ?|p ? ? [->| ->]|? Hu|? -> Hu|b ? -> Hu|? ? ? -> ?];
    try reflexivity.
  - unfold Update_username in Hu. repeat case_match; injection Hu as -> _;
      reflexivity.
  - destruct (Update_backspace_spec m) as [E|[Ht E]]; rewrite E in Hu;
      now injection Hu as -> ->.
  - unfold Update_char in Hu. repeat case_match; simplify_eq/=; reflexivity.
Qed.

(** What a submit command tells about the step that issued it. *)
Lemma Update_submit rev env m msg m' c :
  Update rev env m msg = Some (m', c) ->
  cmdCount isSubmit c <> O ->
  msg = tickMsg
  /\ hasUserAlreadyDoneDailyChallenge m = false
  /\ hasUserAlreadyDoneDailyChallenge m' = true
  /\ textUserTyped m' = textToType m'
  /\ c = submitSentenceCmd (userPublicKey m') (username m') (WPM m').
Proof.
  destruct msg; simpl; intros Hu Hc;
    try (repeat case_match; simplify_eq/=; now contradiction Hc).
  - unfold Update_tick in Hu.
    repeat case_match; simplify_eq/=; try now contradiction Hc.
    all: match goal with
         | E : didUserFinishTyping _ && negb _ = true |- _ =>
           apply andb_true_iff in E as [Ef Ed];
             apply didUserFinishTyping_eq in Ef;
             apply negb_true_iff in Ed
         end; simpl in *; auto.
  - apply Update_key_cmd in Hu as [->|[->| ->]]; now contradiction Hc.
Qed.

(** Once done, always done, and no further submit. *)
Lemma Update_done_stays rev env m msg m' c :
  keeps_done (env, msg) ->
  hasUserAlreadyDoneDailyChallenge m = true ->
  Update rev env m msg = Some (m', c) ->
  hasUserAlreadyDoneDailyChallenge m' = true /\ cmdCount isSubmit c = O.
Proof.
  intros Hk Hd Hu.
  assert (cmdCount isSubmit c = O) as Hc.
  { destruct (cmdCount isSubmit c) eqn:E; [reflexivity|].
    destruct (Update_submit _ _ _ _ _ _ Hu) as (_ & Hd' & _); congruence. }
  split; [|exact Hc].
  destruct msg; cbv [keeps_done snd] in Hk; simpl in Hu;
    try (repeat case_match; simplify_eq/=; first [assumption|reflexivity]).
  - unfold Update_tick in Hu. repeat case_match; simplify_eq/=; auto.
  - now rewrite (Update_key_done _ _ _ _ _ _ Hu).
Qed.


(** What a key never touches, and what it leaves alone once the name is
    set. *)
Lemma Update_char_frame env m b m' c :
  Update_char env m b = Some (m', c) ->
  userPublicKey m' = userPublicKey m
  /\ entriesPerPage m' = entriesPerPage m
  /\ LeaderboardEntries m' = LeaderboardEntries m
  /\ currentPage m' = currentPage m
  /\ userSetUsername m' = userSetUsername m
  /\ username m' = username m.
Proof.
  unfold Update_char. intros Hu.
  repeat case_match; simplify_eq/=; repeat split; reflexivity.
Qed.

Lemma Update_key_frame rev env m key m' c :
  Update_key rev env m key = Some (m', c) ->
  userPublicKey m' = userPublicKey m
  /\ entriesPerPage m' = entriesPerPage m
  /\ LeaderboardEntries m' = LeaderboardEntries m
  /\ (userSetUsername m = true ->
      userSetUsername m' = true /\ username m' = username m)
  /\ (userSetUsername m' = true ->
      validUsername rev (username m') = true
      \/ (userSetUsername m = true /\ username m' = username m))
  /\ (didUserStartTyping m' = true ->
      didUserStartTyping m = true \/ userSetUsername m = true).
Proof.
  intros Hu. apply Update_key_branch in Hu.
  destruct Hu as [? -> ?|p ? ? [->| ->]|Hn Hu|Hn -> Hu|b Hn -> Hu|Hn ? ? -> ?];
    try (repeat split; simpl; auto; congruence).
  - unfold Update_username in Hu.
    repeat case_match; injection Hu as -> _; simpl;
      repeat split; auto; try congruence.
  - destruct (Update_backspace_spec m) as [E|[Ht E]]; rewrite E in Hu;
      injection Hu as -> ->; simpl; repeat split; auto.
  - apply Update_char_frame in Hu as (-> & -> & -> & _ & -> & ->).
    repeat split; auto.
Qed.

Lemma Update_frame rev env m msg m' c :
  Update rev env m msg = Some (m', c) ->
  userPublicKey m' = userPublicKey m
  /\ entriesPerPage m' = entriesPerPage m
  /\ (userSetUsername m = true ->
      userSetUsername m' = true /\ username m' = username m)
  /\ (userSetUsername m' = true ->
      validUsername rev (username m') = true
      \/ (userSetUsername m = true /\ username m' = username m))
  /\ (didUserStartTyping m' = true ->
      didUserStartTyping m = true \/ userSetUsername m = true).
Proof.
  destruct msg; simpl; intros Hu;
    try (repeat case_match; simplify_eq/=; repeat split; now auto).
  - unfold Update_tick in Hu.
    repeat case_match; simplify_eq/=; repeat split;
      first [now auto|intros; congruence].
  - apply Update_key_frame in Hu as (? & ? & ? & ? & ? & ?). auto.
Qed.

(** A name that is set stays as it is. *)
Lemma run_name_stays rev events :
  forall m m',
    userSetUsername m = true ->
    run rev m events = Some m' ->
    userSetUsername m' = true /\ username m' = username m.
Proof.
  induction events as [|[env msg] events IH]; simpl; intros m m' Hn Hr.
  - now injection Hr as <-.
  - destruct (Update rev env m msg) as [[m1 c1]|] eqn:Hu; [|discriminate].
    apply Update_frame in Hu as (_ & _ & Hs & _).
    destruct (Hs Hn) as [Hn1 He1].
    destruct (IH _ _ Hn1 Hr) as [? ?]. split; congruence.
Qed.

(** What holds of every model a session reaches from a model of
    [NewModelWithStyles]. *)
Lemma run_session_invariant rev events :
  forall m m',
    (userSetUsername m = true -> validUsername rev (username m) = true) ->
    (didUserStartTyping m = true -> userSetUsername m = true) ->
    run rev m events = Some m' ->
    userPublicKey m' = userPublicKey m
    /\ entriesPerPage m' = entriesPerPage m
    /\ (userSetUsername m' = true -> validUsername rev (username m') = true)
    /\ (didUserStartTyping m' = true -> userSetUsername m' = true).
Proof.
  induction events as [|[env msg] events IH]; simpl; intros m m' Hv Hs Hr.
  - injection Hr as <-. auto.
  - destruct (Update rev env m msg) as [[m1 c1]|] eqn:Hu; [|discriminate].
    apply Update_frame in Hu as (Hk & Hp & Hn & Hv1 & Hs1).
    destruct (IH m1 m') as (? & ? & ? & ?); auto.
    + intros Hn1. destruct (Hv1 Hn1) as [?|[? E]]; [assumption|].
      rewrite E. auto.
    + intros Hd. destruct (Hs1 Hd) as [?|?]; [apply Hn; auto|apply Hn; auto].
    + repeat split; auto; congruence.
Qed.

Lemma commands_done rev events :
  forall m cmds,
    Forall keeps_done events ->
    hasUserAlreadyDoneDailyChallenge m = true ->
    commands rev m events = Some cmds ->
    list_sum (map (cmdCount isSubmit) cmds) = O.
Proof.
  induction events as [|[env msg] events IH]; simpl; intros m cmds Hk Hd Hc.
  - now injection Hc as <-.
  - apply Forall_cons in Hk as [Hk Hks].
    destruct (Update rev env m msg) as [[m1 c1]|] eqn:Hu; [|discriminate].
    destruct (commands rev m1 events) as [cs|] eqn:Hcs; [|discriminate].
    injection Hc as <-.
    destruct (Update_done_stays _ _ _ _ _ _ Hk Hd Hu) as [Hd1 Hc1].
    simpl. rewrite Hc1, (IH _ _ Hks Hd1 Hcs). reflexivity.
Qed.

Lemma run_done rev events :
  forall m m',
    Forall keeps_done events ->
    hasUserAlreadyDoneDailyChallenge m = true ->
    run rev m events = Some m' ->
    hasUserAlreadyDoneDailyChallenge m' = true.
Proof.
  induction events as [|[env msg] events IH]; simpl; intros m m' Hk Hd Hr.
  - now injection Hr as <-.
  - apply Forall_cons in Hk as [Hk Hks].
    destruct (Update rev env m msg) as [[m1 c1]|] eqn:Hu; [|discriminate].
    destruct (Update_done_stays _ _ _ _ _ _ Hk Hd Hu) as [Hd1 _]. eauto.
Qed.

(** X8. A session submits its score at most once: along any sequence of
    messages in which no status message says "not played", [Update] returns
    at most one [submitSentenceCmd], batches included; and from a model
    whose challenge is done it returns none, and [View] stays on the
    leaderboard. *)
Theorem a_score_is_submitted_once rev m events cmds :
  Forall keeps_done events ->
  commands rev m events = Some cmds ->
  (list_sum (map (cmdCount isSubmit) cmds) <= 1)%nat
  /\ (hasUserAlreadyDoneDailyChallenge m = true ->
      list_sum (map (cmdCount isSubmit) cmds) = O
      /\ forall m', run rev m events = Some m' -> View m' = leaderboardScreen).
Proof.
  intros Hk Hc. split.
  - revert m cmds Hk Hc.
    induction events as [|[env msg] events IH]; simpl; intros m cmds Hk Hc.
    + injection Hc as <-. simpl. lia.
    + apply Forall_cons in Hk as [Hk Hks].
      destruct (Update rev env m msg) as [[m1 c1]|] eqn:Hu; [|discriminate].
      destruct (commands rev m1 events) as [cs|] eqn:Hcs; [|discriminate].
      injection Hc as <-. simpl.
      destruct (cmdCount isSubmit c1) as [|n] eqn:Hn.
      * apply (IH _ _ Hks Hcs).
      * destruct (Update_submit _ _ _ _ _ _ Hu) as (_ & _ & Hd1 & _ & Hc1);
          [congruence|].
        rewrite (commands_done _ _ _ _ Hks Hd1 Hcs).
        rewrite Hc1 in Hn. simpl in Hn. lia.
  - intros Hd. split; [apply (commands_done _ _ _ _ Hk Hd Hc)|].
    intros m' Hr. unfold View. now rewrite (run_done _ _ _ _ Hk Hd Hr).
Qed.

(** X9. What a submission carries.  In a session that began with
    [NewModelWithStyles], a step that returns a submit command is a tick
    taken while the challenge was open; the command is not inside a batch,
    and it carries the key of the session, a name that passed the check of
    the revision, and the score of the model that comes back, whose typed
    text is the target and whose challenge is now done. *)
Theorem a_submission_carries_key_name_and_score
        rev input now key events m env msg m' c :
  run rev (NewModelWithStyles input now key) events = Some m ->
  Update rev env m msg = Some (m', c) ->
  cmdCount isSubmit c <> O ->
  msg = tickMsg
  /\ c = submitSentenceCmd key (username m') (WPM m')
  /\ validUsername rev (username m') = true
  /\ textUserTyped m' = textToType m'
  /\ hasUserAlreadyDoneDailyChallenge m = false
  /\ hasUserAlreadyDoneDailyChallenge m' = true.
Proof.
  intros Hr Hu Hc.
  destruct (Update_submit _ _ _ _ _ _ Hu Hc) as (-> & Hd & Hd' & Ht & ->).
  apply run_session_invariant in Hr as (Hk & _ & Hv & Hs);
    [|simpl; discriminate..].
  simpl in Hk.
  pose proof (Update_frame _ _ _ _ _ _ Hu) as (Hk' & _ & Hn & _ & _).
  assert (didUserStartTyping m = true) as Hst.
  { simpl in Hu. unfold Update_tick in Hu.
    destruct (didUserStartTyping m); [reflexivity|].
    rewrite Hd in Hu. simpl in Hu. injection Hu as <- Hu. discriminate. }
  destruct (Hn (Hs Hst)) as [Hn' He].
  repeat split; auto.
  - now rewrite Hk', Hk.
  - rewrite He. auto.
Qed.

Lemma Update_key_unnamed rev env m key m' c :
  Update_key rev env m key = Some (m', c) ->
  userSetUsername m' = false ->
  typing_fields m' = typing_fields m
  /\ didUserStartTyping m' = didUserStartTyping m.
Proof.
  intros Hu Hn.
  pose proof (Update_key_frame _ _ _ _ _ _ Hu) as (_ & _ & _ & Hs & _).
  assert (userSetUsername m = false) as Hn0.
  { destruct (userSetUsername m); [|reflexivity].
    destruct Hs as [Hs _]; congruence. }
  apply Update_key_branch in Hu.
  destruct Hu as [? -> ?|p ? ? [->| ->]|_ Hu|? -> Hu|b ? -> Hu|? ? ? -> ?];
    try (split; reflexivity); try congruence.
  pose proof (Update_username_typing rev m key) as Ht.
  now rewrite <- Hu in Ht.
Qed.

(** X10. The name is asked for once.  Once [userSetUsername] holds, no
    message changes it or the name; and as long as it does not hold, keys
    do not reach the typing test: target, typed text, start time, score and
    the "started typing" flag are those before the keys. *)
Theorem the_name_is_asked_once rev m events m' :
  run rev m events = Some m' ->
  (userSetUsername m = true ->
   userSetUsername m' = true /\ username m' = username m)
  /\ (userSetUsername m' = false ->
      Forall is_key_event events ->
      typing_fields m' = typing_fields m
      /\ didUserStartTyping m' = didUserStartTyping m).
Proof.
  intros Hr. split; [intros Hn; exact (run_name_stays _ _ _ _ Hn Hr)|].
  intros Hn Hk. revert m Hr.
  induction Hk as [|[env msg] events [key Hkey] Hk IH]; simpl; intros m Hr.
  - now injection Hr as <-.
  - simpl in Hkey. subst msg.
    destruct (Update rev env m (KeyMsg key)) as [[m1 c1]|] eqn:Hu;
      [|discriminate].
    assert (userSetUsername m1 = false) as Hn1.
    { destruct (userSetUsername m1) eqn:E; [|reflexivity].
      destruct (run_name_stays _ _ _ _ E Hr); congruence. }
    destruct (IH _ Hr) as [Ht Hd].
    destruct (Update_key_unnamed _ _ _ _ _ _ Hu Hn1) as [Ht1 Hd1].
    split; congruence.
Qed.

(** The next character of a target without multi-byte characters, when it
    is printable and no line break, is taken as it is. *)
Lemma Update_char_next env m b rest :
  all_ascii (textToType m) ->
  textToType m = textUserTyped m ++ b :: rest ->
  printable (byteval b) = true ->
  b <> newline ->
  exists m',
    Update_char env m b = Some (m', nilCmd)
    /\ textUserTyped m' = textUserTyped m ++ [b]
    /\ textToType m' = textToType m
    /\ hasUserAlreadyDoneDailyChallenge m' = hasUserAlreadyDoneDailyChallenge m
    /\ didUserStartTyping m' = true.
Proof.
  intros Ha Ht Hp Hb.
  assert (all_ascii (textUserTyped m)) as Hty.
  { apply (all_ascii_prefix _ (textToType m)); [|exact Ha].
    rewrite Ht. now apply prefix_app_r. }
  assert ((len (textUserTyped m) <? len (textToType m)) = true) as Hlt.
  { apply Z.ltb_lt. rewrite Ht, len_app. unfold len. simpl. lia. }
  assert (Utf8.runes (textToType m) !! length (Utf8.runes (textUserTyped m))
          = Some (byteval b)) as Hl.
  { rewrite !runes_ascii by assumption. rewrite Ht, length_map, map_app.
    simpl. apply list_lookup_middle. now rewrite length_map. }
  assert ((byteval b =? 10) = false) as Hnl.
  { apply Z.eqb_neq. intros E. apply Hb. apply byteval_inj.
    rewrite E. reflexivity. }
  unfold Update_char. simpl. rewrite Hp.
  destruct (len (textUserTyped m) =? 0); simpl; rewrite Hlt, Hl, Hnl;
    eexists; (split; [reflexivity|]); simpl; auto.
Qed.

Lemma range_from_length (fuel : nat) :
  forall off s, (length (Utf8.range_from fuel off s) <= fuel)%nat.
Proof.
  induction fuel as [|fuel IH]; intros off s; simpl; [lia|].
  destruct s as [|b t]; [simpl; lia|].
  destruct (Utf8.DecodeRune (b :: t)) as [r w]. simpl.
  specialize (IH (off + Z.of_nat w) (drop w (b :: t))). lia.
Qed.

Lemma runes_length (s : gostring) : (length (Utf8.runes s) <= length s)%nat.
Proof.
  unfold Utf8.runes, Utf8.range. rewrite length_map. apply range_from_length.
Qed.

Lemma range_from_offsets (fuel : nat) :
  forall off s i r, In (i, r) (Utf8.range_from fuel off s) -> off <= i.
Proof.
  induction fuel as [|fuel IH]; intros off s i r; simpl; [tauto|].
  destruct s as [|b t]; [simpl; tauto|].
  destruct (Utf8.DecodeRune (b :: t)) as [r' w]. simpl.
  intros [E|Hin]; [injection E; lia|].
  apply IH in Hin. lia.
Qed.

(** The loop of the tick handler ends without a panic on a target without
    multi-byte characters, whatever was typed. *)
Lemma countCorrect_total (target : gostring) (chars : list (Z * rune)) :
  all_ascii target ->
  (forall i r, In (i, r) chars -> 0 <= i) ->
  exists n, countCorrect target chars = Some n.
Proof.
  intros Ha. induction chars as [|[i r] chars IH]; intros Hoff; simpl.
  - eauto.
  - destruct IH as [n Hn]; [intros; eapply Hoff; right; eauto|].
    destruct (i <? len target) eqn:Hi; [|eauto].
    apply Z.ltb_lt in Hi.
    assert (0 <= i) by (eapply Hoff; left; reflexivity).
    destruct (Utf8.runes target !! Z.to_nat i) as [r'|] eqn:Hl.
    + rewrite Hn. eauto.
    + apply lookup_ge_None in Hl.
      pose proof (len_runes_ascii _ Ha) as Hlen. unfold len in *. lia.
Qed.

Lemma Update_tick_total rev env m :
  all_ascii (textToType m) ->
  exists m' c, Update_tick rev env m = Some (m', c).
Proof.
  intros Ha. unfold Update_tick.
  destruct (countCorrect_total (textToType m)
              (Utf8.range (textUserTyped m)) Ha) as [n Hn].
  { intros i r Hin. now apply range_from_offsets in Hin. }
  unfold totalCorrectCharactersTyped. rewrite Hn.
  repeat case_match; eauto.
Qed.

Lemma Update_char_total env m b :
  all_ascii (textToType m) ->
  exists m' c, Update_char env m b = Some (m', c).
Proof.
  intros Ha. unfold Update_char.
  pose proof (len_runes_ascii _ Ha) as Hlen.
  pose proof (runes_length (textUserTyped m)) as Hty.
  repeat case_match; eauto; exfalso; simpl in *;
    match goal with
    | Hl : _ !! _ = None, Hlt : (_ <? _) = true |- _ =>
      apply lookup_ge_None in Hl; apply Z.ltb_lt in Hlt; unfold len in *; lia
    end.
Qed.

Lemma Update_total rev env m msg :
  all_ascii (textToType m) ->
  (rev = Badger -> entriesPerPage m <> 0) ->
  exists m' c, Update rev env m msg = Some (m', c).
Proof.
  intros Ha Hp.
  destruct msg as [w h|sentence|success message|b|d es| | |key|]; simpl;
    try (repeat case_match; eauto).
  - now apply Update_tick_total.
  - unfold Update_key.
    assert (exists m' c, Update_key_rest rev env m key = Some (m', c)) as Hrest.
    { unfold Update_key_rest.
      destruct (negb (userSetUsername m));
        [destruct (Update_username rev m key); eauto|].
      case_bool_decide; [destruct (Update_backspace m); eauto|].
      destruct key as [|b [|b' key']]; eauto.
      now apply Update_char_total. }
    case_bool_decide; [eauto|].
    destruct rev; [exact Hrest|].
    destruct (hasUserAlreadyDoneDailyChallenge m); [|exact Hrest].
    unfold Update_page.
    destruct (entriesPerPage m =? 0) eqn:E;
      [apply Z.eqb_eq in E; now destruct Hp|].
    repeat case_match; simplify_eq/=; eauto.
Qed.

(** X11. Typing the sentence submits it.  With the name set, the challenge
    open and nothing typed yet, the keys of a target that has no multi-byte
    characters, only printable ones and no line break, pressed one after the
    other, leave the target as the typed text, and the tick that follows
    returns the submit command, with the key and the name of the model. *)
Theorem typing_the_sentence_submits_it rev m events env :
  userSetUsername m = true ->
  hasUserAlreadyDoneDailyChallenge m = false ->
  textUserTyped m = [] ->
  textToType m <> [] ->
  all_ascii (textToType m) ->
  Forall (fun b => printable (byteval b) = true /\ b <> newline)
         (textToType m) ->
  types (textToType m) events ->
  exists m1 m2,
    run rev m events = Some m1
    /\ textUserTyped m1 = textToType m
    /\ textToType m1 = textToType m
    /\ Update rev env m1 tickMsg
       = Some (m2, submitSentenceCmd (userPublicKey m) (username m) (WPM m2))
    /\ hasUserAlreadyDoneDailyChallenge m2 = true.
Proof.
  intros Hn Hd Hty Hne Ha Hpr Hev.
  assert (forall rest events m,
             types rest events ->
             userSetUsername m = true ->
             hasUserAlreadyDoneDailyChallenge m = false ->
             all_ascii (textToType m) ->
             textToType m = textUserTyped m ++ rest ->
             Forall (fun b => printable (byteval b) = true /\ b <> newline)
                    rest ->
             exists m1,
               run rev m events = Some m1
               /\ textUserTyped m1 = textToType m
               /\ textToType m1 = textToType m
               /\ hasUserAlreadyDoneDailyChallenge m1 = false
               /\ userPublicKey m1 = userPublicKey m
               /\ username m1 = username m
               /\ (rest <> [] -> didUserStartTyping m1 = true)) as Hgen.
  { clear. intros rest events m Hev. revert m.
    induction Hev as [|b [env' msg] rest events Hb Hev IH];
      intros m Hn Hd Ha Ht Hpr.
    - exists m. rewrite app_nil_r in Ht. simpl. repeat split; auto.
    - simpl in Hb. subst msg. apply Forall_cons in Hpr as [[Hp Hnl] Hpr].
      destruct (Update_char_next env' m b rest Ha Ht Hp Hnl)
        as (m1 & Hu & Ht1 & Hg1 & Hd1 & Hs1).
      pose proof (Update_char_frame _ _ _ _ _ Hu)
        as (Hk1 & _ & _ & _ & Hn1 & Hu1).
      cbn [run Update]. rewrite Update_key_char, Hu by assumption.
      destruct (IH m1) as (m2 & Hr & Ht2 & Hg2 & Hd2 & Hk2 & Hu2 & Hs2);
        try congruence.
      { rewrite Hg1, Ht, Ht1, <- app_assoc. reflexivity. }
      exists m2. repeat split; try congruence.
      intros _. destruct rest as [|b' rest'].
      + inversion Hev; subst. simpl in Hr. injection Hr as <-. exact Hs1.
      + rewrite Hs2; [reflexivity|discriminate]. }
  destruct (Hgen (textToType m) events m) as
      (m1 & Hr & Ht1 & Hg1 & Hd1 & Hk1 & Hu1 & Hs1); auto.
  { now rewrite Hty. }
  assert (all_ascii (textToType m1)) as Ha1 by now rewrite Hg1.
  assert (didUserFinishTyping m1 = true) as Hfin.
  { apply didUserFinishTyping_ascii; congruence. }
  destruct (totalCorrectCharactersTyped m1) as [n|] eqn:Hcount.
  2:{ rewrite totalCorrectCharactersTyped_ascii in Hcount; congruence. }
  exists m1. simpl. unfold Update_tick.
  rewrite (Hs1 Hne), Hcount.
  destruct rev.
  - cbn [didUserFinishTyping textUserTyped textToType set_WPM
         hasUserAlreadyDoneDailyChallenge].
    unfold didUserFinishTyping in *. simpl. rewrite Hfin, Hd1. simpl.
    rewrite Hk1, Hu1.
    match goal with
    | |- context [Some (?x, submitSentenceCmd _ _ _) = _] => exists x
    end.
    do 3 (split; [assumption|]). split; reflexivity.
  - destruct (Float64.gt_zero (minutesSince m1 (clock1 env)));
      unfold didUserFinishTyping in *; simpl; rewrite Hfin, Hd1; simpl;
      rewrite Hk1, Hu1;
      match goal with
      | |- context [Some (?x, submitSentenceCmd _ _ _) = _] => exists x
      end;
      do 3 (split; [assumption|]); split; reflexivity.
Qed.

(** X12. Sessions on sentences without multi-byte characters do not panic.
    When the target and every sentence that arrives are ASCII, and (Badger
    revision, whose paging divides by it) [entriesPerPage] is not zero,
    [Update] returns a model and a command for every message of every
    sequence, whatever keys are pressed. *)
Theorem ascii_sessions_do_not_panic rev m events :
  all_ascii (textToType m) ->
  Forall ascii_sentences events ->
  (rev = Badger -> entriesPerPage m <> 0) ->
  exists m' cmds,
    run rev m events = Some m'
    /\ commands rev m events = Some cmds
    /\ length cmds = length events
    /\ all_ascii (textToType m').
Proof.
  intros Ha Hs Hp. revert m Ha Hp.
  induction Hs as [|[env msg] events Hmsg Hs IH]; intros m Ha Hp.
  - exists m, []. simpl. auto.
  - destruct (Update_total rev env m msg Ha Hp) as (m1 & c1 & Hu).
    destruct (IH m1) as (m' & cmds & Hr & Hc & Hl & Ha').
    + destruct msg; try (rewrite (Update_target _ _ _ _ _ _ Hu);
                         [exact Ha|intros; discriminate]).
      simpl in Hu. injection Hu as <- _. exact Hmsg.
    + pose proof (Update_frame _ _ _ _ _ _ Hu) as (_ & -> & _). exact Hp.
    + exists m', (c1 :: cmds). simpl. rewrite Hu, Hr, Hc. simpl.
      repeat split; auto.
Qed.

(** X13. A key and the backspace after it.  When a one-byte key changed
    the typed text, and the text before it did not end in a line break, the
    backspace that follows gives the text back as it was: it takes the
    character, and with it the line break the key had put in front. *)
Theorem backspace_undoes_the_key rev env env' m b m1 c1 :
  Update rev env m (KeyMsg [b]) = Some (m1, c1) ->
  textUserTyped m1 <> textUserTyped m ->
  last (textUserTyped m) <> Some newline ->
  entriesPerPage m <> 0 ->
  exists m2,
    Update rev env' m1 (KeyMsg (lit "backspace")) = Some (m2, nilCmd)
    /\ textUserTyped m2 = textUserTyped m
    /\ textToType m2 = textToType m.
Proof.
  intros Hu Hch Hnl Hp. simpl in Hu.
  pose proof (Update_key_frame _ _ _ _ _ _ Hu) as (_ & Hpp & _).
  pose proof (Update_key_target _ _ _ _ _ _ Hu) as Htg.
  apply Update_key_branch in Hu.
  destruct Hu as [? -> ?|p ? ? [->| ->]|_ Hu|? E Hu|b' Hn E Hu|? ? ? -> ?];
    try (now destruct Hch).
  - pose proof (Update_username_typing rev m [b]) as [Ht _].
    rewrite <- Hu in Ht. simpl in Ht. unfold typing_fields in Ht.
    destruct Hch. congruence.
  - injection E as <-.
    pose proof (Update_char_frame _ _ _ _ _ Hu) as (_ & _ & _ & _ & Hn1 & _).
    apply Update_char_spec in Hu as (_ & _ & _ & _ & [Hs|(_ & _ & Hs)]);
      [now destruct Hch|].
    simpl. rewrite Update_key_backspace by congruence.
    destruct (Update_backspace_spec m1) as [E|[Hnil E]]; rewrite E.
    + eexists. split; [reflexivity|]. simpl. split; [|exact Htg].
      destruct Hs as [-> | [-> | ->]].
      * rewrite backspaced_snoc. now rewrite bool_decide_eq_false_2.
      * rewrite backspaced_snoc. now rewrite bool_decide_eq_false_2.
      * rewrite app_assoc, backspaced_snoc, last_snoc.
        rewrite bool_decide_eq_true_2 by reflexivity. apply dropLast_snoc.
    + exfalso. rewrite Hnil in Hs.
      destruct Hs as [Hs | [Hs | Hs]]; symmetry in Hs;
        apply app_eq_nil in Hs as [_ Hs]; discriminate Hs.
Qed.

Lemma matching_bounds (typed target : gostring) :
  0 <= matching typed target
  /\ matching typed target <= len typed
  /\ matching typed target <= len target.
Proof.
  revert target. induction typed as [|b typed IH]; intros [|t target];
    simpl; unfold len; simpl; try lia.
  specialize (IH target). unfold len in IH. case_bool_decide; lia.
Qed.

Lemma matching_full (typed target : gostring) :
  matching typed target = len typed <-> typed `prefix_of` target.
Proof.
  revert target. induction typed as [|b typed IH]; intros [|t target]; simpl.
  - split; [intros _; apply prefix_nil|reflexivity].
  - split; [intros _; apply prefix_nil|reflexivity].
  - unfold len. simpl. split; [lia|].
    intros Hp. now apply prefix_nil_not in Hp.
  - pose proof (matching_bounds typed target) as (? & ? & ?).
    unfold len in *. simpl. case_bool_decide as Hb.
    + subst t. split.
      * intros E. apply prefix_cons, IH. unfold len. lia.
      * intros Hp. apply prefix_cons_inv_2, IH in Hp. unfold len in Hp. lia.
    + split; [lia|]. intros Hp. now apply prefix_cons_inv_1 in Hp.
Qed.

(** X14. What the tick counts.  On texts without multi-byte characters the
    count of the tick handler is the number of typed positions that hold
    the byte of the target: it is never negative, never more than what was
    typed or than the target is long, and it is the length of what was
    typed exactly when that is the beginning of the target. *)
Theorem the_tick_counts_matching_positions m :
  all_ascii (textUserTyped m) ->
  all_ascii (textToType m) ->
  exists n,
    totalCorrectCharactersTyped m = Some n
    /\ n = matching (textUserTyped m) (textToType m)
    /\ 0 <= n <= len (textUserTyped m)
    /\ n <= len (textToType m)
    /\ (n = len (textUserTyped m)
        <-> textUserTyped m `prefix_of` textToType m).
Proof.
  intros Hty Htg. eexists. split;
    [now apply totalCorrectCharactersTyped_ascii|].
  pose proof (matching_bounds (textUserTyped m) (textToType m)) as (? & ? & ?).
  repeat split; try assumption; apply matching_full; assumption.
Qed.

(** X15. What a poll brings.  Once the challenge is done, a poll message
    makes [Update] fetch the leaderboard once, and the leaderboard that
    arrives is stored and answered with one more poll.  The SQLite revision
    asks for a further poll along with the fetch, so each poll leaves two
    behind; the Badger revision leaves one.  While the challenge is open a
    poll brings nothing. *)
Theorem what_a_poll_brings rev env env' m d es :
  (hasUserAlreadyDoneDailyChallenge m = true ->
   exists m1 c1 m2 c2,
     Update rev env m leaderboardPollMsg = Some (m1, c1)
     /\ cmdCount isFetch c1 = 1%nat
     /\ Update rev env' m1 (leaderboardReceivedMsg d es) = Some (m2, c2)
     /\ cmdCount isFetch c2 = O
     /\ (cmdCount isPoll c1 + cmdCount isPoll c2)%nat
        = match rev with SQLite => 2%nat | Badger => 1%nat end
     /\ LeaderboardEntries m2 = es
     /\ dateID m2 = d
     /\ hasUserAlreadyDoneDailyChallenge m2 = true)
  /\ (hasUserAlreadyDoneDailyChallenge m = false ->
      exists m1,
        Update rev env m leaderboardPollMsg = Some (m1, nilCmd)
        /\ Update rev env' m1 (leaderboardReceivedMsg d es)
           = Some (set_LeaderboardEntries (set_dateID m1 d) es, nilCmd)).
Proof.
  split; intros Hd.
  - destruct rev.
    + exists m, (Batch [fetchTodaysLeaderBoardCmd; leaderboardPollCmd]),
        (set_LeaderboardEntries (set_dateID m d) es), leaderboardPollCmd.
      simpl. rewrite Hd. repeat split.
    + exists (set_countdown m (countdownText env)), fetchTodaysLeaderBoardCmd,
        (set_LeaderboardEntries
           (set_dateID (set_countdown m (countdownText env)) d) es),
        leaderboardPollCmd.
      simpl. rewrite Hd. repeat split.
  - destruct rev; simpl; rewrite Hd; eexists; (split; [reflexivity|]);
      simpl; rewrite Hd; reflexivity.
Qed.

Lemma Update_key_rest_page rev env m key m' c :
  Update_key_rest rev env m key = Some (m', c) ->
  currentPage m' = currentPage m.
Proof.
  unfold Update_key_rest. intros Hu.
  destruct (negb (userSetUsername m)).
  - injection Hu as Hu. unfold Update_username in Hu.
    repeat case_match; injection Hu as <- _; reflexivity.
  - case_bool_decide.
    + injection Hu as Hu.
      destruct (Update_backspace_spec m) as [E|[_ E]]; rewrite E in Hu;
        injection Hu as <- _; reflexivity.
    + destruct key as [|b [|b' key']]; try (injection Hu as <- _; reflexivity).
      now apply Update_char_frame in Hu as (_ & _ & _ & -> & _).
Qed.

(** X16. The paging keys.  In the Badger revision, with [t] pages and the
    current page among them, no key takes the current page out of range or
    changes the entries; once the challenge is done, "left" and "h" go one
    page back unless on the first, "right" and "l" one page on unless on the
    last, "home" and "g" to the first and "end" and "G" to the last, and
    nothing else of the model changes. *)
Theorem paging_keys_stay_in_range env m key m' c t :
  Update Badger env m (KeyMsg key) = Some (m', c) ->
  totalPagesOf m = Some t ->
  0 <= currentPage m < t ->
  (0 <= currentPage m' < t
   /\ totalPagesOf m' = Some t)
  /\ (hasUserAlreadyDoneDailyChallenge m = true ->
      (key = lit "left" \/ key = lit "h" ->
       m' = set_currentPage m (Z.max 0 (currentPage m - 1)))
      /\ (key = lit "right" \/ key = lit "l" ->
          m' = set_currentPage m (Z.min (t - 1) (currentPage m + 1)))
      /\ (key = lit "home" \/ key = lit "g" -> m' = set_currentPage m 0)
      /\ (key = lit "end" \/ key = lit "G" ->
          m' = set_currentPage m (t - 1))).
Proof.
  intros Hu Ht Hr.
  assert (forall p, m' = set_currentPage m p \/ m' = m -> 0 <= p < t ->
                    0 <= currentPage m' < t /\ totalPagesOf m' = Some t) as Hin.
  { intros p [-> | ->] Hp; simpl; auto. }
  assert (forall m, set_currentPage m (currentPage m) = m) as Hid
      by (now intros []).
  simpl in Hu. unfold Update_key in Hu.
  case_bool_decide as Hq.
  { injection Hu as <- <-. subst key.
    split; [auto|]. intros _. repeat split; intros [?|?]; discriminate. }
  destruct (hasUserAlreadyDoneDailyChallenge m) eqn:Hd.
  2:{ split; [|discriminate].
      pose proof (Update_key_frame Badger env m key m' c) as Hf.
      unfold Update_key in Hf. rewrite bool_decide_eq_false_2, Hd in Hf
        by assumption.
      destruct (Hf Hu) as (_ & Hpp & Hle & _).
      apply Update_key_rest_page in Hu.
      unfold totalPagesOf in *. rewrite Hpp, Hle, Hu. auto. }
  unfold Update_page in Hu. unfold totalPagesOf in Ht.
  destruct (entriesPerPage m =? 0) eqn:He; [discriminate|].
  injection Ht as Ht. cbv zeta in Hu. rewrite Ht in Hu.
  assert (forall p, totalPagesOf (set_currentPage m p) = Some t) as Hpres.
  { intros p. unfold totalPagesOf. simpl. rewrite He. now f_equal. }
  assert (totalPagesOf m = Some t) as Ht0.
  { unfold totalPagesOf. rewrite He. now f_equal. }
  assert (forall p, p = currentPage m -> m = set_currentPage m p) as Hsame.
  { intros p ->. symmetry. apply Hid. }
  assert (forall a b : string,
             bool_decide (key = lit a) || bool_decide (key = lit b) = true ->
             key = lit a \/ key = lit b) as Hor.
  { intros a b K. apply orb_true_iff in K as [K|K];
      apply bool_decide_eq_true in K; auto. }
  destruct (bool_decide (key = lit "left") || bool_decide (key = lit "h"))
    eqn:K1.
  { injection Hu as <- <-. apply Hor in K1.
    destruct (0 <? currentPage m) eqn:E; zprop.
    - split; [split; [simpl; lia|apply Hpres]|]. intros _.
      repeat split; intros K;
        try (destruct K1 as [->| ->], K as [K|K]; cbv in K; congruence).
      all: try (now rewrite Z.max_r by lia).
    - split; [split; [lia|exact Ht0]|]. intros _.
      repeat split; intros K;
        try (destruct K1 as [->| ->], K as [K|K]; cbv in K; congruence).
      all: try (apply Hsame; lia). }
  destruct (bool_decide (key = lit "right") || bool_decide (key = lit "l"))
    eqn:K2.
  { injection Hu as <- <-. apply Hor in K2.
    destruct (currentPage m <? t - 1) eqn:E; zprop.
    - split; [split; [simpl; lia|apply Hpres]|]. intros _.
      repeat split; intros K;
        try (destruct K2 as [->| ->], K as [K|K]; cbv in K; congruence).
      all: try (now rewrite Z.min_r by lia).
    - split; [split; [lia|exact Ht0]|]. intros _.
      repeat split; intros K;
        try (destruct K2 as [->| ->], K as [K|K]; cbv in K; congruence).
      all: try (apply Hsame; lia). }
  destruct (bool_decide (key = lit "home") || bool_decide (key = lit "g"))
    eqn:K3.
  { injection Hu as <- <-. apply Hor in K3.
    split; [split; [simpl; lia|apply Hpres]|]. intros _.
    repeat split; intros K;
      destruct K3 as [->| ->], K as [K|K]; cbv in K; congruence. }
  destruct (bool_decide (key = lit "end") || bool_decide (key = lit "G"))
    eqn:K4.
  { injection Hu as <- <-. apply Hor in K4.
    split; [split; [simpl; lia|apply Hpres]|]. intros _.
    repeat split; intros K;
      destruct K4 as [->| ->], K as [K|K]; cbv in K; congruence. }
  pose proof (Update_key_frame Badger env m key m' c) as Hf.
  unfold Update_key in Hf.
  rewrite bool_decide_eq_false_2, Hd in Hf by assumption.
  unfold Update_page in Hf. rewrite He in Hf. cbv zeta in Hf.
  rewrite Ht, K1, K2, K3, K4 in Hf.
  destruct (Hf Hu) as (_ & Hpp & Hle & _).
  apply Update_key_rest_page in Hu.
  split.
  { unfold totalPagesOf in *. rewrite Hpp, Hle, Hu. auto. }
  intros _.
  repeat split; intros [K|K];
    rewrite K in *; simpl in *; discriminate.
Qed.

(** The number of pages is what the entries need. *)
Lemma totalPagesOf_spec m t :
  0 < entriesPerPage m ->
  totalPagesOf m = Some t ->
  1 <= t
  /\ len (LeaderboardEntries m) <= t * entriesPerPage m
  /\ (LeaderboardEntries m <> [] ->
      (t - 1) * entriesPerPage m < len (LeaderboardEntries m)).
Proof.
  intros Hp Ht. unfold totalPagesOf in Ht.
  destruct (entriesPerPage m =? 0) eqn:He; [discriminate|]. injection Ht as <-.
  pose proof (len_nonneg (LeaderboardEntries m)) as Hn.
  assert (LeaderboardEntries m <> [] -> 1 <= len (LeaderboardEntries m)) as Hne.
  { intros Hne. destruct (LeaderboardEntries m); [done|].
    unfold len. simpl. lia. }
  rewrite Z.quot_div_nonneg by lia.
  pose proof (Z.div_mod (len (LeaderboardEntries m) + entriesPerPage m - 1)
                (entriesPerPage m) ltac:(lia)) as Hdm.
  pose proof (Z.mod_pos_bound
                (len (LeaderboardEntries m) + entriesPerPage m - 1)
                (entriesPerPage m) Hp) as Hmod.
  assert (0 <= (len (LeaderboardEntries m) + entriesPerPage m - 1)
               / entriesPerPage m) as Hq by (apply Z.div_pos; lia).
  destruct ((len (LeaderboardEntries m) + entriesPerPage m - 1)
              / entriesPerPage m =? 0) eqn:Hz; zprop.
  - rewrite Hz in Hdm. split; [lia|]. split; [lia|].
    intros Hne'. specialize (Hne Hne'). lia.
  - split; [lia|]. split; [nia|]. intros _. nia.
Qed.

(** X17. The leaderboard shows one page.  In the Badger revision, with a
    page size above zero, [renderLeaderboard] does not panic; it writes the
    entries of one page, in their order and each with the mark of its place
    on the whole leaderboard: the current page when that is one of the [t]
    pages, the last page when it lies beyond, the first when it is
    negative.  The pages cover the leaderboard, and the page shown is not
    empty unless the leaderboard is. *)
Theorem the_leaderboard_shows_one_page m t :
  0 < entriesPerPage m ->
  totalPagesOf m = Some t ->
  let page := Z.max 0 (Z.min (currentPage m) (t - 1)) in
  let start := page * entriesPerPage m in
  0 <= page < t
  /\ renderLeaderboard Badger m
     = Some (imap (fun i entry => (prefixOf (start + Z.of_nat i), entry))
                  (take (Z.to_nat (entriesPerPage m))
                        (drop (Z.to_nat start) (LeaderboardEntries m))))
  /\ len (LeaderboardEntries m) <= t * entriesPerPage m
  /\ (LeaderboardEntries m <> [] -> start < len (LeaderboardEntries m)).
Proof.
  intros Hp Ht page start.
  destruct (totalPagesOf_spec m t Hp Ht) as (Hone & Hcov & Hlast).
  assert (0 <= page < t) as Hpage by (unfold page; lia).
  assert (LeaderboardEntries m <> [] -> start < len (LeaderboardEntries m))
    as Hstart.
  { intros Hne. specialize (Hlast Hne). unfold start.
    assert (page * entriesPerPage m <= (t - 1) * entriesPerPage m)
      by (apply Z.mul_le_mono_nonneg_r; lia).
    lia. }
  split; [exact Hpage|]. split; [|split; assumption].
  unfold renderLeaderboard. rewrite Ht.
  destruct (len (LeaderboardEntries m) =? 0) eqn:E0; zprop.
  { apply len_zero in E0. rewrite E0, drop_nil, take_nil. reflexivity. }
  assert (LeaderboardEntries m <> []) as Hne.
  { intros E. apply E0. now rewrite E. }
  specialize (Hstart Hne).
  assert ((let currentPage' :=
             if t <=? currentPage m then t - 1 else currentPage m in
           if currentPage' <? 0 then 0 else currentPage') = page) as Hclamp.
  { cbv zeta. unfold page. repeat case_match; zprop; lia. }
  unfold pageWindow. cbv zeta in *. rewrite Hclamp. fold start.
  assert (0 <= start) as Hs0 by (unfold start; nia).
  pose proof (length_drop (LeaderboardEntries m) (Z.to_nat start)) as Hld.
  destruct (len (LeaderboardEntries m) <? start + entriesPerPage m) eqn:E;
    zprop; unfold slice.
  - replace ((0 <=? start) && (start <=? len (LeaderboardEntries m))
             && (len (LeaderboardEntries m) <=? len (LeaderboardEntries m)))
      with true by (symmetry; rewrite !andb_true_iff, !Z.leb_le; lia).
    do 2 f_equal. unfold len in *.
    rewrite !take_ge; [reflexivity|lia|lia].
  - replace ((0 <=? start) && (start <=? start + entriesPerPage m)
             && (start + entriesPerPage m <=? len (LeaderboardEntries m)))
      with true by (symmetry; rewrite !andb_true_iff, !Z.leb_le; lia).
    do 3 f_equal. lia.
Qed.

(** X18. The constructor without styles cannot page.  [NewModel] leaves
    the page size at zero and no message changes it: in the Badger revision
    a session that began with [NewModel] panics, once the challenge is done,
    whenever the leaderboard is rendered and on every key but "ctrl+c".  A
    session that began with [NewModelWithStyles] keeps the page size 10. *)
Theorem the_constructor_without_styles_cannot_page input now events m :
  run Badger (NewModel input now) events = Some m ->
  hasUserAlreadyDoneDailyChallenge m = true ->
  renderLeaderboard Badger m = None
  /\ (forall env key, key <> lit "ctrl+c" ->
                      Update Badger env m (KeyMsg key) = None)
  /\ (forall key' events' m',
         run Badger (NewModelWithStyles input now key') events' = Some m' ->
         entriesPerPage m' = 10).
Proof.
  intros Hr Hd.
  apply run_session_invariant in Hr as (_ & Hp & _); [|simpl; discriminate..].
  simpl in Hp. split; [|split].
  - unfold renderLeaderboard, totalPagesOf. rewrite Hp. simpl.
    now destruct (len (LeaderboardEntries m) =? 0).
  - intros env key Hk. simpl. unfold Update_key, Update_page.
    rewrite bool_decide_eq_false_2, Hd, Hp by assumption. reflexivity.
  - intros key' events' m' Hr'.
    now apply run_session_invariant in Hr' as (_ & Hp' & _);
      [|simpl; discriminate..].
Qed.

(** Which commands each message may be answered with. *)
Lemma Update_ticks rev env m msg m' c :
  Update rev env m msg = Some (m', c) ->
  (cmdCount isTick c <= if isTickMsg (env, msg) then 1 else 0)%nat
  /\ (cmdCount isTick c <> O -> hasUserAlreadyDoneDailyChallenge m' = false).
Proof.
  destruct msg as [w h|sentence|success message|b|d es| | |key|];
    cbv [isTickMsg snd]; simpl; intros Hu;
    try (repeat case_match; simplify_eq/=;
         (split; [lia|intros E; now destruct E])).
  - unfold Update_tick in Hu.
    repeat case_match; simplify_eq/=; (split; [lia|]); intros E;
      try (now destruct E);
      repeat match goal with
             | E : negb _ = true |- _ => apply negb_true_iff in E
             end; simpl in *; congruence.
  - apply Update_key_cmd in Hu as [->|[->| ->]]; simpl;
      (split; [lia|intros E; now destruct E]).
Qed.

(** X19. The tick timer does not multiply.  A tick message is answered by
    at most one tick command and no other message by any, so a session
    never asks for more ticks than it received; the tick that submits and
    every tick after the challenge is done ask for none. *)
Theorem the_tick_timer_does_not_multiply rev m events cmds :
  commands rev m events = Some cmds ->
  (list_sum (map (cmdCount isTick) cmds)
   <= length (List.filter isTickMsg events))%nat
  /\ (forall env m' c,
         Update rev env m tickMsg = Some (m', c) ->
         hasUserAlreadyDoneDailyChallenge m' = true ->
         cmdCount isTick c = O).
Proof.
  intros Hc. split.
  - revert m cmds Hc.
    induction events as [|[env msg] events IH]; simpl; intros m cmds Hc.
    + injection Hc as <-. simpl. lia.
    + destruct (Update rev env m msg) as [[m1 c1]|] eqn:Hu; [|discriminate].
      destruct (commands rev m1 events) as [cs|] eqn:Hcs; [|discriminate].
      injection Hc as <-. simpl.
      pose proof (proj1 (Update_ticks _ _ _ _ _ _ Hu)) as Hone.
      specialize (IH _ _ Hcs).
      destruct (isTickMsg (env, msg)); simpl; lia.
  - intros env m' c Hu Hd.
    destruct (cmdCount isTick c) eqn:E; [reflexivity|].
    destruct (Update_ticks _ _ _ _ _ _ Hu) as [_ Hopen].
    rewrite Hopen in Hd by lia. discriminate.
Qed.

(** X20. The score of the guarded revision is not negative.  On texts
    without multi-byte characters, when the clock read for the division is
    past the start and the quotient is a number an [int] holds, a tick of
    the Badger revision leaves a score that is the old one or the integer
    part of the quotient, and not negative if the old one was not. *)
Theorem the_guarded_score_is_not_negative env m m' c z :
  all_ascii (textUserTyped m) ->
  all_ascii (textToType m) ->
  0 <= WPM m ->
  Float64.gt_zero (minutesSince m (clock2 env)) = true ->
  Float64.representable
    (Float64.div
       (Float64.div
          (Float64.of_int (matching (textUserTyped m) (textToType m)))
          (Float64.of_int 5))
       (minutesSince m (clock2 env))) = Some z ->
  Update Badger env m tickMsg = Some (m', c) ->
  0 <= WPM m' /\ (WPM m' = WPM m \/ WPM m' = z).
Proof.
  intros Hty Htg Hw Hpos Hrep Hu.
  pose proof (matching_bounds (textUserTyped m) (textToType m)) as (Hn & _).
  destruct (wpmOf_not_negative _ _ _ Hn Hpos Hrep) as [Hz Hz0].
  simpl in Hu. unfold Update_tick in Hu.
  rewrite totalCorrectCharactersTyped_ascii in Hu by assumption.
  repeat case_match; simplify_eq/=; split; auto; lia.
Qed.

End SessionMore.

(** * The countdown text *)

Lemma decimal_digits_S (fuel : nat) (n : Z) :
  Clock.decimal_digits (S fuel) n
  = if n <? 10 then [Clock.digit n]
    else Clock.decimal_digits fuel (n / 10) ++ [Clock.digit (n mod 10)].
Proof. reflexivity. Qed.

Lemma Sprintf_02d_two (n : Z) :
  0 <= n < 100 -> Clock.Sprintf_02d n = two_digits n.
Proof.
  intros Hn. unfold Clock.Sprintf_02d, two_digits, Clock.decimal.
  destruct (n <? 0) eqn:E0; [apply Z.ltb_lt in E0; lia|].
  rewrite decimal_digits_S.
  destruct (n <? 10) eqn:E1.
  - apply Z.ltb_lt in E1.
    rewrite Z.div_small, Z.mod_small by lia. reflexivity.
  - apply Z.ltb_ge in E1.
    destruct (Z.to_nat n) as [|k] eqn:Ek; [lia|].
    rewrite decimal_digits_S.
    replace (n / 10 <? 10) with true; [reflexivity|].
    symmetry. apply Z.ltb_lt. apply Z.div_lt_upper_bound; lia.
Qed.

(** X21. The countdown text.  For a time of less than 99 hours that is not
    negative, [formatDuration] rounds to the nearest second and writes
    hours, minutes and seconds with two digits each, minutes and seconds
    below 60: eight characters that read back as the rounded time. *)
Theorem the_countdown_reads_back (d : Z) :
  0 <= d < 99 * Clock.Hour ->
  exists h m s,
    (0 <= h < 100 /\ 0 <= m < 60 /\ 0 <= s < 60)
    /\ (h * 3600 + m * 60 + s) * Clock.Second = Clock.Round d Clock.Second
    /\ 2 * Z.abs (Clock.Round d Clock.Second - d) <= Clock.Second
    /\ Clock.formatDuration d
       = two_digits h ++ lit ":" ++ two_digits m ++ lit ":" ++ two_digits s
    /\ length (Clock.formatDuration d) = 8%nat.
Proof.
  intros Hd. unfold Clock.Hour, Clock.Second in Hd.
  assert (exists total,
             Clock.Round d Clock.Second = total * 1000000000
             /\ 0 <= total < 360000
             /\ 2 * Z.abs (Clock.Round d Clock.Second - d) <= 1000000000)
    as (total & HD & Htot & Hnear).
  { unfold Clock.Round, Clock.Second. cbn [Z.leb Z.compare].
    destruct (d <? 0) eqn:E; [apply Z.ltb_lt in E; lia|].
    destruct (Z.rem d 1000000000 + Z.rem d 1000000000 <? 1000000000) eqn:Er;
      [apply Z.ltb_lt in Er|apply Z.ltb_ge in Er].
    - exists (Z.quot d 1000000000). Z.quot_rem_to_equations. lia.
    - exists (Z.quot d 1000000000 + 1). Z.quot_rem_to_equations. lia. }
  unfold Clock.formatDuration. cbv zeta.
  unfold Clock.Hour, Duration.Minute. fold Clock.Second.
  rewrite HD. unfold Clock.Second.
  set (h := Z.quot (total * 1000000000) (3600 * 1000000000)).
  set (m := Z.quot (total * 1000000000 - h * (3600 * 1000000000))
                   (60 * 1000000000)).
  set (s := Z.quot (total * 1000000000 - h * (3600 * 1000000000)
                    - m * (60 * 1000000000)) 1000000000).
  assert (0 <= h < 100 /\ 0 <= m < 60 /\ 0 <= s < 60
          /\ h * 3600 + m * 60 + s = total) as (Hh & Hm & Hs & Hsum).
  { subst h m s. Z.quot_rem_to_equations. lia. }
  rewrite HD in Hnear.
  exists h, m, s. split; [auto|]. split; [lia|]. split; [exact Hnear|].
  rewrite !Sprintf_02d_two by lia. split; reflexivity.
Qed.

(** * From the submission to the leaderboard *)

Section Flow.

Context `{SortSlice} `{Unicode} `{TextInput} `{Platform}.

(** The leaderboard message of a date with a record. *)
Lemma fetch_of_record (rev : revision) (d : store rev) (dateId : gostring)
      (stats : list Data.LeaderBoardEntry) :
  recorded rev d dateId = Some stats ->
  fetchTodaysLeaderBoard rev d dateId
  = leaderboardReceivedMsg dateId (map rowOf (sort_Slice Data.byWPM stats)).
Proof.
  unfold fetchTodaysLeaderBoard.
  destruct rev; cbv [recorded store data_GetLeaderBoard]; intros Hrec.
  - unfold DataSqlite.GetLeaderBoard.
    match type of Hrec with
    | context [match ?x with _ => _ end] => destruct x as [r|]
    end; [|discriminate].
    injection Hrec as <-. reflexivity.
  - unfold DataBadger.GetLeaderBoard.
    destruct (DataBadger.getValue_entry d (DataBadger.storePrefix ++ dateId))
      as [e|err]; [|discriminate].
    injection Hrec as <-. reflexivity.
Qed.

(** An accepted submission is the last entry of the record, as JSON keeps
    it. *)
Lemma accepted_record (rev : revision) (d d' : store rev)
      (dateId userID username : gostring) (wpm : Z) :
  data_SubmitSentence rev d dateId userID username wpm = (d', None) ->
  exists stats,
    recorded rev d' dateId
    = Some (stats ++ [Json.stored_entry
                        {| Data.UserID := userID; Data.Username := username;
                           Data.WPM := wpm |}]).
Proof.
  destruct rev; cbv [data_SubmitSentence store]; intros Hs.
  - destruct (@lookup _ _ DataSqlite.db _ dateId d) as [r|] eqn:Hr.
    + destruct (SqliteFacts.SubmitSentence_appends d dateId userID username
                  wpm r Hr) as (d1 & printed & E & Hrec).
      rewrite E in Hs. injection Hs as <-.
      rewrite map_app in Hrec. eauto.
    + unfold DataSqlite.SubmitSentence in Hs. rewrite Hr in Hs. discriminate.
  - destruct (badger_accepted_record _ _ _ _ _ _ Hs) as (stats & Hrec & _).
    rewrite map_app in Hrec. eauto.
Qed.

(** A refused submission leaves the store as it is. *)
Lemma refused_store (rev : revision) (d d' : store rev)
      (dateId userID username : gostring) (wpm : Z) (e : error) :
  data_SubmitSentence rev d dateId userID username wpm = (d', Some e) ->
  d' = d.
Proof.
  destruct rev; cbv [data_SubmitSentence store]; intros Hs.
  - unfold DataSqlite.SubmitSentence in Hs.
    destruct (@lookup _ _ DataSqlite.db _ dateId d); [discriminate|].
    now injection Hs as <- _.
  - unfold DataBadger.SubmitSentence in Hs.
    repeat case_match; simplify_eq/=; reflexivity.
Qed.

(** X22. From the submission to the leaderboard.  What the submit command
    answers, handled by [Update] in the model whose challenge is done:
    when the store accepted the score, the answer makes [Update] fetch the
    leaderboard; the leaderboard then fetched from the new store holds the
    row of the submission as JSON keeps it (the row itself when user ID and
    name are well-formed UTF-8), and the message that brings it is stored
    in the model and starts the polling.  When the store refused, the store
    is as before and [Update] asks for nothing: no fetch, no poll. *)
Theorem from_the_submission_to_the_leaderboard
        (rev : revision) (d d' : store rev)
        (dateId userID username : gostring) (wpm : Z)
        (env env' : Env) (m : model) (msg : Msg) :
  hasUserAlreadyDoneDailyChallenge m = true ->
  submitSentence rev d dateId userID username wpm = (d', msg) ->
  (exists text,
      msg = sentenceSubmittedMsg false text
      /\ d' = d
      /\ Update rev env m msg = Some (m, nilCmd))
  \/ (msg = sentenceSubmittedMsg true "Sentence submitted successfully"
      /\ Update rev env m msg = Some (m, fetchTodaysLeaderBoardCmd)
      /\ exists rows m',
          fetchTodaysLeaderBoard rev d' dateId
          = leaderboardReceivedMsg dateId rows
          /\ In (rowOf (Json.stored_entry
                           {| Data.UserID := userID;
                              Data.Username := username;
                              Data.WPM := wpm |})) rows
          /\ (Utf8.valid userID = true ->
              Utf8.valid username = true ->
              In {| LB.UserID := userID; LB.Username := username;
                    LB.WPM := wpm |} rows)
          /\ Update rev env' m (leaderboardReceivedMsg dateId rows)
             = Some (m', leaderboardPollCmd)
          /\ LeaderboardEntries m' = rows
          /\ dateID m' = dateId).
Proof.
  intros Hd Hs. unfold submitSentence in Hs.
  destruct (data_SubmitSentence rev d dateId userID username wpm)
    as [d1 [[text]|]] eqn:E; injection Hs as <- <-.
  - left. exists text. split; [reflexivity|].
    split; [exact (refused_store _ _ _ _ _ _ _ _ E)|reflexivity].
  - right. split; [reflexivity|]. split; [reflexivity|].
    destruct (accepted_record _ _ _ _ _ _ _ E) as (stats & Hrec).
    eexists _, (set_LeaderboardEntries (set_dateID m dateId) _).
    split; [exact (fetch_of_record _ _ _ _ Hrec)|].
    assert (In (rowOf (Json.stored_entry
                         {| Data.UserID := userID; Data.Username := username;
                            Data.WPM := wpm |}))
               (map rowOf
                    (sort_Slice Data.byWPM
                       (stats ++ [Json.stored_entry
                                    {| Data.UserID := userID;
                                       Data.Username := username;
                                       Data.WPM := wpm |}])))) as Hin.
    { apply in_map.
      eapply Permutation_in; [apply sort_Slice_perm|].
      apply in_or_app. right. now left. }
    split; [exact Hin|]. split; [|split; [|split; reflexivity]].
    + intros Hvu Hvn.
      replace {| LB.UserID := userID; LB.Username := username;
                 LB.WPM := wpm |}
        with (rowOf (Json.stored_entry
                       {| Data.UserID := userID; Data.Username := username;
                          Data.WPM := wpm |}));
        [exact Hin|now rewrite stored_entry_valid].
    + simpl. rewrite Hd. reflexivity.
Qed.

End Flow.

(** * The properties at work *)


Lemma other_dates_are_untouched_witness :
  today <> lit "2025-06-02"
  /\ recorded SQLite
       (data_SubmitSentence SQLite sqliteDay today (lit "u1") (lit "alice")
                            50).1
       (lit "2025-06-02")
     = recorded SQLite sqliteDay (lit "2025-06-02").
Proof.
  assert (today <> lit "2025-06-02") as Hne
      by (intros E; vm_compute in E; congruence).
  split; [exact Hne|].
  exact (proj1 (other_dates_are_untouched SQLite sqliteDay today
                  (lit "2025-06-02") (lit "u1") (lit "alice") (lit "fox") 50
                  Hne)).
Defined.

Lemma published_sentence_is_read_back_witness :
  data_InsertSentence Badger (∅ : DataBadger.db) today
                      (lit "the quick brown fox")
  = (badgerDay, None)
  /\ data_GetTodaysSentence Badger badgerDay today
     = Ok (lit "the quick brown fox").
Proof.
  assert (data_InsertSentence Badger (∅ : DataBadger.db) today
                              (lit "the quick brown fox")
          = (badgerDay, None)) as Hi.
  { rewrite (surjective_pairing
               (data_InsertSentence Badger (∅ : DataBadger.db) today
                                    (lit "the quick brown fox"))).
    f_equal. }
  split; [exact Hi|].
  exact (proj1 (published_sentence_is_read_back Badger ∅ badgerDay today
                  (lit "the quick brown fox") Hi)).
Defined.

Lemma status_agrees_with_leaderboard_witness :
  exists resp,
    @data_GetLeaderBoard stableSort Badger badgerTie today = Ok resp
    /\ data_GetUserChallengeStatus Badger badgerTie today (lit "u1") = Ok true
    /\ In (lit "u1") (map Data.UserID (Data.LeaderboardEntries resp)).
Proof.
  assert (exists resp,
             @data_GetLeaderBoard stableSort Badger badgerTie today = Ok resp)
    as (resp & Hl) by (eexists; vm_compute; reflexivity).
  assert (data_GetUserChallengeStatus Badger badgerTie today (lit "u1")
          = Ok true) as Hs by (vm_compute; reflexivity).
  exists resp. split; [exact Hl|split; [exact Hs|]].
  exact (proj1 (@status_agrees_with_leaderboard stableSort Badger badgerTie
                  today (lit "u1") true resp Hs Hl) eq_refl).
Defined.

Lemma a_score_is_submitted_once_witness :
  let m := sessionWith (lit "ab") in
  let events := [at_time 10 (key "a"); at_time 6000000000 (key "b");
                 at_time 12000000000 tickMsg; at_time 12000000001 tickMsg] in
  Forall keeps_done events
  /\ exists cmds,
      commands Badger m events = Some cmds
      /\ (list_sum (map (cmdCount isSubmit) cmds) <= 1)%nat.
Proof.
  intros m events.
  assert (Forall keeps_done events) as Hk by (repeat constructor).
  split; [exact Hk|].
  assert (exists cmds, commands Badger m events = Some cmds) as (cmds & Hc)
      by (eexists; vm_compute; reflexivity).
  exists cmds. split; [exact Hc|].
  exact (proj1 (a_score_is_submitted_once Badger m events cmds Hk Hc)).
Defined.

Lemma a_submission_carries_key_name_and_score_witness :
  let events :=
    [at_time 1 (userDailyChallengeStatusReceivedMsg false);
     at_time 2 (key "p"); at_time 3 (key "l"); at_time 4 (key "a");
     at_time 5 (key "y"); at_time 6 (key "e"); at_time 7 (key "r");
     at_time 8 (key "enter");
     at_time 9 (randomSentenceReceivedMsg (lit "ab"));
     at_time 10 (key "a"); at_time 6000000000 (key "b")] in
  let env := fst (at_time 12000000000 tickMsg) in
  exists m m' c,
    run Badger (NewModelWithStyles [] 0 (lit "key")) events = Some m
    /\ Update Badger env m tickMsg = Some (m', c)
    /\ c = submitSentenceCmd (lit "key") (username m') (WPM m')
    /\ validUsername Badger (username m') = true.
Proof.
  intros events env.
  assert (exists m m' c,
             run Badger (NewModelWithStyles [] 0 (lit "key")) events = Some m
             /\ Update Badger env m tickMsg = Some (m', c)
             /\ cmdCount isSubmit c <> O) as (m & m' & c & Hr & Hu & Hc).
  { do 3 eexists. split; [vm_compute; reflexivity|].
    split; [vm_compute; reflexivity|]. vm_compute. discriminate. }
  exists m, m', c. split; [exact Hr|split; [exact Hu|]].
  destruct (@a_submission_carries_key_name_and_score latin1 plainInput amd64
              Badger [] 0 (lit "key") events m env tickMsg m' c Hr Hu Hc)
    as (_ & Hcmd & Hv & _).
  split; [exact Hcmd|exact Hv].
Defined.

Lemma the_name_is_asked_once_witness :
  let m := sessionWith (lit "ab") in
  let events := [at_time 10 (key "a"); at_time 20 tickMsg] in
  exists m',
    run Badger m events = Some m'
    /\ userSetUsername m' = true
    /\ username m' = lit "player".
Proof.
  intros m events.
  assert (exists m', run Badger m events = Some m') as (m' & Hr)
      by (eexists; vm_compute; reflexivity).
  exists m'. split; [exact Hr|].
  exact (proj1 (the_name_is_asked_once Badger m events m' Hr) eq_refl).
Defined.

Lemma typing_the_sentence_submits_it_witness :
  let m := sessionWith (lit "ab") in
  let events := [at_time 10 (key "a"); at_time 6000000000 (key "b")] in
  let env := fst (at_time 12000000000 tickMsg) in
  exists m1 m2,
    run SQLite m events = Some m1
    /\ textUserTyped m1 = lit "ab"
    /\ Update SQLite env m1 tickMsg
       = Some (m2, submitSentenceCmd (lit "key") (lit "player") (WPM m2)).
Proof.
  intros m events env.
  assert (userSetUsername m = true) as Hn by reflexivity.
  assert (hasUserAlreadyDoneDailyChallenge m = false) as Hd by reflexivity.
  assert (textUserTyped m = []) as Hty by reflexivity.
  assert (textToType m <> []) as Hne by (vm_compute; discriminate).
  assert (all_ascii (textToType m)) as Ha by (repeat constructor).
  assert (Forall (fun b => printable (byteval b) = true /\ b <> newline)
                 (textToType m)) as Hp.
  { repeat (constructor;
            [split; [reflexivity|intros E; vm_compute in E; congruence]|]).
    constructor. }
  assert (types (textToType m) events) as Hev by (repeat constructor).
  destruct (typing_the_sentence_submits_it SQLite m events env
              Hn Hd Hty Hne Ha Hp Hev) as (m1 & m2 & Hr & Ht & _ & Hu & _).
  exists m1, m2. split; [exact Hr|split; [exact Ht|exact Hu]].
Defined.

Lemma ascii_sessions_do_not_panic_witness :
  let m := sessionWith (lit "ab") in
  let events := [at_time 5 (randomSentenceReceivedMsg (lit "hi"));
                 at_time 10 (key "h"); at_time 20 (key "left");
                 at_time 30 tickMsg] in
  all_ascii (textToType m)
  /\ Forall ascii_sentences events
  /\ exists m', run Badger m events = Some m'.
Proof.
  intros m events.
  assert (all_ascii (textToType m)) as Ha by (repeat constructor).
  assert (Forall ascii_sentences events) as Hs by (repeat constructor).
  assert (Badger = Badger -> entriesPerPage m <> 0) as Hp
      by (intros _; vm_compute; discriminate).
  split; [exact Ha|split; [exact Hs|]].
  destruct (ascii_sessions_do_not_panic Badger m events Ha Hs Hp)
    as (m' & cmds & Hr & _).
  exists m'. exact Hr.
Defined.

Lemma backspace_undoes_the_key_witness :
  let m := sessionWith (lit "ab") in
  let env := fst (at_time 10 tickMsg) in
  exists m1 c1 m2,
    Update Badger env m (key "a") = Some (m1, c1)
    /\ textUserTyped m1 = lit "a"
    /\ Update Badger env m1 (key "backspace") = Some (m2, nilCmd)
    /\ textUserTyped m2 = [].
Proof.
  intros m env.
  assert (exists m1 c1, Update Badger env m (KeyMsg ["a"%char]) = Some (m1, c1)
                        /\ textUserTyped m1 = lit "a")
    as (m1 & c1 & Hu & Ht).
  { do 2 eexists. split; vm_compute; reflexivity. }
  assert (textUserTyped m1 <> textUserTyped m) as Hch
      by (rewrite Ht; vm_compute; discriminate).
  assert (last (textUserTyped m) <> Some newline) as Hnl
      by (vm_compute; discriminate).
  assert (entriesPerPage m <> 0) as Hp by (vm_compute; discriminate).
  destruct (backspace_undoes_the_key Badger env env m "a"%char m1 c1
              Hu Hch Hnl Hp) as (m2 & Hb & Ht2 & _).
  exists m1, c1, m2.
  split; [exact Hu|split; [exact Ht|split; [exact Hb|exact Ht2]]].
Defined.

Lemma the_tick_counts_matching_positions_witness :
  let m := inProgress (lit "cat sat") (lit "cut") 0 0 in
  exists n,
    totalCorrectCharactersTyped m = Some n
    /\ 0 <= n <= 3.
Proof.
  intros m.
  assert (all_ascii (textUserTyped m)) as Hty by (repeat constructor).
  assert (all_ascii (textToType m)) as Htg by (repeat constructor).
  destruct (the_tick_counts_matching_positions m Hty Htg)
    as (n & Hn & _ & Hb & _).
  exists n. split; [exact Hn|exact Hb].
Defined.

Lemma paging_keys_stay_in_range_witness :
  let env := fst (at_time 10 tickMsg) in
  totalPagesOf elevenRows = Some 2
  /\ exists m' c,
      Update Badger env elevenRows (key "right") = Some (m', c)
      /\ m' = set_currentPage elevenRows 1.
Proof.
  intros env.
  assert (totalPagesOf elevenRows = Some 2) as Ht by reflexivity.
  assert (0 <= currentPage elevenRows < 2) as Hr
      by (split; vm_compute; [discriminate|reflexivity]).
  assert (exists m' c,
             Update Badger env elevenRows (key "right") = Some (m', c))
    as (m' & c & Hu) by (do 2 eexists; vm_compute; reflexivity).
  split; [exact Ht|]. exists m', c. split; [exact Hu|].
  destruct (paging_keys_stay_in_range env elevenRows (lit "right") m' c 2
              Hu Ht Hr) as (_ & Hkeys).
  destruct (Hkeys eq_refl) as (_ & Hright & _).
  exact (Hright (or_introl eq_refl)).
Defined.

Lemma the_leaderboard_shows_one_page_witness :
  let m := set_currentPage elevenRows 1 in
  0 < entriesPerPage m
  /\ totalPagesOf m = Some 2
  /\ exists rows, renderLeaderboard Badger m = Some rows.
Proof.
  intros m.
  assert (0 < entriesPerPage m) as Hp by reflexivity.
  assert (totalPagesOf m = Some 2) as Ht by reflexivity.
  split; [exact Hp|split; [exact Ht|]].
  destruct (the_leaderboard_shows_one_page m 2 Hp Ht) as (_ & Hrows & _).
  eexists. exact Hrows.
Defined.

Lemma the_countdown_reads_back_witness :
  0 <= 3661400000000 < 99 * Clock.Hour
  /\ length (Clock.formatDuration 3661400000000) = 8%nat.
Proof.
  assert (0 <= 3661400000000 < 99 * Clock.Hour) as Hd
      by (split; vm_compute; [discriminate|reflexivity]).
  split; [exact Hd|].
  destruct (the_countdown_reads_back 3661400000000 Hd)
    as (h & m & s & _ & _ & _ & _ & Hl).
  exact Hl.
Defined.

Lemma from_the_submission_to_the_leaderboard_witness :
  let m := set_hasUserAlreadyDoneDailyChallenge (sessionWith (lit "ab")) true in
  let env := fst (at_time 10 tickMsg) in
  exists d' msg c,
    submitSentence Badger badgerDay today (lit "key") (lit "player") 50
    = (d', msg)
    /\ @Update latin1 plainInput amd64 Badger env m msg = Some (m, c).
Proof.
  intros m env.
  assert (hasUserAlreadyDoneDailyChallenge m = true) as Hd by reflexivity.
  assert (exists d' msg,
             submitSentence Badger badgerDay today (lit "key") (lit "player") 50
             = (d', msg)) as (d' & msg & Hs)
      by (do 2 eexists; apply surjective_pairing).
  destruct (@from_the_submission_to_the_leaderboard stableSort latin1
              plainInput amd64 Badger badgerDay d' today (lit "key")
              (lit "player") 50 env env m msg Hd Hs)
    as [(text & _ & _ & Hu)|(_ & Hu & _)].
  - exists d', msg, nilCmd. split; [exact Hs|exact Hu].
  - exists d', msg, fetchTodaysLeaderBoardCmd. split; [exact Hs|exact Hu].
Defined.

Lemma the_constructor_without_styles_cannot_page_witness :
  let events := [at_time 1 (userDailyChallengeStatusReceivedMsg true)] in
  exists m,
    run Badger (NewModel [] 0) events = Some m
    /\ renderLeaderboard Badger m = None.
Proof.
  intros events.
  assert (exists m, run Badger (NewModel [] 0) events = Some m
                    /\ hasUserAlreadyDoneDailyChallenge m = true)
    as (m & Hr & Hd) by (eexists; split; vm_compute; reflexivity).
  exists m. split; [exact Hr|].
  exact (proj1 (@the_constructor_without_styles_cannot_page latin1
                  plainInput amd64 [] 0 events m Hr Hd)).
Defined.

Lemma submission_without_a_record_witness :
  recorded Badger (∅ : DataBadger.db) today = None
  /\ exists d',
      data_SubmitSentence Badger (∅ : DataBadger.db) today
                          (lit "u1") (lit "alice") 50 = (d', None)
      /\ recorded Badger d' today = Some [entry "u1" "alice" 50].
Proof.
  assert (recorded Badger (∅ : DataBadger.db) today = None) as Hnone
      by reflexivity.
  split; [exact Hnone|].
  destruct (proj2 (submission_without_a_record today (lit "u1") (lit "alice")
                     50) ∅ Hnone) as (d' & Hs & _ & Hrec).
  exists d'. split; [exact Hs|]. exact (Hrec eq_refl eq_refl).
Defined.

Lemma what_a_poll_brings_witness :
  let env := fst (at_time 10 tickMsg) in
  hasUserAlreadyDoneDailyChallenge elevenRows = true
  /\ exists m1 c1,
      Update SQLite env elevenRows leaderboardPollMsg = Some (m1, c1)
      /\ cmdCount isFetch c1 = 1%nat.
Proof.
  intros env.
  assert (hasUserAlreadyDoneDailyChallenge elevenRows = true) as Hd
      by reflexivity.
  split; [exact Hd|].
  destruct (proj1 (@what_a_poll_brings latin1 plainInput amd64 SQLite env env
                     elevenRows today []) Hd)
    as (m1 & c1 & m2 & c2 & Hu & Hf & _).
  exists m1, c1. split; [exact Hu|exact Hf].
Defined.

Lemma the_tick_timer_does_not_multiply_witness :
  let m := sessionWith (lit "ab") in
  let events := [at_time 10 (key "a"); at_time 20 tickMsg;
                 at_time 30 leaderboardPollMsg; at_time 40 tickMsg] in
  exists cmds,
    commands SQLite m events = Some cmds
    /\ (list_sum (map (cmdCount isTick) cmds) <= 2)%nat.
Proof.
  intros m events.
  assert (exists cmds, commands SQLite m events = Some cmds) as (cmds & Hc)
      by (eexists; vm_compute; reflexivity).
  exists cmds. split; [exact Hc|].
  exact (proj1 (the_tick_timer_does_not_multiply SQLite m events cmds Hc)).
Defined.

Lemma the_guarded_score_is_not_negative_witness :
  let m := inProgress (lit "cat sat") (lit "cat sat") 0 0 in
  let env := fst (at_time 6000000000 tickMsg) in
  exists m' c,
    Update Badger env m tickMsg = Some (m', c)
    /\ 0 <= WPM m'.
Proof.
  intros m env.
  assert (all_ascii (textUserTyped m)) as Hty by (repeat constructor).
  assert (all_ascii (textToType m)) as Htg by (repeat constructor).
  assert (0 <= WPM m) as Hw by (vm_compute; discriminate).
  assert (Float64.gt_zero (minutesSince m (clock2 env)) = true) as Hpos
      by (vm_compute; reflexivity).
  assert (Float64.representable
            (Float64.div
               (Float64.div
                  (Float64.of_int (matching (textUserTyped m) (textToType m)))
                  (Float64.of_int 5))
               (minutesSince m (clock2 env))) = Some 13) as Hrep
      by (vm_compute; reflexivity).
  assert (exists m' c, Update Badger env m tickMsg = Some (m', c))
    as (m' & c & Hu) by (do 2 eexists; vm_compute; reflexivity).
  exists m', c. split; [exact Hu|].
  exact (proj1 (the_guarded_score_is_not_negative env m m' c 13
                  Hty Htg Hw Hpos Hrep Hu)).
Defined.
